(** * SolCex BD plugin: scoring engine and wallet forensics

    A shallow embedding of the decision logic of the plugin
    ([services/scoring.ts], [services/helius.ts], [services/dexscreener.ts],
    [types/index.ts]) together with the properties its specification states.

    Modelling conventions.
    - A JavaScript [number] read from a JSON payload is a rational [Q];
      comparisons against the tier thresholds are exact.  Scores, catalyst
      points and flag impacts are only ever built from integer literals, sums
      and clamps, and are integers [Z].  Array lengths are [nat].
    - Strings are byte strings (UTF-8); the only case folding the engine
      relies on concerns the ASCII patterns "sold", "created" and
      "initialize mint".
    - The engine is not pure: it reads the system clock ([Date.now()],
      [new Date()]) and it pushes onto the [catalysts] array of a
      [TokenScore] through a reference.  Both effects are threaded through a
      small state monad over a [World], which also records the operands of
      every [/] that is evaluated.
    - [KNOWN_MIXERS], [KNOWN_INSTITUTIONAL] (the address sets of
      [helius.ts]) and the host's [toLocaleString] are parameters of the
      development, so that the results hold however the two lists are
      filled in; [Shipped] holds the lists as the source has them, both
      empty. *)

From Stdlib Require Import ZArith QArith Qround Qabs String Ascii List Sorted Lia Lqa DecimalString.
From stdpp Require Import base option gmap strings.
Import ListNotations.

Local Open Scope Z_scope.
Local Open Scope string_scope.

(** ** JavaScript numbers and strings *)

Module Js.

Definition gtb (a b : Q) : bool := negb (Qle_bool a b).
Definition geb (a b : Q) : bool := Qle_bool b a.
Definition ltb (a b : Q) : bool := negb (Qle_bool b a).

Definition of_nat (n : nat) : Q := inject_Z (Z.of_nat n).

(** Template-literal rendering of integers. *)
Definition Z_to_string (z : Z) : string := NilZero.string_of_int (Z.to_int z).
Definition nat_to_string (n : nat) : string := NilZero.string_of_uint (Nat.to_uint n).

Fixpoint zeros (n : nat) : string :=
  match n with
  | O => ""
  | S k => String "0" (zeros k)
  end.

(** [Number.prototype.toFixed(d)]: the sign is split off, the magnitude is
    scaled by [10^d] and rounded to the nearest integer (the larger one on a
    tie), and the decimal point is put back before the last [d] digits.
    (The ECMAScript algorithm switches to exponent notation from [10^21]
    on; the engine renders balances, percentages and ratios.)  The
    rounding is that of the exact rational: a binary double that lies just
    below a tie, such as 2.05, is rendered one unit lower by the engine.
    [toFixed] only feeds the rationale strings of catalysts and flags. *)
Definition toFixed (d : nat) (x : Q) : string :=
  let s := if ltb x 0 then "-" else "" in
  let a := Qabs x in
  let n := Qfloor (a * inject_Z (10 ^ Z.of_nat d) + (1 # 2)) in
  let m := Z_to_string n in
  match d with
  | O => s ++ m
  | _ =>
      let k := String.length m in
      let m := if (k <=? d)%nat then zeros (d + 1 - k) ++ m else m in
      let k := String.length m in
      s ++ substring 0 (k - d) m ++ "." ++ substring (k - d) d m
  end.

Definition lower (c : ascii) : ascii :=
  let n := nat_of_ascii c in
  if ((65 <=? n) && (n <=? 90))%nat then ascii_of_nat (n + 32) else c.

Fixpoint toLowerCase (s : string) : string :=
  match s with
  | EmptyString => EmptyString
  | String c t => String (lower c) (toLowerCase t)
  end.

(** [hay.includes(needle)] *)
Fixpoint includes (hay needle : string) : bool :=
  String.prefix needle hay
  || match hay with
     | EmptyString => false
     | String _ t => includes t needle
     end.

(** [s.slice(0, n)] *)
Definition slice0 (n : nat) (s : string) : string := substring 0 n s.

(** [xs.join(sep)] *)
Fixpoint join (sep : string) (xs : list string) : string :=
  match xs with
  | [] => ""
  | [x] => x
  | x :: rest => x ++ sep ++ join sep rest
  end.

(** [Math.max(0, Math.min(100, x))] on integers *)
Definition clamp100 (x : Z) : Z := Z.max 0 (Z.min 100 x).

End Js.

(** ** Data model ([types/index.ts]) *)

(** Fields follow the declared interfaces: an optional field ([liquidity?],
    [fdv?], [marketCap?], [pairCreatedAt?], [info?] and its parts) is an
    [option]; on a field the interface requires, the [?.] and [?? 0] the
    engine writes defensively have nothing to do. *)

Module TokenInfo.
Record t := mk { address : string; name : string; symbol : string }.
End TokenInfo.

Module BuySell.
Record t := mk { buys : Q; sells : Q }.
End BuySell.

Module Txns.
Record t := mk { h24 : BuySell.t; h6 : BuySell.t; h1 : BuySell.t; m5 : BuySell.t }.
End Txns.

Module Windows.
Record t := mk { h24 : Q; h6 : Q; h1 : Q; m5 : Q }.
End Windows.

Module Liquidity.
Record t := mk { usd : Q; base : Q; quote : Q }.
End Liquidity.

Module Link.
(** [{label, url}] for websites, [{type, url}] for socials *)
Record t := mk { tag : string; url : string }.
End Link.

Module Info.
Record t := mk {
  imageUrl : option string;
  websites : option (list Link.t);
  socials : option (list Link.t) }.
End Info.

Module DexPair.
Record t := mk {
  chainId : string;
  dexId : string;
  url : string;
  pairAddress : string;
  baseToken : TokenInfo.t;
  quoteToken : TokenInfo.t;
  priceNative : string;
  priceUsd : string;
  txns : Txns.t;
  volume : Windows.t;
  priceChange : Windows.t;
  liquidity : option Liquidity.t;
  fdv : option Q;
  marketCap : option Q;
  pairCreatedAt : option Q;
  info : option Info.t }.
End DexPair.
Abbreviation DexPair := DexPair.t.

Module ScoreBreakdown.
Record t := mk {
  category : string;
  weight : Z;
  score : Z;
  maxScore : Z;
  value : string;
  details : string }.
End ScoreBreakdown.
Abbreviation ScoreBreakdown := ScoreBreakdown.t.

Module CatalystAdjustment.
Record t := mk { name : string; points : Z; reason : string }.
End CatalystAdjustment.
Abbreviation CatalystAdjustment := CatalystAdjustment.t.

Inductive ScoreAction := HOT | QUALIFIED | WATCH | SKIP.

Inductive WalletFlag :=
| WALLET_VERIFIED | INSTITUTIONAL | NET_POSITIVE | SERIAL_CREATOR
| DUMP_ALERT | MIXER_REJECT | UNKNOWN.

Definition WalletFlag_name (f : WalletFlag) : string :=
  match f with
  | WALLET_VERIFIED => "WALLET_VERIFIED"
  | INSTITUTIONAL => "INSTITUTIONAL"
  | NET_POSITIVE => "NET_POSITIVE"
  | SERIAL_CREATOR => "SERIAL_CREATOR"
  | DUMP_ALERT => "DUMP_ALERT"
  | MIXER_REJECT => "MIXER_REJECT"
  | UNKNOWN => "UNKNOWN"
  end.

Definition WalletFlag_eqb (a b : WalletFlag) : bool :=
  match a, b with
  | WALLET_VERIFIED, WALLET_VERIFIED | INSTITUTIONAL, INSTITUTIONAL
  | NET_POSITIVE, NET_POSITIVE | SERIAL_CREATOR, SERIAL_CREATOR
  | DUMP_ALERT, DUMP_ALERT | MIXER_REJECT, MIXER_REJECT
  | UNKNOWN, UNKNOWN => true
  | _, _ => false
  end.

Module WalletFlagDetail.
Record t := mk { flag : WalletFlag; impact : Z; reason : string }.
End WalletFlagDetail.
Abbreviation WalletFlagDetail := WalletFlagDetail.t.

Inductive RiskLevel := LOW | MEDIUM | HIGH | CRITICAL.

Module WalletForensicsResult.
Record t := mk {
  deployerAddress : string;
  chain : string;
  fundedBy : string;
  nativeBalance : Q;
  tokenCount : nat;
  recentTransactions : nat;
  flags : list WalletFlagDetail;
  scoreAdjustment : Z;
  riskLevel : RiskLevel;
  analyzedAt : Z;
  summary : string }.
End WalletForensicsResult.
Abbreviation WalletForensicsResult := WalletForensicsResult.t.

(** One entry of the transaction sample returned by [getTransactions]. *)
Module Tx.
Record t := mk { type : string; timestamp : Q; description : string }.
End Tx.

(** The value returned by [getBalances]. *)
Module Balances.
Record t := mk { nativeBalance : Q; tokenCount : nat }.
End Balances.

(** The value returned by [analyzeDumpPattern]. *)
Module DumpPattern.
Record t := mk { isDumping : bool; dumpPercent : Q }.
End DumpPattern.

(** Arrays that are mutated through a shared reference live in the store. *)
Definition loc := positive.

Module TokenScore.
(** [catalysts] is a reference to an array in the store; [breakdown] is never
    written after construction and is kept as a value.  [scoredAt] is the
    instant that [toISOString] renders. *)
Record t := mk {
  contractAddress : string;
  chain : string;
  tokenName : string;
  tokenSymbol : string;
  totalScore : Z;
  maxScore : Z;
  action : ScoreAction;
  breakdown : list ScoreBreakdown;
  catalysts : loc;
  recommendation : string;
  scoredAt : Z;
  pairAddress : string;
  pairUrl : string }.

Definition set_totalScore (v : Z) (s : t) : t :=
  mk (contractAddress s) (chain s) (tokenName s) (tokenSymbol s) v (maxScore s)
     (action s) (breakdown s) (catalysts s) (recommendation s) (scoredAt s)
     (pairAddress s) (pairUrl s).
Definition set_action (v : ScoreAction) (s : t) : t :=
  mk (contractAddress s) (chain s) (tokenName s) (tokenSymbol s) (totalScore s)
     (maxScore s) v (breakdown s) (catalysts s) (recommendation s) (scoredAt s)
     (pairAddress s) (pairUrl s).
Definition set_recommendation (v : string) (s : t) : t :=
  mk (contractAddress s) (chain s) (tokenName s) (tokenSymbol s) (totalScore s)
     (maxScore s) (action s) (breakdown s) (catalysts s) v (scoredAt s)
     (pairAddress s) (pairUrl s).
End TokenScore.
Abbreviation TokenScore := TokenScore.t.

(** ** The world the engine runs in *)

Record World := mkWorld {
  heap : gmap loc (list CatalystAdjustment);  (* the catalysts arrays *)
  next : loc;                                 (* next fresh reference *)
  clock : nat -> Z;      (* successive readings of the system clock, in ms *)
  reads : nat;           (* how many readings were taken *)
  divisions : list (Q * Q) (* operands of every [/] evaluated, latest first *)
}.

Definition M (A : Type) : Type := World -> A * World.

Definition ret {A : Type} (a : A) : M A := fun w => (a, w).
Definition bind {A B : Type} (m : M A) (k : A -> M B) : M B := fun w =>
  let '(a, w1) := m w in k a w1.

Notation "'do' x <- m ; k" := (bind m (fun x => k))
  (at level 10, x name, m at level 100, k at level 200,
   format "'[v' 'do'  x  <-  m ; '/' k ']'").

(** [Date.now()] (and the instant of [new Date()]) *)
Definition Date_now : M Z := fun w =>
  (clock w (reads w),
   mkWorld (heap w) (next w) (clock w) (S (reads w)) (divisions w)).

(** [a / b] *)
Definition div (a b : Q) : M Q := fun w =>
  ((a / b)%Q,
   mkWorld (heap w) (next w) (clock w) (reads w) ((a, b) :: divisions w)).

(** A fresh array holding [xs]. *)
Definition array_new (xs : list CatalystAdjustment) : M loc := fun w =>
  (next w,
   mkWorld (<[next w := xs]> (heap w)) (Pos.succ (next w)) (clock w) (reads w)
           (divisions w)).

(** [r.push(x)] *)
Definition array_push (r : loc) (x : CatalystAdjustment) : M unit := fun w =>
  (tt,
   mkWorld (alter (fun xs => (xs ++ [x])%list) r (heap w)) (next w) (clock w) (reads w)
           (divisions w)).

(** [for (const x of xs) body(x)] *)
Fixpoint for_of {A : Type} (xs : list A) (body : A -> M unit) : M unit :=
  match xs with
  | [] => ret tt
  | x :: rest => do _ <- body x; for_of rest body
  end.

(** [a && rest], where [rest] is only evaluated when [a] holds. *)
Definition and_then (a : bool) (rest : M bool) : M bool :=
  if a then rest else ret false.

(** Contents of the array a reference points to (empty when dangling). *)
Definition deref (w : World) (r : loc) : list CatalystAdjustment :=
  default [] (heap w !! r).

Arguments Js.gtb (a b)%_Q.
Arguments Js.geb (a b)%_Q.
Arguments Js.ltb (a b)%_Q.
Arguments div (a b)%_Q.

Declare Scope js_scope.
Delimit Scope js_scope with js.
Notation "a >? b" := (Js.gtb a b) (at level 70, no associativity) : js_scope.
Notation "a >=? b" := (Js.geb a b) (at level 70, no associativity) : js_scope.
Notation "a <? b" := (Js.ltb a b) (at level 70, no associativity) : js_scope.

(** ** Remote responses and raw payloads *)

(** The outcome of [fetch] followed by [resp.json()]: the call threw, the
    status was not ok, or a body was decoded. *)
Inductive Response (A : Type) : Type :=
| Threw
| NotOk
| Json (body : A).
Arguments Threw {A}.
Arguments NotOk {A}.
Arguments Json {A} body.

(** The body of a pair lookup by address: [{ pairs?, pair? }]. *)
Module PairLookup.
Record t := mk { pairs : option (list DexPair); pair : option DexPair }.
End PairLookup.

(** An entry of the token-profiles and token-boosts feeds. *)
Module Profile.
Record t := mk { chainId : string; tokenAddress : string }.
End Profile.

Module Boost.
Record t := mk { chainId : string; tokenAddress : string; amount : Q }.
End Boost.

(** The options of [scanHighPotential]. *)
Module ScanOptions.
Record t := mk {
  minLiquidity : option Q;
  minVolume24h : option Q;
  minMarketCap : option Q;
  chains : option (list string) }.
End ScanOptions.

(** Helius payloads are read as [any]; a field the code guards with [?.],
    [??] or [||] may be absent. *)
Module NativeTransfer.
Record t := mk {
  fromUserAccount : option string;
  toUserAccount : string;
  amount : Q }.
End NativeTransfer.

Module RawTx.
Record t := mk {
  type : option string;
  timestamp : option Q;
  description : option string;
  nativeTransfers : option (list NativeTransfer.t) }.
End RawTx.

Module TokenHolding.
Record t := mk { mint : string; amount : Q; decimals : Q }.
End TokenHolding.

Module BalancesJson.
Record t := mk {
  nativeBalance : option Q;
  tokens : option (list TokenHolding.t) }.
End BalancesJson.

(** ** JavaScript arrays and patterns *)

Module JsArray.

(** [xs.sort(compare)].  The sort is stable; with a comparator that is the
    difference of a key the outcome is the same for every algorithm, and
    insertion from the right is one. *)
Fixpoint insert {A : Type} (compare : A -> A -> Q) (x : A) (sorted : list A)
  : list A :=
  match sorted with
  | [] => [x]
  | y :: rest =>
      if Js.gtb (compare x y) 0%Q then y :: insert compare x rest
      else x :: y :: rest
  end.

Definition sort {A : Type} (compare : A -> A -> Q) (xs : list A) : list A :=
  fold_right (insert compare) [] xs.

(** [xs.includes(x)] on strings *)
Definition includes (xs : list string) (x : string) : bool :=
  existsb (String.eqb x) xs.

(** [xs.some(p)], [xs.find(p)], [xs.slice(0, n)] are [existsb], [find] and
    [firstn]. *)

End JsArray.

Module JsString.

(** The first [n] characters, and what follows them. *)
Fixpoint take (n : nat) (s : string) : string :=
  match n, s with
  | S k, String c t => String c (take k t)
  | _, _ => EmptyString
  end.

Fixpoint drop (n : nat) (s : string) : string :=
  match n, s with
  | S k, String _ t => drop k t
  | _, _ => s
  end.

(** Length of the longest prefix whose characters are all in a class. *)
Fixpoint run (class : ascii -> bool) (s : string) : nat :=
  match s with
  | String c t => if class c then S (run class t) else O
  | EmptyString => O
  end.

Definition between (lo hi : nat) (c : ascii) : bool :=
  ((lo <=? nat_of_ascii c) && (nat_of_ascii c <=? hi))%nat.

(** [[a-fA-F0-9]] *)
Definition isHex (c : ascii) : bool :=
  between 97 102 c || between 65 70 c || between 48 57 c.

(** [[1-9A-HJ-NP-Za-km-z]] *)
Definition isBase58 (c : ascii) : bool :=
  between 49 57 c || between 65 72 c || between 74 78 c || between 80 90 c
  || between 97 107 c || between 109 122 c.

(** [\d] *)
Definition isDigit (c : ascii) : bool := between 48 57 c.

(** Truthiness of a string: the empty string is falsy. *)
Definition truthy (s : string) : bool :=
  match s with
  | EmptyString => false
  | _ => true
  end.

End JsString.

(** [xs.map(f)] for an effectful [f], element by element. *)
Fixpoint map_M {A B : Type} (f : A -> M B) (xs : list A) : M (list B) :=
  match xs with
  | [] => ret []
  | x :: rest =>
      do y <- f x;
      do ys <- map_M f rest;
      ret (y :: ys)
  end.

(** ** Sample inputs *)

Module Sample.

Definition token : TokenInfo.t :=
  TokenInfo.mk "So1TokenMint1111111111111111111111111111111" "Sample" "SMP".
Definition usdc : TokenInfo.t :=
  TokenInfo.mk "EPjFWdd5AufqSSqeM2qN1xzybapC8G4wEGGkZwyTDt1v" "USD Coin" "USDC".
Definition link : Link.t := Link.mk "twitter" "https://example.org".

Definition day : Z := 1000 * 60 * 60 * 24.
(** The instant the sample pairs were created, in ms. *)
Definition created : Z := 1700000000000.

Definition pair
    (liquidityUsd marketCap vol24h vol6h buys24h sells24h : Q)
    (websites socials : nat) (pairCreatedAt : option Q) : DexPair :=
  {| DexPair.chainId := "solana";
     DexPair.dexId := "raydium";
     DexPair.url := "https://dexscreener.com/solana/pair";
     DexPair.pairAddress := "Pair111111111111111111111111111111111111111";
     DexPair.baseToken := token;
     DexPair.quoteToken := usdc;
     DexPair.priceNative := "0.0001";
     DexPair.priceUsd := "0.01";
     DexPair.txns :=
       Txns.mk (BuySell.mk buys24h sells24h) (BuySell.mk 0 0) (BuySell.mk 0 0)
               (BuySell.mk 0 0);
     DexPair.volume := Windows.mk vol24h vol6h 0 0;
     DexPair.priceChange := Windows.mk 0 0 0 0;
     DexPair.liquidity := Some (Liquidity.mk liquidityUsd 0 0);
     DexPair.fdv := None;
     DexPair.marketCap := Some marketCap;
     DexPair.pairCreatedAt := pairCreatedAt;
     DexPair.info :=
       Some (Info.mk None (Some (repeat link websites))
                     (Some (repeat link socials))) |}.

(** Scenario A and scenario B of the specification. *)
Definition pairA : DexPair :=
  pair 600000 50000 40000 0 0 0 0 0 (Some (inject_Z created)).
Definition pairB : DexPair :=
  pair 600000 12000000 1200000 0 100 10 1 3 (Some (inject_Z created)).
(** A pair that only differs from scenario A in its liquidity. *)
Definition pairLiquidity (usd : Q) : DexPair :=
  pair usd 50000 40000 0 0 0 0 0 (Some (inject_Z created)).
(** 6h volume without 24h volume, buys without sells. *)
Definition pairNoDenominator : DexPair :=
  pair 600000 50000 0 1000 50 0 0 0 (Some (inject_Z created)).

(** A world with an empty store whose clock reads [t] at every call. *)
Definition world (t : Z) : World :=
  {| heap := ∅; next := 1%positive; clock := fun _ => t; reads := 0;
     divisions := [] |}.

(** A host rendering of numbers: the integer part, without grouping. *)
Definition locale (x : Q) : string := Js.Z_to_string (Qfloor x).

Definition mixerAddress : string := "Mixer11111111111111111111111111111111111111".
Definition fundAddress : string := "Fund111111111111111111111111111111111111111".
Definition funder : string := "Funder1111111111111111111111111111111111111".
Definition deployer : string := "Deployer11111111111111111111111111111111111".

Definition mixers : gset string := {[ mixerAddress ]}.
Definition institutions : gset string := {[ fundAddress ]}.

(** Eight token creations: by type, and by description in either case. *)
Definition creations : list Tx.t :=
  (repeat (Tx.mk "CREATE" 1690000000 "") 4
   ++ repeat (Tx.mk "UNKNOWN" 1690000000 "Deployer Created a new token") 2
   ++ repeat (Tx.mk "UNKNOWN" 1690000000 "Initialize Mint for SMP") 2)%list.

Definition balances : Balances.t := Balances.mk 5 2.
Definition emptyWallet : Balances.t := Balances.mk 0 0.


(** Messages of the kind the actions receive. *)
Definition evmMessage : string :=
  "Evaluate 0x1234567890abcdef1234567890abcdef12345678 on Base".
Definition solanaMessage : string :=
  "Score this token: 7xKXtg2CW87d97TXJSDpbD5jBkheTqA83TZRuJosgAsU".

(** A transfer history of the deployer: the earliest transaction that pays
    it lists a zero-amount transfer before the paying one. *)
Definition duster : string := "Duster1111111111111111111111111111111111111".
Definition history : list RawTx.t :=
  [ RawTx.mk (Some "TRANSFER") (Some 1700000500%Q) (Some "later top-up")
      (Some [NativeTransfer.mk (Some fundAddress) deployer 5000000000]);
    RawTx.mk (Some "TRANSFER") (Some 1700000100%Q) None
      (Some [NativeTransfer.mk (Some duster) deployer 0;
             NativeTransfer.mk (Some funder) deployer 2000000000]);
    RawTx.mk (Some "TRANSFER") (Some 1700000050%Q) (Some "outgoing")
      (Some [NativeTransfer.mk (Some deployer) funder 1000]) ].

(** Pairs of one token on several markets. *)
Definition markets : list DexPair :=
  [ pairLiquidity 100000; pairLiquidity 300000; pairLiquidity 200000 ].

(** Discovery feeds: a token listed twice, one the service does not know,
    and a boost feed that answers with a bad status. *)
Definition profiles : Response (list Profile.t) :=
  Json [ Profile.mk "solana" "TokenB"; Profile.mk "solana" "TokenB";
         Profile.mk "base" "TokenUnknown"; Profile.mk "solana" "TokenA" ].
Definition lookups (i : nat) (chain address : string)
  : Response (option (list DexPair)) :=
  if String.eqb address "TokenB" then Json (Some [pairB])
  else if String.eqb address "TokenA" then Json (Some [pairA])
  else NotOk.
Definition noChains : option ScanOptions.t :=
  Some (ScanOptions.mk None None None (Some [])).

End Sample.

(** [const WEIGHTS] of [scoring.ts] *)
Module WEIGHTS.
Definition liquidity : Z := 25.
Definition marketCap : Z := 20.
Definition volume24h : Z := 20.
Definition social : Z := 15.
Definition age : Z := 10.
Definition team : Z := 10.
End WEIGHTS.

(** The address lists as [helius.ts] has them: [new Set<string>([ ])] with
    only comments between the brackets, and no code that adds to them. *)
Module Shipped.
Definition KNOWN_MIXERS : gset string := ∅.
Definition KNOWN_INSTITUTIONAL : gset string := ∅.
End Shipped.

Section Engine.

(** [const KNOWN_MIXERS = new Set<string>([...])] and
    [const KNOWN_INSTITUTIONAL = new Set<string>([...])] of [helius.ts]:
    the lists are meant to be filled in as addresses are discovered, and
    are empty in the source as it stands ([Shipped]). *)
Variable KNOWN_MIXERS : gset string.
Variable KNOWN_INSTITUTIONAL : gset string.

(** [Number.prototype.toLocaleString()], which depends on the host locale. *)
Variable toLocaleString : Q -> string.

(** ** [services/dexscreener.ts] *)

(** [pair.info?.websites] and [pair.info?.socials] *)
Definition info_websites (pair : DexPair) : option (list Link.t) :=
  DexPair.info pair ≫= Info.websites.
Definition info_socials (pair : DexPair) : option (list Link.t) :=
  DexPair.info pair ≫= Info.socials.

(** [x?.length], [undefined] when [x] is absent *)
Definition opt_length {A : Type} (xs : option (list A)) : option nat :=
  length <$> xs.

(** Truthiness of an optional length: absent and [0] are both falsy. *)
Definition truthy_length (n : option nat) : bool :=
  match n with
  | Some (S _) => true
  | _ => false
  end.

Definition getTokenAgeDays (pair : DexPair) : M Z :=
  match DexPair.pairCreatedAt pair with
  | None => ret (-1)
  | Some created =>
      if Qeq_bool created 0 then ret (-1)
      else
        do now <- Date_now;
        do q <- div (inject_Z now - created) (inject_Z (1000 * 60 * 60 * 24));
        ret (Qfloor q)
  end.

Definition countSocials (pair : DexPair) : nat :=
  let count := 0%nat in
  let count :=
    if truthy_length (opt_length (info_websites pair))
    then (count + length (default [] (info_websites pair)))%nat else count in
  let count :=
    if truthy_length (opt_length (info_socials pair))
    then (count + length (default [] (info_socials pair)))%nat else count in
  count.

(** ** [services/scoring.ts] *)

Definition scoreLiquidity (pair : DexPair) : ScoreBreakdown :=
  let usd := default 0%Q (Liquidity.usd <$> DexPair.liquidity pair) in
  let '(score, details) :=
    if (usd >=? 500000)%js then (25, "Excellent liquidity")
    else if (usd >=? 200000)%js then (20, "Good liquidity")
    else if (usd >=? 100000)%js then (15, "Acceptable liquidity")
    else if (usd >=? 50000)%js then (10, "Low liquidity — higher risk")
    else (5, "Very low liquidity — caution") in
  {| ScoreBreakdown.category := "Liquidity";
     ScoreBreakdown.weight := WEIGHTS.liquidity;
     ScoreBreakdown.score := score;
     ScoreBreakdown.maxScore := 25;
     ScoreBreakdown.value := "$" ++ toLocaleString usd;
     ScoreBreakdown.details := details |}.

(** [pair.marketCap ?? pair.fdv ?? 0] *)
Definition effectiveMarketCap (pair : DexPair) : Q :=
  match DexPair.marketCap pair with
  | Some m => m
  | None => default 0%Q (DexPair.fdv pair)
  end.

Definition scoreMarketCap (pair : DexPair) : ScoreBreakdown :=
  let mcap := effectiveMarketCap pair in
  let '(score, details) :=
    if (mcap >=? 10000000)%js then (20, "Strong market cap")
    else if (mcap >=? 1000000)%js then (16, "Good market cap")
    else if (mcap >=? 500000)%js then (12, "Acceptable market cap")
    else if (mcap >=? 100000)%js then (8, "Small cap — early stage")
    else (4, "Micro cap — high risk") in
  {| ScoreBreakdown.category := "Market Cap";
     ScoreBreakdown.weight := WEIGHTS.marketCap;
     ScoreBreakdown.score := score;
     ScoreBreakdown.maxScore := 20;
     ScoreBreakdown.value := "$" ++ toLocaleString mcap;
     ScoreBreakdown.details := details |}.

Definition scoreVolume (pair : DexPair) : ScoreBreakdown :=
  let vol := Windows.h24 (DexPair.volume pair) in
  let '(score, details) :=
    if (vol >=? 1000000)%js then (20, "Excellent volume")
    else if (vol >=? 500000)%js then (16, "Good volume")
    else if (vol >=? 100000)%js then (12, "Moderate volume")
    else if (vol >=? 50000)%js then (8, "Low volume")
    else (4, "Very low volume") in
  {| ScoreBreakdown.category := "Volume 24h";
     ScoreBreakdown.weight := WEIGHTS.volume24h;
     ScoreBreakdown.score := score;
     ScoreBreakdown.maxScore := 20;
     ScoreBreakdown.value := "$" ++ toLocaleString vol;
     ScoreBreakdown.details := details |}.

Definition scoreSocial (pair : DexPair) : ScoreBreakdown :=
  let platforms := countSocials pair in
  let '(score, details) :=
    if (4 <=? platforms)%nat
    then (15, Js.nat_to_string platforms ++ " platforms — strong presence")
    else if (2 <=? platforms)%nat
    then (10, Js.nat_to_string platforms ++ " platforms — moderate presence")
    else if (1 <=? platforms)%nat
    then (6, Js.nat_to_string platforms ++ " platform — minimal presence")
    else (2, "No social links found") in
  {| ScoreBreakdown.category := "Social";
     ScoreBreakdown.weight := WEIGHTS.social;
     ScoreBreakdown.score := score;
     ScoreBreakdown.maxScore := 15;
     ScoreBreakdown.value := Js.nat_to_string platforms ++ " platforms";
     ScoreBreakdown.details := details |}.

Definition scoreAge (pair : DexPair) : M ScoreBreakdown :=
  do days <- getTokenAgeDays pair;
  let '(score, details) :=
    if days >? 180 then (10, Js.Z_to_string days ++ " days — established")
    else if days >? 30 then (8, Js.Z_to_string days ++ " days — moderate history")
    else if days >? 7 then (5, Js.Z_to_string days ++ " days — new")
    else if days >=? 0
    then (3, Js.Z_to_string days ++ " days — very new, higher risk")
    else (2, "Age unknown") in
  ret {| ScoreBreakdown.category := "Age";
          ScoreBreakdown.weight := WEIGHTS.age;
          ScoreBreakdown.score := score;
          ScoreBreakdown.maxScore := 10;
          ScoreBreakdown.value :=
            if days >=? 0 then Js.Z_to_string days ++ " days" else "Unknown";
          ScoreBreakdown.details := details |}.

Definition scoreTeam (pair : DexPair) : ScoreBreakdown :=
  let websites := default 0%nat (opt_length (info_websites pair)) in
  let socials := default 0%nat (opt_length (info_socials pair)) in
  let '(score, details) :=
    if ((1 <=? websites) && (2 <=? socials))%nat
    then (10, "Website + multiple socials — good transparency")
    else if ((1 <=? websites) || (2 <=? socials))%nat
    then (7, "Some online presence")
    else if (1 <=? socials)%nat then (4, "Minimal online presence")
    else (2, "No verifiable team info") in
  {| ScoreBreakdown.category := "Team Transparency";
     ScoreBreakdown.weight := WEIGHTS.team;
     ScoreBreakdown.score := score;
     ScoreBreakdown.maxScore := 10;
     ScoreBreakdown.value :=
       Js.nat_to_string websites ++ " sites, " ++ Js.nat_to_string socials
       ++ " socials";
     ScoreBreakdown.details := details |}.

(** [detectCatalysts]: the array under construction is private to the call
    and is built as a list; it enters the store when [scoreToken] puts it in
    the object it returns. *)
Definition detectCatalysts (pair : DexPair) : M (list CatalystAdjustment) :=
  let catalysts : list CatalystAdjustment := [] in
  let vol24h := Windows.h24 (DexPair.volume pair) in
  let vol6h := Windows.h6 (DexPair.volume pair) in
  let priceChange := Windows.h24 (DexPair.priceChange pair) in
  let buys24h := BuySell.buys (Txns.h24 (DexPair.txns pair)) in
  let sells24h := BuySell.sells (Txns.h24 (DexPair.txns pair)) in
  let socials := countSocials pair in
  do fires <- and_then (vol6h >? 0)%js (and_then (vol24h >? 0)%js (
             do r <- div vol6h vol24h; ret (r >? 0.5)%js));
  let catalysts :=
    if fires
    then (catalysts ++
          [ {| CatalystAdjustment.name := "Volume Momentum";
               CatalystAdjustment.points := 5;
               CatalystAdjustment.reason :=
                 "6h volume >50% of 24h — active momentum" |} ])%list
    else catalysts in
  do fires <- and_then (buys24h >? 0)%js (and_then (sells24h >? 0)%js (
             do r <- div buys24h sells24h; ret (r >? 2)%js));
  do catalysts <-
    (if fires
     then do r <- div buys24h sells24h;
          ret (catalysts ++
                [ {| CatalystAdjustment.name := "Buy Pressure";
                     CatalystAdjustment.points := 3;
                     CatalystAdjustment.reason :=
                       "Buy/sell ratio " ++ Js.toFixed 1 r ++ "x" |} ])%list
     else ret catalysts);
  let catalysts :=
    if (4 <=? socials)%nat
    then (catalysts ++
          [ {| CatalystAdjustment.name := "Multi-Platform Presence";
               CatalystAdjustment.points := 5;
               CatalystAdjustment.reason :=
                 Js.nat_to_string socials ++ " social platforms active" |} ])%list
    else catalysts in
  let catalysts :=
    if (priceChange <? -30)%js
    then (catalysts ++
          [ {| CatalystAdjustment.name := "Price Dump";
               CatalystAdjustment.points := -10;
               CatalystAdjustment.reason :=
                 Js.toFixed 1 priceChange ++ "% drop in 24h" |} ])%list
    else catalysts in
  do fires <- and_then (buys24h >? 0)%js (and_then (sells24h >? 0)%js (
             do r <- div sells24h buys24h; ret (r >? 3)%js));
  do catalysts <-
    (if fires
     then do r <- div sells24h buys24h;
          ret (catalysts ++
                [ {| CatalystAdjustment.name := "Sell Pressure";
                     CatalystAdjustment.points := -5;
                     CatalystAdjustment.reason :=
                       "Sell/buy ratio " ++ Js.toFixed 1 r ++ "x — dump risk" |} ])%list
     else ret catalysts);
  ret catalysts.

Definition getAction (score : Z) : ScoreAction :=
  if score >=? 85 then HOT
  else if score >=? 70 then QUALIFIED
  else if score >=? 50 then WATCH
  else SKIP.

Definition getRecommendation (action : ScoreAction) : string :=
  match action with
  | HOT => "🔥 HOT — Immediate outreach + wallet forensics recommended"
  | QUALIFIED => "✅ QUALIFIED — Priority queue, run wallet forensics"
  | WATCH => "👀 WATCH — Monitor for 48 hours"
  | SKIP => "⏭️ SKIP — Below threshold, log only"
  end.

(** [xs.reduce((sum, x) => sum + f(x), 0)] *)
Definition sum_by {A : Type} (f : A -> Z) (xs : list A) : Z :=
  fold_left (fun sum x => sum + f x) xs 0.

Definition scoreToken (pair : DexPair) : M TokenScore :=
  let liquidity := scoreLiquidity pair in
  let marketCap := scoreMarketCap pair in
  let volume := scoreVolume pair in
  let social := scoreSocial pair in
  do age <- scoreAge pair;
  let team := scoreTeam pair in
  let breakdown := [liquidity; marketCap; volume; social; age; team] in
  let baseScore := sum_by ScoreBreakdown.score breakdown in
  do found <- detectCatalysts pair;
  let catalystTotal := sum_by CatalystAdjustment.points found in
  let totalScore := Js.clamp100 (baseScore + catalystTotal) in
  let action := getAction totalScore in
  do catalysts <- array_new found;
  do scoredAt <- Date_now;
  ret {| TokenScore.contractAddress := TokenInfo.address (DexPair.baseToken pair);
          TokenScore.chain := DexPair.chainId pair;
          TokenScore.tokenName := TokenInfo.name (DexPair.baseToken pair);
          TokenScore.tokenSymbol := TokenInfo.symbol (DexPair.baseToken pair);
          TokenScore.totalScore := totalScore;
          TokenScore.maxScore := 100;
          TokenScore.action := action;
          TokenScore.breakdown := breakdown;
          TokenScore.catalysts := catalysts;
          TokenScore.recommendation := getRecommendation action;
          TokenScore.scoredAt := scoredAt;
          TokenScore.pairAddress := DexPair.pairAddress pair;
          TokenScore.pairUrl := DexPair.url pair |}.

(** [some(f => f.flag === "MIXER_REJECT")] *)
Definition has_mixer_reject (flags : list WalletFlagDetail) : bool :=
  existsb (fun f => WalletFlag_eqb (WalletFlagDetail.flag f) MIXER_REJECT) flags.

(** [{ ...tokenScore }] copies the fields of the object, hence the reference
    held in [catalysts]: [adjusted.catalysts] and [tokenScore.catalysts] are
    the same array. *)
Definition applyWalletAdjustment
    (tokenScore : TokenScore) (walletResult : WalletForensicsResult)
  : M TokenScore :=
  let adjusted := tokenScore in
  let adjustment := WalletForensicsResult.scoreAdjustment walletResult in
  do _ <- for_of (WalletForensicsResult.flags walletResult) (fun flag =>
         array_push (TokenScore.catalysts adjusted)
           {| CatalystAdjustment.name :=
                "Wallet: " ++ WalletFlag_name (WalletFlagDetail.flag flag);
              CatalystAdjustment.points := WalletFlagDetail.impact flag;
              CatalystAdjustment.reason := WalletFlagDetail.reason flag |});
  let adjusted :=
    TokenScore.set_totalScore
      (Js.clamp100 (TokenScore.totalScore tokenScore + adjustment)) adjusted in
  let adjusted :=
    TokenScore.set_action (getAction (TokenScore.totalScore adjusted)) adjusted in
  let adjusted :=
    TokenScore.set_recommendation
      (getRecommendation (TokenScore.action adjusted)) adjusted in
  let adjusted :=
    if has_mixer_reject (WalletForensicsResult.flags walletResult)
    then
      TokenScore.set_recommendation
        "🚫 AUTO-REJECTED — Deployer funded via mixer/tornado"
        (TokenScore.set_action SKIP (TokenScore.set_totalScore 0 adjusted))
    else adjusted in
  ret adjusted.

(** ** [services/helius.ts] *)

Definition analyzeDumpPattern (transactions : list Tx.t) : M DumpPattern.t :=
  do ms <- Date_now;
  do now <- div (inject_Z ms) 1000;
  let sevenDaysAgo := (now - inject_Z (7 * 24 * 60 * 60))%Q in
  let recentTxns :=
    List.filter (fun tx => (Tx.timestamp tx >? sevenDaysAgo)%js) transactions in
  let sells :=
    List.filter
      (fun tx =>
         String.eqb (Tx.type tx) "SWAP"
         && Js.includes (Js.toLowerCase (Tx.description tx)) "sold")
      recentTxns in
  do dumpPercent <-
    (if (0 <? length recentTxns)%nat
     then do r <- div (Js.of_nat (length sells)) (Js.of_nat (length recentTxns));
          ret (r * 100)%Q
     else ret 0%Q);
  ret {| DumpPattern.isDumping :=
           (dumpPercent >? 50)%js && (3 <=? length sells)%nat;
         DumpPattern.dumpPercent := dumpPercent |}.

Definition countTokenCreates (transactions : list Tx.t) : nat :=
  length
    (List.filter
       (fun tx =>
          String.eqb (Tx.type tx) "CREATE"
          || Js.includes (Js.toLowerCase (Tx.description tx)) "created"
          || Js.includes (Js.toLowerCase (Tx.description tx)) "initialize mint")
       transactions).

Definition generateFlags
    (address fundedBy : string) (nativeBalance : Q) (tokenCount : nat)
    (transactions : list Tx.t)
  : M (list WalletFlagDetail) :=
  let flags : list WalletFlagDetail := [] in
  if bool_decide (fundedBy ∈ KNOWN_MIXERS)
  then
    ret (flags ++
         [ {| WalletFlagDetail.flag := MIXER_REJECT;
              WalletFlagDetail.impact := -100;
              WalletFlagDetail.reason :=
                "Funded by known mixer: " ++ Js.slice0 8 fundedBy ++ "..." |} ])%list
  else
    let flags :=
      if bool_decide (fundedBy ∈ KNOWN_INSTITUTIONAL)
         || bool_decide (address ∈ KNOWN_INSTITUTIONAL)
      then (flags ++
            [ {| WalletFlagDetail.flag := INSTITUTIONAL;
                 WalletFlagDetail.impact := 8;
                 WalletFlagDetail.reason :=
                   "Linked to known institutional/VC wallet" |} ])%list
      else flags in
    let createCount := countTokenCreates transactions in
    let flags :=
      if (5 <? createCount)%nat
      then (flags ++
            [ {| WalletFlagDetail.flag := SERIAL_CREATOR;
                 WalletFlagDetail.impact := -5;
                 WalletFlagDetail.reason :=
                   "Created " ++ Js.nat_to_string createCount
                   ++ " tokens — serial creator pattern" |} ])%list
      else flags in
    do pattern <- analyzeDumpPattern transactions;
    let isDumping := DumpPattern.isDumping pattern in
    let dumpPercent := DumpPattern.dumpPercent pattern in
    let flags :=
      if isDumping
      then (flags ++
            [ {| WalletFlagDetail.flag := DUMP_ALERT;
                 WalletFlagDetail.impact :=
                   if (dumpPercent >? 70)%js then -15 else -10;
                 WalletFlagDetail.reason :=
                   Js.toFixed 0 dumpPercent
                   ++ "% sell transactions in last 7 days" |} ])%list
      else flags in
    let flags :=
      if (nativeBalance >? 1)%js && (0 <? tokenCount)%nat && negb isDumping
      then (flags ++
            [ {| WalletFlagDetail.flag := NET_POSITIVE;
                 WalletFlagDetail.impact := 2;
                 WalletFlagDetail.reason :=
                   Js.toFixed 2 nativeBalance ++ " SOL + "
                   ++ Js.nat_to_string tokenCount ++ " tokens held" |} ])%list
      else flags in
    let flags :=
      if (length flags =? 0)%nat
         || forallb (fun f => (WalletFlagDetail.impact f >=? 0)%Z) flags
      then (flags ++
            [ {| WalletFlagDetail.flag := WALLET_VERIFIED;
                 WalletFlagDetail.impact := 3;
                 WalletFlagDetail.reason := "No negative signals detected" |} ])%list
      else flags in
    ret flags.

Definition classifyRisk (flags : list WalletFlagDetail) : RiskLevel :=
  if has_mixer_reject flags then CRITICAL
  else if existsb
            (fun f =>
               WalletFlag_eqb (WalletFlagDetail.flag f) DUMP_ALERT
               && (WalletFlagDetail.impact f <=? -15)%Z)
            flags
  then HIGH
  else if existsb (fun f => (WalletFlagDetail.impact f <? 0)%Z) flags then MEDIUM
  else LOW.

Definition buildSummary (riskLevel : RiskLevel) (flags : list WalletFlagDetail)
  : string :=
  let flagNames :=
    Js.join ", " (map (fun f => WalletFlag_name (WalletFlagDetail.flag f)) flags) in
  match riskLevel with
  | CRITICAL => "⛔ CRITICAL: Mixer-funded deployer. AUTO-REJECT."
  | HIGH => "⚠️ HIGH RISK: " ++ flagNames ++ ". Manual review required."
  | MEDIUM => "⚡ MEDIUM RISK: " ++ flagNames ++ ". Proceed with caution."
  | LOW => "✅ LOW RISK: " ++ flagNames ++ ". Wallet appears clean."
  end.

(** [analyzeWallet]: the three remote lookups are the collaborators'
    business; their outcomes are inputs.  [getBalances] and
    [getTransactions] throw when the request fails ([None] here), and
    [Promise.all] then rejects; [findFundingSource] never throws. *)
Definition analyzeWallet
    (deployerAddress : string)
    (getBalances : option Balances.t)
    (getTransactions : option (list Tx.t))
    (findFundingSource : string)
  : M (option WalletForensicsResult) :=
  match getBalances, getTransactions with
  | Some balances, Some transactions =>
      let fundedBy := findFundingSource in
      do flags <-
        generateFlags deployerAddress fundedBy (Balances.nativeBalance balances)
          (Balances.tokenCount balances) transactions;
      let scoreAdjustment := sum_by WalletFlagDetail.impact flags in
      let riskLevel := classifyRisk flags in
      let summary := buildSummary riskLevel flags in
      do analyzedAt <- Date_now;
      ret (Some
             {| WalletForensicsResult.deployerAddress := deployerAddress;
                WalletForensicsResult.chain := "solana";
                WalletForensicsResult.fundedBy := fundedBy;
                WalletForensicsResult.nativeBalance :=
                  Balances.nativeBalance balances;
                WalletForensicsResult.tokenCount := Balances.tokenCount balances;
                WalletForensicsResult.recentTransactions := length transactions;
                WalletForensicsResult.flags := flags;
                WalletForensicsResult.scoreAdjustment := scoreAdjustment;
                WalletForensicsResult.riskLevel := riskLevel;
                WalletForensicsResult.analyzedAt := analyzedAt;
                WalletForensicsResult.summary := summary |})
  | _, _ => ret None
  end.

(** ** More of [services/dexscreener.ts] *)

(** [data.pairs || []] after a successful request; a failed request throws
    ([None]). *)
Definition pairs_or_throw (resp : Response (option (list DexPair)))
  : option (list DexPair) :=
  match resp with
  | Json pairs => Some (default [] pairs)
  | _ => None
  end.

Definition searchTokens (resp : Response (option (list DexPair)))
  : option (list DexPair) := pairs_or_throw resp.

Definition getTokenPairs (resp : Response (option (list DexPair)))
  : option (list DexPair) := pairs_or_throw resp.

(** Truthiness of an optional object or array: present means truthy. *)
Definition present {A : Type} (x : option A) : bool :=
  match x with
  | Some _ => true
  | None => false
  end.

(** [data.pairs || data.pair ? [data.pair || data.pairs?.[0]] : []] groups as
    [(data.pairs || data.pair) ? ... : ...]; an array, even an empty one, is
    truthy. *)
Definition getPairByAddress (resp : Response PairLookup.t)
  : option (option DexPair) :=
  match resp with
  | Json data =>
      let pairs : list (option DexPair) :=
        if present (PairLookup.pairs data) || present (PairLookup.pair data)
        then [ match PairLookup.pair data with
               | Some p => Some p
               | None => PairLookup.pairs data ≫= head
               end ]
        else [] in
      Some (mjoin (head pairs))
  | _ => None
  end.

(** The loop [for (...) { try { const result = await getTokenPairs(chain,
    address); if (result.length > 0) pairs.push(result[0]); } catch {} }].
    [lookup i chain address] is the response to the [i]-th request. *)
Fixpoint collect_first_pairs
    (lookup : nat -> string -> string -> Response (option (list DexPair)))
    (i : nat) (requests : list (string * string)) (pairs : list DexPair)
  : list DexPair :=
  match requests with
  | [] => pairs
  | (chain, address) :: rest =>
      let pairs :=
        match getTokenPairs (lookup i chain address) with
        | Some (first :: _) => (pairs ++ [first])%list
        | _ => pairs
        end in
      collect_first_pairs lookup (S i) rest pairs
  end.

(** The first loop of [getTrendingTokens]: at most 10 distinct keys. *)
Definition unique_profiles (profiles : list Profile.t)
  : gset string * list (string * string) :=
  fold_left
    (fun (state : gset string * list (string * string)) p =>
       let '(seen, unique) := state in
       let key := Profile.chainId p ++ ":" ++ Profile.tokenAddress p in
       if negb (bool_decide (key ∈ seen)) && (length unique <? 10)%nat
       then ({[ key ]} ∪ seen,
             (unique ++ [(Profile.chainId p, Profile.tokenAddress p)])%list)
       else (seen, unique))
    profiles (∅, []).

Definition getTrendingTokens
    (profiles : Response (list Profile.t))
    (lookup : nat -> string -> string -> Response (option (list DexPair)))
  : option (list DexPair) :=
  match profiles with
  | Json profiles =>
      let unique := snd (unique_profiles profiles) in
      Some (collect_first_pairs lookup 0 unique [])
  | _ => None
  end.

Definition getBoostedTokens
    (boosts : Response (list Boost.t))
    (lookup : nat -> string -> string -> Response (option (list DexPair)))
  : option (list DexPair) :=
  match boosts with
  | Threw => None
  | NotOk => Some []
  | Json boosts =>
      let topBoosts := firstn 10 boosts in
      Some (collect_first_pairs lookup 0
              (map (fun b => (Boost.chainId b, Boost.tokenAddress b)) topBoosts)
              [])
  end.

(** The deduplication loop of [scanHighPotential]. *)
Definition dedupe_pairs (allPairs : list DexPair) : gset string * list DexPair :=
  fold_left
    (fun (state : gset string * list DexPair) pair =>
       let '(seen, unique) := state in
       if negb (bool_decide (DexPair.pairAddress pair ∈ seen))
       then ({[ DexPair.pairAddress pair ]} ∪ seen, (unique ++ [pair])%list)
       else (seen, unique))
    allPairs (∅, []).

(** The filter of [scanHighPotential]. *)
Definition meets_minimums
    (minLiq minVol minMcap : Q) (chains : option (list string))
    (pair : DexPair) : bool :=
  let liq := default 0%Q (Liquidity.usd <$> DexPair.liquidity pair) in
  let vol := Windows.h24 (DexPair.volume pair) in
  let mcap :=
    match DexPair.marketCap pair with
    | Some m => m
    | None => default 0%Q (DexPair.fdv pair)
    end in
  let chainMatch :=
    match chains with
    | None => true
    | Some chains => JsArray.includes chains (DexPair.chainId pair)
    end in
  (liq >=? minLiq)%js && (vol >=? minVol)%js && (mcap >=? minMcap)%js
  && chainMatch.

(** [Promise.allSettled] turns a rejected source into an empty list. *)
Definition scanHighPotential
    (options : option ScanOptions.t)
    (profiles : Response (list Profile.t))
    (boosts : Response (list Boost.t))
    (lookupTrending lookupBoosted :
       nat -> string -> string -> Response (option (list DexPair)))
  : list DexPair :=
  let minLiq := default 100000%Q (options ≫= ScanOptions.minLiquidity) in
  let minVol := default 50000%Q (options ≫= ScanOptions.minVolume24h) in
  let minMcap := default 500000%Q (options ≫= ScanOptions.minMarketCap) in
  let chains := options ≫= ScanOptions.chains in
  let trending := getTrendingTokens profiles lookupTrending in
  let boosted := getBoostedTokens boosts lookupBoosted in
  let allPairs := (default [] trending ++ default [] boosted)%list in
  let unique := snd (dedupe_pairs allPairs) in
  List.filter (meets_minimums minLiq minVol minMcap chains) unique.

(** ** More of [services/scoring.ts] *)

Definition batchScore (pairs : list DexPair) : M (list TokenScore) :=
  do scored <- map_M scoreToken pairs;
  ret (JsArray.sort
         (fun a b =>
            inject_Z (TokenScore.totalScore b - TokenScore.totalScore a))
         scored).

(** ** More of [services/helius.ts] *)

Definition getBalances (resp : Response BalancesJson.t) : M (option Balances.t) :=
  match resp with
  | Json data =>
      do sol <- div (default 0%Q (BalancesJson.nativeBalance data)) 1000000000;
      ret (Some {| Balances.nativeBalance := sol;
                   Balances.tokenCount :=
                     default 0%nat (length <$> BalancesJson.tokens data) |})
  | _ => ret None
  end.

(** [x || fallback] on strings and numbers: absent, [""] and [0] are falsy. *)
Definition string_or (x : option string) (fallback : string) : string :=
  match x with
  | Some s => if JsString.truthy s then s else fallback
  | None => fallback
  end.
Definition number_or (x : option Q) (fallback : Q) : Q :=
  match x with
  | Some q => if Qeq_bool q 0 then fallback else q
  | None => fallback
  end.

Definition getTransactions (resp : Response (option (list RawTx.t)))
  : option (list Tx.t) :=
  match resp with
  | Json txns =>
      Some (map (fun tx =>
                   {| Tx.type := string_or (RawTx.type tx) "UNKNOWN";
                      Tx.timestamp := number_or (RawTx.timestamp tx) 0;
                      Tx.description := string_or (RawTx.description tx) "" |})
                (default [] txns))
  | _ => None
  end.

(** [t.toUserAccount === address && t.amount > 0] *)
Definition pays (address : string) (t : NativeTransfer.t) : bool :=
  String.eqb (NativeTransfer.toUserAccount t) address
  && (NativeTransfer.amount t >? 0)%js.

(** [tx.nativeTransfers?.some(...)] *)
Definition incoming_to (address : string) (tx : RawTx.t) : bool :=
  match RawTx.nativeTransfers tx with
  | Some transfers => existsb (pays address) transfers
  | None => false
  end.

Definition findFundingSource
    (address : string) (resp : Response (option (list RawTx.t))) : string :=
  match resp with
  | Json txns =>
      let incoming :=
        JsArray.sort
          (fun a b =>
             (number_or (RawTx.timestamp a) 0 - number_or (RawTx.timestamp b) 0)%Q)
          (List.filter (incoming_to address) (default [] txns)) in
      match incoming with
      | firstTx :: _ =>
          let sender :=
            match RawTx.nativeTransfers firstTx with
            | Some transfers =>
                match List.find
                        (fun t =>
                           String.eqb (NativeTransfer.toUserAccount t) address)
                        transfers
                with
                | Some t => NativeTransfer.fromUserAccount t
                | None => None
                end
            | None => None
            end in
          string_or sender "UNKNOWN"
      | [] => "UNKNOWN"
      end
  | _ => "UNKNOWN"
  end.

(** [analyzeWallet] together with the three lookups it starts. *)
Definition analyzeWallet_http
    (deployerAddress : string)
    (balances : Response BalancesJson.t)
    (transactions funding : Response (option (list RawTx.t)))
  : M (option WalletForensicsResult) :=
  do balances <- getBalances balances;
  analyzeWallet deployerAddress balances (getTransactions transactions)
    (findFundingSource deployerAddress funding).

(** ** The actions ([actions/scoreToken.ts], [actions/checkWallet.ts],
    [actions/submitListing.ts]) *)

(** [text.match(/0x[a-fA-F0-9]{40}/)?.[0]]: the leftmost match. *)
Fixpoint match_EVM_ADDR (text : string) : option string :=
  if String.prefix "0x" text
     && (40 <=? JsString.run JsString.isHex (JsString.drop 2 text))%nat
  then Some (JsString.take 42 text)
  else match text with
       | EmptyString => None
       | String _ rest => match_EVM_ADDR rest
       end.

(** [text.match(/[1-9A-HJ-NP-Za-km-z]{32,44}/)?.[0]]: the leftmost match,
    as long as the bound allows. *)
Fixpoint match_SOLANA_ADDR (text : string) : option string :=
  if (32 <=? JsString.run JsString.isBase58 text)%nat
  then Some (JsString.take (Nat.min 44 (JsString.run JsString.isBase58 text)) text)
  else match text with
       | EmptyString => None
       | String _ rest => match_SOLANA_ADDR rest
       end.

Definition extractAddress (text : string) : option (string * string) :=
  match match_EVM_ADDR text with
  | Some evmMatch =>
      let lower := Js.toLowerCase text in
      let chain :=
        if Js.includes lower "base" then "base"
        else if Js.includes lower "bsc" || Js.includes lower "bnb" then "bsc"
        else if Js.includes lower "arb" then "arbitrum"
        else "ethereum" in
      Some (evmMatch, chain)
  | None =>
      match match_SOLANA_ADDR text with
      | Some solMatch => Some (solMatch, "solana")
      | None => None
      end
  end.

(** [validate] of the SCORE_TOKEN action, on [message.content?.text || ""]. *)
Definition scoreToken_validate (text : option string) : bool :=
  let text := string_or text "" in
  present (match_SOLANA_ADDR text) || present (match_EVM_ADDR text).

(** [pairs.sort((a, b) => (b.liquidity?.usd ?? 0) - (a.liquidity?.usd ?? 0))[0]],
    the pair every action scores. *)
Definition bestPair (pairs : list DexPair) : option DexPair :=
  head (JsArray.sort
          (fun a b =>
             (default 0%Q (Liquidity.usd <$> DexPair.liquidity b)
              - default 0%Q (Liquidity.usd <$> DexPair.liquidity a))%Q)
          pairs).

(** ** Observations used in the statements *)

(** The metric each factor scorer reads. *)
Definition liquidityUsd (pair : DexPair) : Q :=
  default 0%Q (Liquidity.usd <$> DexPair.liquidity pair).
Definition volume24h (pair : DexPair) : Q := Windows.h24 (DexPair.volume pair).
Definition websiteCount (pair : DexPair) : nat :=
  default 0%nat (opt_length (info_websites pair)).
Definition socialCount (pair : DexPair) : nat :=
  default 0%nat (opt_length (info_socials pair)).

(** The age in days that a call started in world [w] observes. *)
Definition ageDays (pair : DexPair) (w : World) : Z := fst (getTokenAgeDays pair w).

(** The six factor scores of a call started in world [w], in report order. *)
Definition factors (pair : DexPair) (w : World) : list ScoreBreakdown :=
  [ scoreLiquidity pair; scoreMarketCap pair; scoreVolume pair;
    scoreSocial pair; fst (scoreAge pair w); scoreTeam pair ].

(** Names of the catalysts in a list. *)
Definition names (cs : list CatalystAdjustment) : list string :=
  map CatalystAdjustment.name cs.

(** Everything a [TokenScore] shows except [scoredAt]; the [catalysts]
    reference is followed into the store. *)
Definition untimed (w : World) (s : TokenScore) :=
  (TokenScore.contractAddress s, TokenScore.chain s, TokenScore.tokenName s,
   TokenScore.tokenSymbol s, TokenScore.totalScore s, TokenScore.maxScore s,
   TokenScore.action s, TokenScore.breakdown s,
   heap w !! TokenScore.catalysts s, TokenScore.recommendation s,
   TokenScore.pairAddress s, TokenScore.pairUrl s).

(** The catalyst entry [applyWalletAdjustment] pushes for a wallet flag. *)
Definition as_catalyst (flag : WalletFlagDetail) : CatalystAdjustment :=
  {| CatalystAdjustment.name :=
       "Wallet: " ++ WalletFlag_name (WalletFlagDetail.flag flag);
     CatalystAdjustment.points := WalletFlagDetail.impact flag;
     CatalystAdjustment.reason := WalletFlagDetail.reason flag |}.

(** The flag emitted for mixer funding and the fallback flag. *)
Definition mixer_reject (fundedBy : string) : WalletFlagDetail :=
  {| WalletFlagDetail.flag := MIXER_REJECT;
     WalletFlagDetail.impact := -100;
     WalletFlagDetail.reason :=
       "Funded by known mixer: " ++ Js.slice0 8 fundedBy ++ "..." |}.
Definition wallet_verified : WalletFlagDetail :=
  {| WalletFlagDetail.flag := WALLET_VERIFIED;
     WalletFlagDetail.impact := 3;
     WalletFlagDetail.reason := "No negative signals detected" |}.

(** Whether the dump rule fires for a sample analysed in world [w]. *)
Definition dumping (transactions : list Tx.t) (w : World) : bool :=
  DumpPattern.isDumping (fst (analyzeDumpPattern transactions w)).

(** Every array of the store was allocated below the next fresh reference. *)
Definition wf_world (w : World) : Prop :=
  forall l : loc, is_Some (heap w !! l) -> (l < next w)%positive.

(** What [scoreToken] on [pair] guarantees about the score it returns. *)
Definition scored_from (pair : DexPair) (s : TokenScore) : Prop :=
  TokenScore.pairAddress s = DexPair.pairAddress pair
  /\ TokenScore.contractAddress s = TokenInfo.address (DexPair.baseToken pair)
  /\ 0 <= TokenScore.totalScore s <= 100
  /\ TokenScore.action s = getAction (TokenScore.totalScore s)
  /\ TokenScore.recommendation s = getRecommendation (TokenScore.action s).

(** The five catalyst rules, in the order they are tried. *)
Definition catalyst_rules : list (string * Z) :=
  [ ("Volume Momentum", 5); ("Buy Pressure", 3);
    ("Multi-Platform Presence", 5); ("Price Dump", -10);
    ("Sell Pressure", -5) ].

Definition name_and_points (c : CatalystAdjustment) : string * Z :=
  (CatalystAdjustment.name c, CatalystAdjustment.points c).

(** The transactions of the trailing seven days, and the sells among them,
    as [analyzeDumpPattern] sees them in world [w]. *)
Definition recentTxns (transactions : list Tx.t) (w : World) : list Tx.t :=
  List.filter
    (fun tx =>
       (Tx.timestamp tx
        >? inject_Z (clock w (reads w)) / 1000 - inject_Z (7 * 24 * 60 * 60))%js)
    transactions.
Definition recentSells (transactions : list Tx.t) (w : World) : list Tx.t :=
  List.filter
    (fun tx =>
       String.eqb (Tx.type tx) "SWAP"
       && Js.includes (Js.toLowerCase (Tx.description tx)) "sold")
    (recentTxns transactions w).

(** The flags in the order the rules are tried. *)
Definition flag_order : list WalletFlag :=
  [ MIXER_REJECT; INSTITUTIONAL; SERIAL_CREATOR; DUMP_ALERT; NET_POSITIVE;
    WALLET_VERIFIED ].

Definition flags_of (r : WalletForensicsResult) : list WalletFlag :=
  map WalletFlagDetail.flag (WalletForensicsResult.flags r).

(** The impact the README documents for each flag. *)
Definition documented_impact (f : WalletFlagDetail) : Prop :=
  match WalletFlagDetail.flag f with
  | WALLET_VERIFIED => WalletFlagDetail.impact f = 3
  | INSTITUTIONAL => WalletFlagDetail.impact f = 8
  | NET_POSITIVE => WalletFlagDetail.impact f = 2
  | SERIAL_CREATOR => WalletFlagDetail.impact f = -5
  | DUMP_ALERT =>
      WalletFlagDetail.impact f = -10 \/ WalletFlagDetail.impact f = -15
  | MIXER_REJECT => WalletFlagDetail.impact f = -100
  | UNKNOWN => False
  end.

(** The first pair of a list that has the address of [p]. *)
Definition first_with_address (p : DexPair) (pairs : list DexPair)
  : option DexPair :=
  head (List.filter
          (fun q => String.eqb (DexPair.pairAddress q) (DexPair.pairAddress p))
          pairs).

(** What [scanHighPotential] gathers before it removes duplicates. *)
Definition gathered
    (profiles : Response (list Profile.t)) (boosts : Response (list Boost.t))
    (lookupTrending lookupBoosted :
       nat -> string -> string -> Response (option (list DexPair)))
  : list DexPair :=
  (default [] (getTrendingTokens profiles lookupTrending)
   ++ default [] (getBoostedTokens boosts lookupBoosted))%list.

(** The minimums and the chain filter a scan applies. *)
Definition scan_minimums (options : option ScanOptions.t) : Q * Q * Q :=
  (default 100000%Q (options ≫= ScanOptions.minLiquidity),
   default 50000%Q (options ≫= ScanOptions.minVolume24h),
   default 500000%Q (options ≫= ScanOptions.minMarketCap)).

(** The instant a raw transaction is sorted by: [tx.timestamp || 0]. *)
Definition sort_instant (tx : RawTx.t) : Q := number_or (RawTx.timestamp tx) 0.

(** The lookups a feed makes: one per profile kept by the first loop of
    [getTrendingTokens], one per boost of [boosts.slice(0, 10)]. *)
Definition trending_requests (profiles : list Profile.t)
  : list (string * string) := snd (unique_profiles profiles).
Definition boosted_requests (boosts : list Boost.t)
  : list (string * string) :=
  map (fun b => (Boost.chainId b, Boost.tokenAddress b)) (firstn 10 boosts).

(** [p] is the first pair of the answer to one of the [requests], the
    [j]-th request being answered by [lookup j]. *)
Definition answered_by
    (lookup : nat -> string -> string -> Response (option (list DexPair)))
    (requests : list (string * string)) (p : DexPair) : Prop :=
  exists (j : nat) (chain address : string) (rest : list DexPair),
    requests !! j = Some (chain, address)
    /\ lookup j chain address = Json (Some (p :: rest)).

(** A piece of a message: consecutive characters of it. *)
Definition piece_of (piece text : string) : Prop :=
  exists before after, text = before ++ piece ++ after.

(** What [EVM_ADDR] matches: "0x" and 40 hexadecimal digits. *)
Definition EVM_shaped (a : string) : Prop :=
  String.length a = 42%nat
  /\ JsString.take 2 a = "0x"
  /\ JsString.run JsString.isHex (JsString.drop 2 a) = 40%nat.

(** What [SOLANA_ADDR] matches: 32 to 44 base58 characters. *)
Definition SOLANA_shaped (a : string) : Prop :=
  (32 <= String.length a <= 44)%nat
  /\ JsString.run JsString.isBase58 a = String.length a.

(** No piece of the given shape starts in [text] before [before] ends. *)
Definition leftmost (shape : string -> Prop) (before text : string) : Prop :=
  forall before' piece after',
    text = before' ++ piece ++ after' -> shape piece ->
    (String.length before <= String.length before')%nat.

(** ** Comparisons *)

Lemma geb_true (a b : Q) : Js.geb a b = true <-> (b <= a)%Q.
Proof. unfold Js.geb. apply Qle_bool_iff. Qed.

Lemma geb_false (a b : Q) : Js.geb a b = false <-> (a < b)%Q.
Proof.
  unfold Js.geb. split; intro H.
  - apply Qnot_le_lt. intro Hle. apply Qle_bool_iff in Hle. congruence.
  - destruct (Qle_bool b a) eqn:E; [|reflexivity].
    apply Qle_bool_iff in E. exfalso. exact (Qlt_not_le _ _ H E).
Qed.

Lemma gtb_true (a b : Q) : Js.gtb a b = true <-> (b < a)%Q.
Proof.
  unfold Js.gtb. rewrite negb_true_iff. apply (geb_false b a).
Qed.

Lemma gtb_false (a b : Q) : Js.gtb a b = false <-> (a <= b)%Q.
Proof.
  unfold Js.gtb. rewrite negb_false_iff. apply Qle_bool_iff.
Qed.

Lemma ltb_true (a b : Q) : Js.ltb a b = true <-> (a < b)%Q.
Proof. apply (gtb_true b a). Qed.

Lemma ltb_false (a b : Q) : Js.ltb a b = false <-> (b <= a)%Q.
Proof. apply (gtb_false b a). Qed.

(** ** Tier tables of the factor scorers *)

Ltac by_tier :=
  repeat match goal with
         | |- context [Js.geb ?a ?b] =>
             let E := fresh "E" in
             destruct (Js.geb a b) eqn:E;
             [apply geb_true in E | apply geb_false in E]
         | |- context [Js.gtb ?a ?b] =>
             let E := fresh "E" in
             destruct (Js.gtb a b) eqn:E;
             [apply gtb_true in E | apply gtb_false in E]
         | |- context [Js.ltb ?a ?b] =>
             let E := fresh "E" in
             destruct (Js.ltb a b) eqn:E;
             [apply ltb_true in E | apply ltb_false in E]
         | |- context [Z.gtb ?a ?b] =>
             let E := fresh "E" in
             destruct (Z.gtb_spec a b) as [E|E]
         | |- context [Z.geb ?a ?b] =>
             let E := fresh "E" in
             destruct (Z.geb_spec a b) as [E|E]
         | |- context [Nat.leb ?a ?b] =>
             let E := fresh "E" in
             destruct (Nat.leb_spec a b) as [E|E]
         end.

Lemma scoreLiquidity_table (pair : DexPair) :
  let usd := liquidityUsd pair in
  let s := ScoreBreakdown.score (scoreLiquidity pair) in
  ((500000 <= usd)%Q -> s = 25) /\
  ((200000 <= usd)%Q /\ (usd < 500000)%Q -> s = 20) /\
  ((100000 <= usd)%Q /\ (usd < 200000)%Q -> s = 15) /\
  ((50000 <= usd)%Q /\ (usd < 100000)%Q -> s = 10) /\
  ((usd < 50000)%Q -> s = 5).
Proof.
  unfold scoreLiquidity, liquidityUsd; cbv zeta.
  by_tier; cbn [ScoreBreakdown.score]; repeat split; intros; try reflexivity; lra.
Qed.

Lemma scoreMarketCap_table (pair : DexPair) :
  let mcap := effectiveMarketCap pair in
  let s := ScoreBreakdown.score (scoreMarketCap pair) in
  ((10000000 <= mcap)%Q -> s = 20) /\
  ((1000000 <= mcap)%Q /\ (mcap < 10000000)%Q -> s = 16) /\
  ((500000 <= mcap)%Q /\ (mcap < 1000000)%Q -> s = 12) /\
  ((100000 <= mcap)%Q /\ (mcap < 500000)%Q -> s = 8) /\
  ((mcap < 100000)%Q -> s = 4).
Proof.
  unfold scoreMarketCap; cbv zeta.
  by_tier; cbn [ScoreBreakdown.score]; repeat split; intros; try reflexivity; lra.
Qed.

Lemma scoreVolume_table (pair : DexPair) :
  let vol := volume24h pair in
  let s := ScoreBreakdown.score (scoreVolume pair) in
  ((1000000 <= vol)%Q -> s = 20) /\
  ((500000 <= vol)%Q /\ (vol < 1000000)%Q -> s = 16) /\
  ((100000 <= vol)%Q /\ (vol < 500000)%Q -> s = 12) /\
  ((50000 <= vol)%Q /\ (vol < 100000)%Q -> s = 8) /\
  ((vol < 50000)%Q -> s = 4).
Proof.
  unfold scoreVolume, volume24h; cbv zeta.
  by_tier; cbn [ScoreBreakdown.score]; repeat split; intros; try reflexivity; lra.
Qed.

Lemma scoreSocial_table (pair : DexPair) :
  let platforms := countSocials pair in
  let s := ScoreBreakdown.score (scoreSocial pair) in
  ((4 <= platforms)%nat -> s = 15) /\
  ((2 <= platforms < 4)%nat -> s = 10) /\
  ((1 <= platforms < 2)%nat -> s = 6) /\
  ((platforms < 1)%nat -> s = 2).
Proof.
  unfold scoreSocial; cbv zeta.
  by_tier; cbn [ScoreBreakdown.score]; repeat split; intros; try reflexivity; lia.
Qed.

Lemma scoreAge_run (pair : DexPair) (w : World) :
  scoreAge pair w =
  (let days := ageDays pair w in
   {| ScoreBreakdown.category := "Age";
      ScoreBreakdown.weight := WEIGHTS.age;
      ScoreBreakdown.score :=
        if days >? 180 then 10 else if days >? 30 then 8
        else if days >? 7 then 5 else if days >=? 0 then 3 else 2;
      ScoreBreakdown.maxScore := 10;
      ScoreBreakdown.value :=
        if days >=? 0 then Js.Z_to_string days ++ " days" else "Unknown";
      ScoreBreakdown.details :=
        if days >? 180 then Js.Z_to_string days ++ " days — established"
        else if days >? 30 then Js.Z_to_string days ++ " days — moderate history"
        else if days >? 7 then Js.Z_to_string days ++ " days — new"
        else if days >=? 0
        then Js.Z_to_string days ++ " days — very new, higher risk"
        else "Age unknown" |},
   snd (getTokenAgeDays pair w)).
Proof.
  unfold scoreAge, ageDays, bind, ret.
  destruct (getTokenAgeDays pair w) as [days w1]; cbn [fst snd]; cbv zeta.
  by_tier; reflexivity.
Qed.

Lemma scoreAge_table (pair : DexPair) (w : World) :
  let days := ageDays pair w in
  let s := ScoreBreakdown.score (fst (scoreAge pair w)) in
  (180 < days -> s = 10) /\
  (30 < days <= 180 -> s = 8) /\
  (7 < days <= 30 -> s = 5) /\
  (0 <= days <= 7 -> s = 3) /\
  (days < 0 -> s = 2).
Proof.
  rewrite scoreAge_run; cbv zeta; cbn [fst ScoreBreakdown.score].
  by_tier; repeat split; intros; try reflexivity; lia.
Qed.

Lemma scoreTeam_table (pair : DexPair) :
  let websites := websiteCount pair in
  let socials := socialCount pair in
  let s := ScoreBreakdown.score (scoreTeam pair) in
  ((1 <= websites)%nat /\ (2 <= socials)%nat -> s = 10) /\
  (((1 <= websites)%nat \/ (2 <= socials)%nat)
   /\ ~ ((1 <= websites)%nat /\ (2 <= socials)%nat) -> s = 7) /\
  ((websites < 1)%nat /\ (1 <= socials < 2)%nat -> s = 4) /\
  ((websites < 1)%nat /\ (socials < 1)%nat -> s = 2).
Proof.
  unfold scoreTeam, websiteCount, socialCount; cbv zeta.
  by_tier; cbn [ScoreBreakdown.score andb orb]; repeat split; intros;
    try reflexivity; lia.
Qed.

Lemma scoreLiquidity_bounded (pair : DexPair) :
  let b := scoreLiquidity pair in
  0 <= ScoreBreakdown.score b <= ScoreBreakdown.maxScore b
  /\ ScoreBreakdown.maxScore b = ScoreBreakdown.weight b.
Proof.
  unfold scoreLiquidity; cbv zeta.
  by_tier; cbn; unfold WEIGHTS.liquidity; lia.
Qed.

Lemma scoreMarketCap_bounded (pair : DexPair) :
  let b := scoreMarketCap pair in
  0 <= ScoreBreakdown.score b <= ScoreBreakdown.maxScore b
  /\ ScoreBreakdown.maxScore b = ScoreBreakdown.weight b.
Proof.
  unfold scoreMarketCap; cbv zeta.
  by_tier; cbn; unfold WEIGHTS.marketCap; lia.
Qed.

Lemma scoreVolume_bounded (pair : DexPair) :
  let b := scoreVolume pair in
  0 <= ScoreBreakdown.score b <= ScoreBreakdown.maxScore b
  /\ ScoreBreakdown.maxScore b = ScoreBreakdown.weight b.
Proof.
  unfold scoreVolume; cbv zeta.
  by_tier; cbn; unfold WEIGHTS.volume24h; lia.
Qed.

Lemma scoreSocial_bounded (pair : DexPair) :
  let b := scoreSocial pair in
  0 <= ScoreBreakdown.score b <= ScoreBreakdown.maxScore b
  /\ ScoreBreakdown.maxScore b = ScoreBreakdown.weight b.
Proof.
  unfold scoreSocial; cbv zeta.
  by_tier; cbn; unfold WEIGHTS.social; lia.
Qed.

Lemma scoreAge_bounded (pair : DexPair) (w : World) :
  let b := fst (scoreAge pair w) in
  0 <= ScoreBreakdown.score b <= ScoreBreakdown.maxScore b
  /\ ScoreBreakdown.maxScore b = ScoreBreakdown.weight b.
Proof.
  rewrite scoreAge_run; cbv zeta; cbn [fst ScoreBreakdown.score
    ScoreBreakdown.maxScore ScoreBreakdown.weight].
  by_tier; unfold WEIGHTS.age; lia.
Qed.

Lemma scoreTeam_bounded (pair : DexPair) :
  let b := scoreTeam pair in
  0 <= ScoreBreakdown.score b <= ScoreBreakdown.maxScore b
  /\ ScoreBreakdown.maxScore b = ScoreBreakdown.weight b.
Proof.
  unfold scoreTeam; cbv zeta.
  by_tier; cbn; unfold WEIGHTS.team; lia.
Qed.

Lemma factors_bounded (pair : DexPair) (w : World) :
  Forall (fun b => 0 <= ScoreBreakdown.score b <= ScoreBreakdown.maxScore b
                   /\ ScoreBreakdown.maxScore b = ScoreBreakdown.weight b)
         (factors pair w).
Proof.
  unfold factors.
  constructor; [apply scoreLiquidity_bounded|].
  constructor; [apply scoreMarketCap_bounded|].
  constructor; [apply scoreVolume_bounded|].
  constructor; [apply scoreSocial_bounded|].
  constructor; [apply scoreAge_bounded|].
  constructor; [apply scoreTeam_bounded|constructor].
Qed.

(** ** Running [scoreToken] *)

Lemma scoreToken_run (pair : DexPair) (w : World) :
  let w1 := snd (scoreAge pair w) in
  let found := fst (detectCatalysts pair w1) in
  let w2 := snd (detectCatalysts pair w1) in
  let total :=
    Js.clamp100 (sum_by ScoreBreakdown.score (factors pair w)
                 + sum_by CatalystAdjustment.points found) in
  scoreToken pair w =
  ({| TokenScore.contractAddress := TokenInfo.address (DexPair.baseToken pair);
      TokenScore.chain := DexPair.chainId pair;
      TokenScore.tokenName := TokenInfo.name (DexPair.baseToken pair);
      TokenScore.tokenSymbol := TokenInfo.symbol (DexPair.baseToken pair);
      TokenScore.totalScore := total;
      TokenScore.maxScore := 100;
      TokenScore.action := getAction total;
      TokenScore.breakdown := factors pair w;
      TokenScore.catalysts := next w2;
      TokenScore.recommendation := getRecommendation (getAction total);
      TokenScore.scoredAt := clock w2 (reads w2);
      TokenScore.pairAddress := DexPair.pairAddress pair;
      TokenScore.pairUrl := DexPair.url pair |},
   mkWorld (<[next w2 := found]> (heap w2)) (Pos.succ (next w2)) (clock w2)
           (S (reads w2)) (divisions w2)).
Proof.
  unfold scoreToken, factors, bind, ret; cbv zeta.
  destruct (scoreAge pair w) as [age w1]; cbn [fst snd].
  destruct (detectCatalysts pair w1) as [found w2]; cbn [fst snd].
  reflexivity.
Qed.

(** ** Monotonicity of the factor scorers *)

Lemma scoreLiquidity_mono (p p' : DexPair) :
  (liquidityUsd p <= liquidityUsd p')%Q ->
  ScoreBreakdown.score (scoreLiquidity p) <= ScoreBreakdown.score (scoreLiquidity p').
Proof.
  unfold scoreLiquidity, liquidityUsd; cbv zeta; intros H.
  by_tier; cbn [ScoreBreakdown.score]; try lia; lra.
Qed.

Lemma scoreMarketCap_mono (p p' : DexPair) :
  (effectiveMarketCap p <= effectiveMarketCap p')%Q ->
  ScoreBreakdown.score (scoreMarketCap p) <= ScoreBreakdown.score (scoreMarketCap p').
Proof.
  unfold scoreMarketCap; cbv zeta; intros H.
  by_tier; cbn [ScoreBreakdown.score]; try lia; lra.
Qed.

Lemma scoreVolume_mono (p p' : DexPair) :
  (volume24h p <= volume24h p')%Q ->
  ScoreBreakdown.score (scoreVolume p) <= ScoreBreakdown.score (scoreVolume p').
Proof.
  unfold scoreVolume, volume24h; cbv zeta; intros H.
  by_tier; cbn [ScoreBreakdown.score]; try lia; lra.
Qed.

Lemma scoreSocial_mono (p p' : DexPair) :
  (countSocials p <= countSocials p')%nat ->
  ScoreBreakdown.score (scoreSocial p) <= ScoreBreakdown.score (scoreSocial p').
Proof.
  unfold scoreSocial; cbv zeta; intros H.
  by_tier; cbn [ScoreBreakdown.score]; lia.
Qed.

Lemma scoreAge_mono (p p' : DexPair) (w w' : World) :
  ageDays p w <= ageDays p' w' ->
  ScoreBreakdown.score (fst (scoreAge p w))
  <= ScoreBreakdown.score (fst (scoreAge p' w')).
Proof.
  rewrite !scoreAge_run; cbv zeta; cbn [fst ScoreBreakdown.score]; intros H.
  by_tier; lia.
Qed.

(** ** Properties of the factor scorers *)

(** C3: every factor's awarded score lies between 0 and its maximum, which
    equals its weight, and every factor follows its tier table; the
    liquidity factor awards 25 at 500000.00 and 20 at 499999.99, following
    >=500k -> 25, >=200k -> 20, >=100k -> 15, >=50k -> 10, else 5. *)
Theorem factor_scores_within_weight (pair : DexPair) (w : World) :
  TokenScore.breakdown (fst (scoreToken pair w)) = factors pair w /\
  Forall (fun b => 0 <= ScoreBreakdown.score b <= ScoreBreakdown.maxScore b
                   /\ ScoreBreakdown.maxScore b = ScoreBreakdown.weight b)
         (factors pair w) /\
  (let usd := liquidityUsd pair in
   let s := ScoreBreakdown.score (scoreLiquidity pair) in
   ((usd == 500000)%Q -> s = 25) /\
   ((usd == 49999999 # 100)%Q -> s = 20) /\
   ((500000 <= usd)%Q -> s = 25) /\
   ((200000 <= usd)%Q /\ (usd < 500000)%Q -> s = 20) /\
   ((100000 <= usd)%Q /\ (usd < 200000)%Q -> s = 15) /\
   ((50000 <= usd)%Q /\ (usd < 100000)%Q -> s = 10) /\
   ((usd < 50000)%Q -> s = 5)) /\
  (let mcap := effectiveMarketCap pair in
   let s := ScoreBreakdown.score (scoreMarketCap pair) in
   ((10000000 <= mcap)%Q -> s = 20) /\
   ((1000000 <= mcap)%Q /\ (mcap < 10000000)%Q -> s = 16) /\
   ((500000 <= mcap)%Q /\ (mcap < 1000000)%Q -> s = 12) /\
   ((100000 <= mcap)%Q /\ (mcap < 500000)%Q -> s = 8) /\
   ((mcap < 100000)%Q -> s = 4)) /\
  (let vol := volume24h pair in
   let s := ScoreBreakdown.score (scoreVolume pair) in
   ((1000000 <= vol)%Q -> s = 20) /\
   ((500000 <= vol)%Q /\ (vol < 1000000)%Q -> s = 16) /\
   ((100000 <= vol)%Q /\ (vol < 500000)%Q -> s = 12) /\
   ((50000 <= vol)%Q /\ (vol < 100000)%Q -> s = 8) /\
   ((vol < 50000)%Q -> s = 4)) /\
  (let platforms := countSocials pair in
   let s := ScoreBreakdown.score (scoreSocial pair) in
   ((4 <= platforms)%nat -> s = 15) /\
   ((2 <= platforms < 4)%nat -> s = 10) /\
   ((1 <= platforms < 2)%nat -> s = 6) /\
   ((platforms < 1)%nat -> s = 2)) /\
  (let days := ageDays pair w in
   let s := ScoreBreakdown.score (fst (scoreAge pair w)) in
   (180 < days -> s = 10) /\
   (30 < days <= 180 -> s = 8) /\
   (7 < days <= 30 -> s = 5) /\
   (0 <= days <= 7 -> s = 3) /\
   (days < 0 -> s = 2)) /\
  (let websites := websiteCount pair in
   let socials := socialCount pair in
   let s := ScoreBreakdown.score (scoreTeam pair) in
   ((1 <= websites)%nat /\ (2 <= socials)%nat -> s = 10) /\
   (((1 <= websites)%nat \/ (2 <= socials)%nat)
    /\ ~ ((1 <= websites)%nat /\ (2 <= socials)%nat) -> s = 7) /\
   ((websites < 1)%nat /\ (1 <= socials < 2)%nat -> s = 4) /\
   ((websites < 1)%nat /\ (socials < 1)%nat -> s = 2)).
Proof.
  split; [rewrite scoreToken_run; reflexivity|].
  split; [apply factors_bounded|].
  split.
  { pose proof (scoreLiquidity_table pair) as T; cbv zeta in *.
    destruct T as (T1 & T2 & T3 & T4 & T5).
    repeat split; try assumption.
    - intros E. apply T1. rewrite E. apply Qle_refl.
    - intros E. apply T2. rewrite E. split; reflexivity || discriminate. }
  split; [apply scoreMarketCap_table|].
  split; [apply scoreVolume_table|].
  split; [apply scoreSocial_table|].
  split; [apply scoreAge_table|apply scoreTeam_table].
Qed.

(** C8: raising the metric a factor scorer reads (liquidity, market cap,
    24h volume, number of social platforms, age in days) never lowers the
    score that factor awards, whatever the rest of the snapshot holds. *)
Theorem factor_scores_monotone (p p' : DexPair) (w w' : World) :
  ((liquidityUsd p <= liquidityUsd p')%Q ->
   ScoreBreakdown.score (scoreLiquidity p)
   <= ScoreBreakdown.score (scoreLiquidity p')) /\
  ((effectiveMarketCap p <= effectiveMarketCap p')%Q ->
   ScoreBreakdown.score (scoreMarketCap p)
   <= ScoreBreakdown.score (scoreMarketCap p')) /\
  ((volume24h p <= volume24h p')%Q ->
   ScoreBreakdown.score (scoreVolume p)
   <= ScoreBreakdown.score (scoreVolume p')) /\
  ((countSocials p <= countSocials p')%nat ->
   ScoreBreakdown.score (scoreSocial p)
   <= ScoreBreakdown.score (scoreSocial p')) /\
  (ageDays p w <= ageDays p' w' ->
   ScoreBreakdown.score (fst (scoreAge p w))
   <= ScoreBreakdown.score (fst (scoreAge p' w'))).
Proof.
  repeat split.
  - apply scoreLiquidity_mono.
  - apply scoreMarketCap_mono.
  - apply scoreVolume_mono.
  - apply scoreSocial_mono.
  - apply scoreAge_mono.
Qed.

(** C7 (as amended): the lower bound of every tier is inclusive, except in
    the age table, whose three upper tiers (180, 30 and 7 days) are strict:
    a pair aged exactly 180 days scores 8, exactly 30 days scores 5 and
    exactly 7 days scores 3; its lowest tier (>= 0 days) is inclusive. *)
Theorem tier_bounds_inclusive_except_age (pair : DexPair) (w : World) :
  (let usd := liquidityUsd pair in
   let s := ScoreBreakdown.score (scoreLiquidity pair) in
   ((usd == 500000)%Q -> s = 25) /\ ((usd == 200000)%Q -> s = 20) /\
   ((usd == 100000)%Q -> s = 15) /\ ((usd == 50000)%Q -> s = 10)) /\
  (let mcap := effectiveMarketCap pair in
   let s := ScoreBreakdown.score (scoreMarketCap pair) in
   ((mcap == 10000000)%Q -> s = 20) /\ ((mcap == 1000000)%Q -> s = 16) /\
   ((mcap == 500000)%Q -> s = 12) /\ ((mcap == 100000)%Q -> s = 8)) /\
  (let vol := volume24h pair in
   let s := ScoreBreakdown.score (scoreVolume pair) in
   ((vol == 1000000)%Q -> s = 20) /\ ((vol == 500000)%Q -> s = 16) /\
   ((vol == 100000)%Q -> s = 12) /\ ((vol == 50000)%Q -> s = 8)) /\
  (let platforms := countSocials pair in
   let s := ScoreBreakdown.score (scoreSocial pair) in
   (platforms = 4%nat -> s = 15) /\ (platforms = 2%nat -> s = 10) /\
   (platforms = 1%nat -> s = 6)) /\
  (let websites := websiteCount pair in
   let socials := socialCount pair in
   let s := ScoreBreakdown.score (scoreTeam pair) in
   (websites = 1%nat /\ socials = 2%nat -> s = 10) /\
   (websites = 1%nat /\ socials = 0%nat -> s = 7) /\
   (websites = 0%nat /\ socials = 2%nat -> s = 7) /\
   (websites = 0%nat /\ socials = 1%nat -> s = 4)) /\
  (let days := ageDays pair w in
   let s := ScoreBreakdown.score (fst (scoreAge pair w)) in
   (days = 181 -> s = 10) /\ (days = 180 -> s = 8) /\
   (days = 31 -> s = 8) /\ (days = 30 -> s = 5) /\
   (days = 8 -> s = 5) /\ (days = 7 -> s = 3) /\
   (days = 0 -> s = 3) /\ (days = -1 -> s = 2) /\
   (180 < days -> s = 10) /\
   (30 < days <= 180 -> s = 8) /\
   (7 < days <= 30 -> s = 5) /\
   (0 <= days <= 7 -> s = 3) /\
   (days < 0 -> s = 2)).
Proof.
  split.
  { destruct (scoreLiquidity_table pair) as (T1 & T2 & T3 & T4 & _).
    cbv zeta in *.
    repeat split; intros E;
      [apply T1|apply T2|apply T3|apply T4]; rewrite E; lra. }
  split.
  { destruct (scoreMarketCap_table pair) as (T1 & T2 & T3 & T4 & _).
    cbv zeta in *.
    repeat split; intros E;
      [apply T1|apply T2|apply T3|apply T4]; rewrite E; lra. }
  split.
  { destruct (scoreVolume_table pair) as (T1 & T2 & T3 & T4 & _).
    cbv zeta in *.
    repeat split; intros E;
      [apply T1|apply T2|apply T3|apply T4]; rewrite E; lra. }
  split.
  { destruct (scoreSocial_table pair) as (T1 & T2 & T3 & _).
    cbv zeta in *.
    repeat split; intros E; [apply T1|apply T2|apply T3]; lia. }
  split.
  { destruct (scoreTeam_table pair) as (T1 & T2 & T3 & _).
    cbv zeta in *.
    repeat split; intros E; [apply T1|apply T2|apply T2|apply T3]; lia. }
  destruct (scoreAge_table pair w) as (T1 & T2 & T3 & T4 & T5).
  cbv zeta in *.
  repeat split; try assumption; intros E;
    [apply T1|apply T2|apply T2|apply T3|apply T3|apply T4|apply T4|apply T5];
    lia.
Qed.

(** ** Action tiers and the composite score *)

Lemma getAction_spec (score : Z) :
  (getAction score = HOT <-> 85 <= score) /\
  (getAction score = QUALIFIED <-> 70 <= score < 85) /\
  (getAction score = WATCH <-> 50 <= score < 70) /\
  (getAction score = SKIP <-> score < 50).
Proof.
  unfold getAction.
  by_tier; repeat split; intros; try reflexivity; try discriminate; lia.
Qed.

Lemma sum_by_map {A : Type} (f : A -> Z) (xs : list A) :
  sum_by f xs = fold_left Z.add (map f xs) 0.
Proof.
  unfold sum_by. generalize 0.
  induction xs as [|x xs IH]; intros acc; cbn; [reflexivity|apply IH].
Qed.

Lemma clamp100_range (x : Z) : 0 <= Js.clamp100 x <= 100.
Proof. unfold Js.clamp100. lia. Qed.

Lemma factors_weights (pair : DexPair) (w : World) :
  map ScoreBreakdown.weight (factors pair w)
  = [WEIGHTS.liquidity; WEIGHTS.marketCap; WEIGHTS.volume24h;
     WEIGHTS.social; WEIGHTS.age; WEIGHTS.team].
Proof.
  unfold factors. rewrite scoreAge_run.
  unfold scoreLiquidity, scoreMarketCap, scoreVolume, scoreSocial, scoreTeam.
  cbv zeta. cbn [map fst ScoreBreakdown.weight].
  repeat match goal with
         | |- context [let '(_, _) := ?c in _] => destruct c
         end.
  reflexivity.
Qed.

(** C2: [scoreToken]'s total is the sum of the six factor scores plus the sum
    of the catalyst points, clamped to [0,100]; the action is HOT iff the
    total is >= 85, else QUALIFIED iff >= 70, else WATCH iff >= 50, else
    SKIP; the total lies in [0,100] and the six weights sum to 100. *)
Theorem scoreToken_total_and_action (pair : DexPair) (w : World) :
  let s := fst (scoreToken pair w) in
  let w' := snd (scoreToken pair w) in
  let total := TokenScore.totalScore s in
  exists found : list CatalystAdjustment,
    heap w' !! TokenScore.catalysts s = Some found /\
    found = fst (detectCatalysts pair (snd (scoreAge pair w))) /\
    TokenScore.breakdown s = factors pair w /\
    total = Z.max 0 (Z.min 100
              (sum_by ScoreBreakdown.score (TokenScore.breakdown s)
               + sum_by CatalystAdjustment.points found)) /\
    TokenScore.action s = getAction total /\
    (TokenScore.action s = HOT <-> 85 <= total) /\
    (TokenScore.action s = QUALIFIED <-> 70 <= total < 85) /\
    (TokenScore.action s = WATCH <-> 50 <= total < 70) /\
    (TokenScore.action s = SKIP <-> total < 50) /\
    0 <= total <= 100 /\
    sum_by ScoreBreakdown.weight (TokenScore.breakdown s) = 100 /\
    WEIGHTS.liquidity + WEIGHTS.marketCap + WEIGHTS.volume24h
    + WEIGHTS.social + WEIGHTS.age + WEIGHTS.team = 100.
Proof.
  cbv zeta. rewrite scoreToken_run. cbv zeta.
  cbn [fst snd TokenScore.totalScore TokenScore.catalysts TokenScore.breakdown
       TokenScore.action heap].
  eexists. split; [apply lookup_insert_eq|].
  split; [reflexivity|]. split; [reflexivity|]. split; [reflexivity|].
  split; [reflexivity|].
  match goal with |- context [getAction ?t] =>
    destruct (getAction_spec t) as (A1 & A2 & A3 & A4) end.
  repeat (split; [assumption|]).
  split; [apply clamp100_range|].
  split; [|reflexivity].
  rewrite sum_by_map, factors_weights. reflexivity.
Qed.

(** ** The catalyst detector *)

Ltac by_path :=
  repeat (first
    [ match goal with
      | |- context [Js.gtb ?a ?b] =>
          let E := fresh "E" in
          destruct (Js.gtb a b) eqn:E;
          [apply gtb_true in E | apply gtb_false in E]
      | |- context [Js.ltb ?a ?b] =>
          let E := fresh "E" in
          destruct (Js.ltb a b) eqn:E;
          [apply ltb_true in E | apply ltb_false in E]
      | |- context [Nat.leb ?a ?b] =>
          let E := fresh "E" in
          destruct (Nat.leb_spec a b) as [E|E]
      end ]; cbv beta iota).

Lemma detectCatalysts_value (pair : DexPair) (w w' : World) :
  fst (detectCatalysts pair w) = fst (detectCatalysts pair w').
Proof.
  unfold detectCatalysts, bind, and_then, ret, div; cbv zeta.
  by_path; reflexivity.
Qed.

Lemma detectCatalysts_guards (pair : DexPair) (w : World) :
  let vol24h := Windows.h24 (DexPair.volume pair) in
  let vol6h := Windows.h6 (DexPair.volume pair) in
  let buys24h := BuySell.buys (Txns.h24 (DexPair.txns pair)) in
  let sells24h := BuySell.sells (Txns.h24 (DexPair.txns pair)) in
  let found := fst (detectCatalysts pair w) in
  let w' := snd (detectCatalysts pair w) in
  (In "Volume Momentum" (names found) ->
   (0 < vol6h)%Q /\ (0 < vol24h)%Q /\ (0.5 < vol6h / vol24h)%Q) /\
  (In "Buy Pressure" (names found) ->
   (0 < buys24h)%Q /\ (0 < sells24h)%Q /\ (2 < buys24h / sells24h)%Q) /\
  (In "Sell Pressure" (names found) ->
   (0 < buys24h)%Q /\ (0 < sells24h)%Q /\ (3 < sells24h / buys24h)%Q) /\
  exists ds : list (Q * Q),
    w' = mkWorld (heap w) (next w) (clock w) (reads w) (ds ++ divisions w)%list /\
    Forall (fun d => (0 < fst d)%Q /\ (0 < snd d)%Q) ds.
Proof.
  unfold detectCatalysts, bind, and_then, ret, div; cbv zeta.
  by_path; cbn [fst snd names map CatalystAdjustment.name In heap next clock reads divisions];
    (split; [|split; [|split]]);
    try (intros H; repeat (destruct H as [H|H]; try discriminate H); try contradiction;
         repeat split; assumption);
    match goal with
    | |- exists ds, mkWorld _ _ _ _ ?l = _ /\ _ =>
        let rec strip l :=
          lazymatch l with
          | ?x :: ?r => let t := strip r in constr:(x :: t)
          | _ => constr:(@nil (Q * Q))
          end in
        let ds := strip l in
        exists ds; split; [reflexivity|repeat constructor; assumption]
    | |- exists ds, ?w0 = _ /\ _ =>
        exists []; split; [destruct w0; reflexivity|constructor]
    end.
Qed.

(** C5: a catalyst rule whose ratio denominator is zero (24h volume for
    Volume Momentum, sells24h for Buy Pressure, buys24h for Sell Pressure)
    does not fire; a ratio rule that fires has both operands strictly
    positive; and no division evaluated by the detector has a zero
    denominator. *)
Theorem catalyst_ratio_guards (pair : DexPair) (w : World) :
  let vol24h := Windows.h24 (DexPair.volume pair) in
  let vol6h := Windows.h6 (DexPair.volume pair) in
  let buys24h := BuySell.buys (Txns.h24 (DexPair.txns pair)) in
  let sells24h := BuySell.sells (Txns.h24 (DexPair.txns pair)) in
  let found := fst (detectCatalysts pair w) in
  let w' := snd (detectCatalysts pair w) in
  ((vol24h == 0)%Q -> ~ In "Volume Momentum" (names found)) /\
  ((sells24h == 0)%Q -> ~ In "Buy Pressure" (names found)) /\
  ((buys24h == 0)%Q -> ~ In "Sell Pressure" (names found)) /\
  (In "Volume Momentum" (names found) -> (0 < vol6h)%Q /\ (0 < vol24h)%Q) /\
  (In "Buy Pressure" (names found) -> (0 < buys24h)%Q /\ (0 < sells24h)%Q) /\
  (In "Sell Pressure" (names found) -> (0 < sells24h)%Q /\ (0 < buys24h)%Q) /\
  exists ds : list (Q * Q),
    divisions w' = (ds ++ divisions w)%list /\
    Forall (fun d => ~ (snd d == 0)%Q) ds.
Proof.
  cbv zeta.
  destruct (detectCatalysts_guards pair w) as (G1 & G2 & G3 & ds & Hw & Hds).
  cbv zeta in *.
  repeat split.
  - intros Z F. apply G1 in F. destruct F as (_ & F & _). rewrite Z in F.
    exact (Qlt_irrefl _ F).
  - intros Z F. apply G2 in F. destruct F as (_ & F & _). rewrite Z in F.
    exact (Qlt_irrefl _ F).
  - intros Z F. apply G3 in F. destruct F as (F & _). rewrite Z in F.
    exact (Qlt_irrefl _ F).
  - apply G1; assumption.
  - apply G1; assumption.
  - apply G2; assumption.
  - apply G2; assumption.
  - apply G3; assumption.
  - apply G3; assumption.
  - exists ds. split; [rewrite Hw; reflexivity|].
    eapply Forall_impl; [exact Hds|].
    intros d (_ & P) Z. rewrite Z in P. exact (Qlt_irrefl _ P).
Qed.

(** ** Dependence on the clock *)

Lemma ageDays_clock (pair : DexPair) (w : World) :
  ageDays pair w =
  match DexPair.pairCreatedAt pair with
  | None => -1
  | Some created =>
      if Qeq_bool created 0 then -1
      else Qfloor ((inject_Z (clock w (reads w)) - created)
                   / inject_Z (1000 * 60 * 60 * 24))
  end.
Proof.
  unfold ageDays, getTokenAgeDays.
  destruct (DexPair.pairCreatedAt pair) as [created|]; [|reflexivity].
  destruct (Qeq_bool created 0); reflexivity.
Qed.

Lemma factors_ageDays (pair : DexPair) (w1 w2 : World) :
  ageDays pair w1 = ageDays pair w2 -> factors pair w1 = factors pair w2.
Proof.
  intros H. unfold factors. rewrite !scoreAge_run. cbv zeta. cbn [fst].
  rewrite H. reflexivity.
Qed.

(** C9 (as amended): two invocations of [scoreToken] on the same snapshot
    that observe the same age in whole days (in particular, two that read
    the same clock value, or any two when [pairCreatedAt] is absent) return
    scores that agree on every field other than [scoredAt]; the age factor,
    and through it the total, the action and the recommendation, depend on
    the clock at the time of the call. *)
Theorem scoreToken_depends_on_snapshot_and_age
    (pair : DexPair) (w1 w2 : World)
    (Hage : ageDays pair w1 = ageDays pair w2) :
  untimed (snd (scoreToken pair w1)) (fst (scoreToken pair w1))
  = untimed (snd (scoreToken pair w2)) (fst (scoreToken pair w2)).
Proof.
  rewrite !scoreToken_run. cbv zeta. unfold untimed.
  cbn [fst snd heap TokenScore.contractAddress TokenScore.chain
       TokenScore.tokenName TokenScore.tokenSymbol TokenScore.totalScore
       TokenScore.maxScore TokenScore.action TokenScore.breakdown
       TokenScore.catalysts TokenScore.recommendation TokenScore.pairAddress
       TokenScore.pairUrl].
  rewrite !lookup_insert_eq.
  rewrite (factors_ageDays pair w1 w2 Hage).
  rewrite (detectCatalysts_value pair (snd (scoreAge pair w1))
             (snd (scoreAge pair w2))).
  reflexivity.
Qed.

Lemma ageDays_same_clock (pair : DexPair) (w1 w2 : World) :
  clock w1 (reads w1) = clock w2 (reads w2) ->
  ageDays pair w1 = ageDays pair w2.
Proof. intros H. rewrite !ageDays_clock, H. reflexivity. Qed.

Lemma ageDays_unknown (pair : DexPair) (w : World) :
  DexPair.pairCreatedAt pair = None -> ageDays pair w = -1.
Proof. intros H. rewrite ageDays_clock, H. reflexivity. Qed.

(** ** Wallet forensics *)

Lemma generateFlags_mixer
    (address fundedBy : string) (nativeBalance : Q) (tokenCount : nat)
    (transactions : list Tx.t) (w : World) :
  fundedBy ∈ KNOWN_MIXERS ->
  generateFlags address fundedBy nativeBalance tokenCount transactions w
  = ([mixer_reject fundedBy], w).
Proof.
  intros H. unfold generateFlags.
  rewrite (bool_decide_eq_true_2 _ H). reflexivity.
Qed.

Lemma analyzeWallet_run
    (address : string) (balances : Balances.t) (transactions : list Tx.t)
    (fundedBy : string) (w : World) :
  let run :=
    generateFlags address fundedBy (Balances.nativeBalance balances)
      (Balances.tokenCount balances) transactions w in
  let flags := fst run in
  let w1 := snd run in
  analyzeWallet address (Some balances) (Some transactions) fundedBy w
  = (Some
       {| WalletForensicsResult.deployerAddress := address;
          WalletForensicsResult.chain := "solana";
          WalletForensicsResult.fundedBy := fundedBy;
          WalletForensicsResult.nativeBalance := Balances.nativeBalance balances;
          WalletForensicsResult.tokenCount := Balances.tokenCount balances;
          WalletForensicsResult.recentTransactions := length transactions;
          WalletForensicsResult.flags := flags;
          WalletForensicsResult.scoreAdjustment :=
            sum_by WalletFlagDetail.impact flags;
          WalletForensicsResult.riskLevel := classifyRisk flags;
          WalletForensicsResult.analyzedAt := clock w1 (reads w1);
          WalletForensicsResult.summary :=
            buildSummary (classifyRisk flags) flags |},
     mkWorld (heap w1) (next w1) (clock w1) (S (reads w1)) (divisions w1)).
Proof.
  cbv zeta. unfold analyzeWallet, bind, ret, Date_now.
  destruct (generateFlags _ _ _ _ _ w) as [flags w1]. reflexivity.
Qed.

Lemma for_of_push (r : loc) (flags : list WalletFlagDetail) (w : World) :
  for_of flags (fun flag => array_push r (as_catalyst flag)) w
  = (tt, mkWorld (alter (fun xs => (xs ++ map as_catalyst flags)%list) r (heap w))
                 (next w) (clock w) (reads w) (divisions w)).
Proof.
  revert w. induction flags as [|f flags IH]; intros w.
  - cbn. unfold ret. f_equal. destruct w as [h n c r0 d]; cbn. f_equal.
    apply map_eq. intros i. destruct (decide (i = r)) as [->|Hne].
    + rewrite lookup_alter_eq. destruct (h !! r); cbn; [|reflexivity].
      rewrite app_nil_r. reflexivity.
    + rewrite lookup_alter_ne by congruence. reflexivity.
  - cbn [for_of]. unfold bind. unfold array_push at 1. rewrite IH.
    cbn [heap next clock reads divisions]. f_equal. f_equal.
    apply map_eq. intros i. destruct (decide (i = r)) as [->|Hne].
    + rewrite !lookup_alter_eq. destruct (heap w !! r); cbn; [|reflexivity].
      rewrite <- app_assoc. reflexivity.
    + rewrite !lookup_alter_ne by congruence. reflexivity.
Qed.

Lemma applyWalletAdjustment_run
    (tokenScore : TokenScore) (walletResult : WalletForensicsResult)
    (w : World) :
  let flags := WalletForensicsResult.flags walletResult in
  let total :=
    Js.clamp100 (TokenScore.totalScore tokenScore
                 + WalletForensicsResult.scoreAdjustment walletResult) in
  let adjusted :=
    TokenScore.set_recommendation (getRecommendation (getAction total))
      (TokenScore.set_action (getAction total)
         (TokenScore.set_totalScore total tokenScore)) in
  applyWalletAdjustment tokenScore walletResult w
  = (if has_mixer_reject flags
     then TokenScore.set_recommendation
            "🚫 AUTO-REJECTED — Deployer funded via mixer/tornado"
            (TokenScore.set_action SKIP (TokenScore.set_totalScore 0 adjusted))
     else adjusted,
     mkWorld (alter (fun xs => (xs ++ map as_catalyst flags)%list)
                    (TokenScore.catalysts tokenScore) (heap w))
             (next w) (clock w) (reads w) (divisions w)).
Proof.
  cbv zeta. unfold applyWalletAdjustment, bind; cbv zeta.
  change (fun flag : WalletFlagDetail => array_push ?r _)
    with (fun flag : WalletFlagDetail => array_push r (as_catalyst flag)).
  rewrite for_of_push. reflexivity.
Qed.

(** The array of the input score after the call: the returned object points
    to the same array, which now also holds one entry per wallet flag. *)
Lemma applyWalletAdjustment_shares_catalysts
    (tokenScore : TokenScore) (walletResult : WalletForensicsResult)
    (w : World) (before : list CatalystAdjustment) :
  heap w !! TokenScore.catalysts tokenScore = Some before ->
  let adjusted := fst (applyWalletAdjustment tokenScore walletResult w) in
  let w' := snd (applyWalletAdjustment tokenScore walletResult w) in
  TokenScore.catalysts adjusted = TokenScore.catalysts tokenScore
  /\ heap w' !! TokenScore.catalysts tokenScore
     = Some (before
             ++ map as_catalyst (WalletForensicsResult.flags walletResult))%list.
Proof.
  intros H. cbv zeta. rewrite applyWalletAdjustment_run. cbv zeta.
  cbn [fst snd heap]. split.
  - destruct (has_mixer_reject _); reflexivity.
  - rewrite lookup_alter_eq, H. reflexivity.
Qed.

(** C1: when the funding source is in the mixer set, the engine emits the
    single flag MIXER_REJECT (-100) without evaluating any other rule (the
    world is left untouched: no clock reading, no division); the result has
    scoreAdjustment -100 and riskLevel CRITICAL; and merging it into any
    [TokenScore] gives totalScore 0, action SKIP and the fixed auto-rejection
    recommendation, whatever the base score and catalysts were. *)
Theorem mixer_funding_auto_rejects
    (address fundedBy : string) (balances : Balances.t)
    (transactions : list Tx.t) (w : World)
    (Hmixer : fundedBy ∈ KNOWN_MIXERS) :
  generateFlags address fundedBy (Balances.nativeBalance balances)
    (Balances.tokenCount balances) transactions w
  = ([ {| WalletFlagDetail.flag := MIXER_REJECT;
          WalletFlagDetail.impact := -100;
          WalletFlagDetail.reason :=
            "Funded by known mixer: " ++ Js.slice0 8 fundedBy ++ "..." |} ], w)
  /\
  exists (r : WalletForensicsResult) (w' : World),
    analyzeWallet address (Some balances) (Some transactions) fundedBy w
    = (Some r, w') /\
    map (fun f => (WalletFlagDetail.flag f, WalletFlagDetail.impact f))
        (WalletForensicsResult.flags r) = [(MIXER_REJECT, -100)] /\
    WalletForensicsResult.scoreAdjustment r = -100 /\
    WalletForensicsResult.riskLevel r = CRITICAL /\
    forall (tokenScore : TokenScore) (w2 : World),
      let adjusted := fst (applyWalletAdjustment tokenScore r w2) in
      TokenScore.totalScore adjusted = 0 /\
      TokenScore.action adjusted = SKIP /\
      TokenScore.recommendation adjusted
      = "🚫 AUTO-REJECTED — Deployer funded via mixer/tornado".
Proof.
  pose proof (generateFlags_mixer address fundedBy
                (Balances.nativeBalance balances) (Balances.tokenCount balances)
                transactions w Hmixer) as G.
  split; [exact G|].
  do 2 eexists. split; [apply analyzeWallet_run|].
  cbv zeta. rewrite G.
  cbn [fst snd WalletForensicsResult.flags WalletForensicsResult.scoreAdjustment
       WalletForensicsResult.riskLevel].
  repeat split.
  all: intros; rewrite applyWalletAdjustment_run; reflexivity.
Qed.


Lemma generateFlags_shape
    (address fundedBy : string) (nativeBalance : Q) (tokenCount : nat)
    (transactions : list Tx.t) (w : World) :
  let flags :=
    fst (generateFlags address fundedBy nativeBalance tokenCount transactions w) in
  exists fired : list WalletFlagDetail,
    (flags = fired /\ Exists (fun f => WalletFlagDetail.impact f < 0) fired)
    \/ (flags = (fired ++ [wallet_verified])%list
        /\ Forall (fun f => 0 <= WalletFlagDetail.impact f) fired).
Proof.
  cbv zeta. unfold generateFlags, bind, ret.
  destruct (bool_decide (fundedBy ∈ KNOWN_MIXERS)).
  { eexists. left. split; [reflexivity|]. apply Exists_cons_hd. cbn. lia. }
  destruct (analyzeDumpPattern transactions w) as [[isDumping dumpPercent] w1].
  cbn [DumpPattern.isDumping DumpPattern.dumpPercent].
  destruct (bool_decide (fundedBy ∈ KNOWN_INSTITUTIONAL)
            || bool_decide (address ∈ KNOWN_INSTITUTIONAL));
    destruct (5 <? countTokenCreates transactions)%nat;
    destruct isDumping; destruct (dumpPercent >? 70)%js;
    destruct (nativeBalance >? 1)%js; destruct (0 <? tokenCount)%nat;
    cbn;
    match goal with
    | |- exists fired, (?l = fired /\ _) \/ _ =>
        first
          [ exists l; left; split; [reflexivity|];
            solve [ repeat first [ apply Exists_cons_hd; cbn; lia
                                 | apply Exists_cons_tl ] ]
          | exists (removelast l); right; split; [reflexivity|];
            cbn; repeat constructor; cbn; lia ]
    end.
Qed.

Lemma generateFlags_calm
    (address fundedBy : string) (nativeBalance : Q) (tokenCount : nat)
    (transactions : list Tx.t) (w : World) :
  fundedBy ∉ KNOWN_MIXERS ->
  (countTokenCreates transactions <= 5)%nat ->
  dumping transactions w = false ->
  fst (generateFlags address fundedBy nativeBalance tokenCount transactions w)
  = ((if bool_decide (fundedBy ∈ KNOWN_INSTITUTIONAL)
         || bool_decide (address ∈ KNOWN_INSTITUTIONAL)
      then [ {| WalletFlagDetail.flag := INSTITUTIONAL;
                WalletFlagDetail.impact := 8;
                WalletFlagDetail.reason :=
                  "Linked to known institutional/VC wallet" |} ]
      else [])
     ++ (if (nativeBalance >? 1)%js && (0 <? tokenCount)%nat
         then [ {| WalletFlagDetail.flag := NET_POSITIVE;
                   WalletFlagDetail.impact := 2;
                   WalletFlagDetail.reason :=
                     Js.toFixed 2 nativeBalance ++ " SOL + "
                     ++ Js.nat_to_string tokenCount ++ " tokens held" |} ]
         else [])
     ++ [wallet_verified])%list.
Proof.
  intros Hmix Hcreates Hdump. unfold generateFlags, bind, ret.
  rewrite (bool_decide_eq_false_2 _ Hmix).
  apply Nat.ltb_ge in Hcreates. rewrite Hcreates.
  unfold dumping in Hdump.
  destruct (analyzeDumpPattern transactions w) as [[isDumping dumpPercent] w1].
  cbn in Hdump. subst isDumping.
  cbn [DumpPattern.isDumping DumpPattern.dumpPercent].
  destruct (bool_decide (fundedBy ∈ KNOWN_INSTITUTIONAL)
            || bool_decide (address ∈ KNOWN_INSTITUTIONAL));
    destruct (nativeBalance >? 1)%js; destruct (0 <? tokenCount)%nat;
    reflexivity.
Qed.

(** C10: the flag list of a forensics result is never empty.  The flags
    that fired either include one of negative impact, or are followed by
    the WALLET_VERIFIED fallback (+3): alone when no rule fired, after
    INSTITUTIONAL when only that rule fired.  The risk level, the summary
    and the score adjustment are computed from that non-empty list. *)
Theorem wallet_flags_never_empty
    (address fundedBy : string) (balances : Balances.t)
    (transactions : list Tx.t) (w : World) :
  exists (r : WalletForensicsResult) (w' : World),
    analyzeWallet address (Some balances) (Some transactions) fundedBy w
    = (Some r, w') /\
    let flags := WalletForensicsResult.flags r in
    let quiet :=
      (Balances.nativeBalance balances <= 1)%Q
      \/ Balances.tokenCount balances = 0%nat in
    flags = fst (generateFlags address fundedBy (Balances.nativeBalance balances)
                   (Balances.tokenCount balances) transactions w) /\
    flags <> [] /\
    (exists fired : list WalletFlagDetail,
        (flags = fired
         /\ Exists (fun f => WalletFlagDetail.impact f < 0) fired)
        \/ (flags = (fired ++ [wallet_verified])%list
            /\ Forall (fun f => 0 <= WalletFlagDetail.impact f) fired)) /\
    WalletForensicsResult.riskLevel r = classifyRisk flags /\
    WalletForensicsResult.summary r
    = buildSummary (WalletForensicsResult.riskLevel r) flags /\
    WalletForensicsResult.scoreAdjustment r
    = sum_by WalletFlagDetail.impact flags /\
    (fundedBy ∉ KNOWN_MIXERS -> fundedBy ∉ KNOWN_INSTITUTIONAL ->
     address ∉ KNOWN_INSTITUTIONAL ->
     (countTokenCreates transactions <= 5)%nat ->
     dumping transactions w = false -> quiet ->
     flags = [wallet_verified]) /\
    (fundedBy ∉ KNOWN_MIXERS ->
     fundedBy ∈ KNOWN_INSTITUTIONAL \/ address ∈ KNOWN_INSTITUTIONAL ->
     (countTokenCreates transactions <= 5)%nat ->
     dumping transactions w = false -> quiet ->
     flags = [ {| WalletFlagDetail.flag := INSTITUTIONAL;
                  WalletFlagDetail.impact := 8;
                  WalletFlagDetail.reason :=
                    "Linked to known institutional/VC wallet" |};
               wallet_verified ]).
Proof.
  do 2 eexists. split; [apply analyzeWallet_run|].
  cbv zeta.
  cbn [WalletForensicsResult.flags WalletForensicsResult.riskLevel
       WalletForensicsResult.summary WalletForensicsResult.scoreAdjustment].
  pose proof (generateFlags_shape address fundedBy
                (Balances.nativeBalance balances) (Balances.tokenCount balances)
                transactions w) as S.
  cbv zeta in S.
  assert (Hquiet :
            (Balances.nativeBalance balances <= 1)%Q
            \/ Balances.tokenCount balances = 0%nat ->
            (Balances.nativeBalance balances >? 1)%js
            && (0 <? Balances.tokenCount balances)%nat = false).
  { intros [Hb|Ht].
    - apply gtb_false in Hb. rewrite Hb. reflexivity.
    - rewrite Ht. apply andb_false_r. }
  split; [reflexivity|]. split.
  { destruct S as (fired & [(-> & Hneg)|(-> & _)]).
    - intros ->. inversion Hneg.
    - intros E. apply app_eq_nil in E. destruct E as (_ & E). discriminate E. }
  split; [exact S|]. split; [reflexivity|]. split; [reflexivity|].
  split; [reflexivity|]. split.
  - intros Hmix Hf Ha Hc Hd Hq.
    rewrite (generateFlags_calm _ _ _ _ _ _ Hmix Hc Hd).
    rewrite (bool_decide_eq_false_2 _ Hf), (bool_decide_eq_false_2 _ Ha).
    rewrite (Hquiet Hq). reflexivity.
  - intros Hmix Hi Hc Hd Hq.
    rewrite (generateFlags_calm _ _ _ _ _ _ Hmix Hc Hd).
    rewrite (Hquiet Hq).
    destruct Hi as [Hi|Hi]; rewrite (bool_decide_eq_true_2 _ Hi);
      [|rewrite orb_true_r]; reflexivity.
Qed.

(** ** Sorting *)

Lemma insert_Permutation {A : Type} (compare : A -> A -> Q) (x : A)
    (sorted : list A) :
  Permutation (JsArray.insert compare x sorted) (x :: sorted).
Proof.
  induction sorted as [|y rest IH]; cbn; [reflexivity|].
  destruct (Js.gtb (compare x y) 0); [|reflexivity].
  rewrite IH. apply perm_swap.
Qed.

Lemma sort_Permutation {A : Type} (compare : A -> A -> Q) (xs : list A) :
  Permutation (JsArray.sort compare xs) xs.
Proof.
  induction xs as [|x xs IH]; cbn; [reflexivity|].
  rewrite insert_Permutation, IH. reflexivity.
Qed.

Lemma insert_StronglySorted {A : Type} (compare : A -> A -> Q)
    (R : A -> A -> Prop) (x : A) (sorted : list A) :
  (forall a b c, R a b -> R b c -> R a c) ->
  (forall a b, Js.gtb (compare a b) 0 = false -> R a b) ->
  (forall a b, Js.gtb (compare a b) 0 = true -> R b a) ->
  StronglySorted R sorted ->
  StronglySorted R (JsArray.insert compare x sorted).
Proof.
  intros Htrans Hle Hgt. induction 1 as [|y rest Hrest IH Hy]; cbn.
  - constructor; constructor.
  - destruct (Js.gtb (compare x y) 0) eqn:E.
    + constructor; [exact IH|].
      rewrite (insert_Permutation compare x rest).
      constructor; [apply Hgt; exact E|exact Hy].
    + constructor; [constructor; assumption|].
      constructor; [apply Hle; exact E|].
      eapply Forall_impl; [exact Hy|].
      intros z Hz. cbn in Hz. exact (Htrans _ _ _ (Hle _ _ E) Hz).
Qed.

Lemma sort_StronglySorted {A : Type} (compare : A -> A -> Q)
    (R : A -> A -> Prop) (xs : list A) :
  (forall a b c, R a b -> R b c -> R a c) ->
  (forall a b, Js.gtb (compare a b) 0 = false -> R a b) ->
  (forall a b, Js.gtb (compare a b) 0 = true -> R b a) ->
  StronglySorted R (JsArray.sort compare xs).
Proof.
  intros Htrans Hle Hgt. induction xs as [|x xs IH]; cbn.
  - constructor.
  - apply insert_StronglySorted; assumption.
Qed.

(** Stability: elements that compare as equal keep their order. *)
Lemma insert_filter {A : Type} (compare : A -> A -> Q) (class : A -> bool)
    (x : A) (sorted : list A) :
  (forall a b, class a = true -> class b = true ->
               Js.gtb (compare a b) 0 = false) ->
  List.filter class (JsArray.insert compare x sorted)
  = List.filter class (x :: sorted).
Proof.
  intros Hclass. induction sorted as [|y rest IH]; [reflexivity|].
  cbn [JsArray.insert]. destruct (Js.gtb (compare x y) 0) eqn:E; [|reflexivity].
  cbn [List.filter] in *. rewrite IH.
  destruct (class x) eqn:Ex, (class y) eqn:Ey; try reflexivity.
  rewrite (Hclass x y Ex Ey) in E. discriminate E.
Qed.

Lemma sort_filter {A : Type} (compare : A -> A -> Q) (class : A -> bool)
    (xs : list A) :
  (forall a b, class a = true -> class b = true ->
               Js.gtb (compare a b) 0 = false) ->
  List.filter class (JsArray.sort compare xs) = List.filter class xs.
Proof.
  intros Hclass. induction xs as [|x xs IH]; [reflexivity|].
  cbn [JsArray.sort fold_right].
  rewrite (insert_filter compare class x _ Hclass).
  cbn [List.filter]. fold (JsArray.sort compare xs). rewrite IH. reflexivity.
Qed.

Lemma gtb_difference (a b : Z) :
  Js.gtb (inject_Z (b - a)) 0 = true <-> a < b.
Proof.
  rewrite gtb_true. change 0%Q with (inject_Z 0). rewrite <- Zlt_Qlt. lia.
Qed.
(** ** Scoring a batch *)

Lemma scoreToken_world (pair : DexPair) (w : World) :
  let s := fst (scoreToken pair w) in
  let w' := snd (scoreToken pair w) in
  TokenScore.catalysts s = next w
  /\ next w' = Pos.succ (next w)
  /\ heap w' = <[next w := fst (detectCatalysts pair (snd (scoreAge pair w)))]>
                 (heap w).
Proof.
  cbv zeta. rewrite scoreToken_run; cbv zeta.
  cbn [fst snd TokenScore.catalysts next heap].
  destruct (detectCatalysts_guards pair (snd (scoreAge pair w)))
    as (_ & _ & _ & ds & -> & _).
  cbn [next heap].
  rewrite scoreAge_run; cbn [snd].
  unfold getTokenAgeDays.
  destruct (DexPair.pairCreatedAt pair) as [created|]; [|repeat split].
  destruct (Qeq_bool created 0); repeat split.
Qed.

Lemma scoreToken_scored_from (pair : DexPair) (w : World) :
  scored_from pair (fst (scoreToken pair w)).
Proof.
  rewrite scoreToken_run; cbv zeta. unfold scored_from.
  cbn [fst TokenScore.pairAddress TokenScore.contractAddress
       TokenScore.totalScore TokenScore.action TokenScore.recommendation].
  repeat split; apply clamp100_range.
Qed.

Lemma map_M_scoreToken (pairs : list DexPair) (w : World) :
  let scored := fst (map_M scoreToken pairs w) in
  let w' := snd (map_M scoreToken pairs w) in
  Forall2 scored_from pairs scored
  /\ (next w <= next w')%positive
  /\ Forall (fun s => (next w <= TokenScore.catalysts s < next w')%positive)
            scored.
Proof.
  revert w. induction pairs as [|pair pairs IH]; intros w; cbn [map_M].
  - unfold ret; cbn. repeat split; try constructor. lia.
  - unfold bind, ret.
    pose proof (scoreToken_scored_from pair w) as Hs.
    destruct (scoreToken_world pair w) as (Hc & Hn & _).
    destruct (scoreToken pair w) as [s w1]; cbn [fst snd] in *.
    specialize (IH w1). cbv zeta in IH.
    destruct (map_M scoreToken pairs w1) as [ss w2]; cbn [fst snd] in *.
    destruct IH as (IH1 & IH2 & IH3).
    split; [constructor; assumption|]. split; [lia|].
    constructor; [lia|].
    eapply Forall_impl; [exact IH3|]. cbn. intros; lia.
Qed.

Lemma map_M_scoreToken_NoDup (pairs : list DexPair) (w : World) :
  NoDup (map TokenScore.catalysts (fst (map_M scoreToken pairs w))).
Proof.
  revert w. induction pairs as [|pair pairs IH]; intros w; cbn [map_M].
  - constructor.
  - unfold bind, ret.
    destruct (scoreToken_world pair w) as (Hc & Hn & _).
    destruct (scoreToken pair w) as [s w1]; cbn [fst snd] in *.
    pose proof (IH w1) as Hnd.
    destruct (map_M_scoreToken pairs w1) as (_ & _ & Hrange).
    destruct (map_M scoreToken pairs w1) as [ss w2]; cbn [fst snd map] in *.
    apply NoDup_cons. split; [|exact Hnd].
    intros Hin. apply list_elem_of_fmap in Hin. destruct Hin as (s' & E & Hin).
    rewrite Forall_forall in Hrange. apply Hrange in Hin. lia.
Qed.

(** X1: [batchScore] returns the scores of the pairs, each pair scored once,
    ordered by total score from the highest down. *)
Theorem batchScore_sorted (pairs : list DexPair) (w : World) :
  let result := fst (batchScore pairs w) in
  Permutation result (fst (map_M scoreToken pairs w))
  /\ Permutation (map TokenScore.pairAddress result)
                 (map DexPair.pairAddress pairs)
  /\ length result = length pairs
  /\ StronglySorted
       (fun a b => TokenScore.totalScore b <= TokenScore.totalScore a) result
  /\ Forall (fun s => 0 <= TokenScore.totalScore s <= 100
                      /\ TokenScore.action s = getAction (TokenScore.totalScore s))
            result.
Proof.
  cbv zeta. unfold batchScore, bind, ret.
  destruct (map_M_scoreToken pairs w) as (Hfrom & _ & _).
  destruct (map_M scoreToken pairs w) as [scored w1]; cbn [fst snd] in *.
  set (compare := fun a b : TokenScore =>
                    inject_Z (TokenScore.totalScore b - TokenScore.totalScore a)).
  pose proof (sort_Permutation compare scored) as Hperm.
  assert (Haddr : map TokenScore.pairAddress scored
                  = map DexPair.pairAddress pairs).
  { clear Hperm. induction Hfrom as [|pair s pairs scored Hs _ IH];
      [reflexivity|].
    cbn. destruct Hs as (-> & _). rewrite IH. reflexivity. }
  split; [exact Hperm|]. split; [rewrite Hperm, Haddr; reflexivity|].
  split; [rewrite Hperm; symmetry; exact (Forall2_length _ _ _ Hfrom)|].
  split.
  - apply sort_StronglySorted.
    + intros a b c; lia.
    + intros a b E. unfold compare in E.
      destruct (Js.gtb _ 0) eqn:G in E; [discriminate E|].
      destruct (Z.lt_ge_cases (TokenScore.totalScore a) (TokenScore.totalScore b))
        as [L|L]; [|lia].
      apply gtb_difference in L. congruence.
    + intros a b E. apply gtb_difference in E. lia.
  - rewrite Hperm. clear Hperm Haddr.
    induction Hfrom as [|pair s pairs scored Hs _ IH]; constructor;
      [|exact IH].
    destruct Hs as (_ & _ & Hr & Ha & _). split; assumption.
Qed.

(** X2: scores with the same total leave [batchScore] in the order their
    pairs came in. *)
Theorem batchScore_stable (pairs : list DexPair) (w : World) (total : Z) :
  List.filter (fun s => (TokenScore.totalScore s =? total)%Z)
              (fst (batchScore pairs w))
  = List.filter (fun s => (TokenScore.totalScore s =? total)%Z)
                (fst (map_M scoreToken pairs w)).
Proof.
  unfold batchScore, bind, ret.
  destruct (map_M scoreToken pairs w) as [scored w1]; cbn [fst].
  apply sort_filter. intros a b Ha Hb.
  apply Z.eqb_eq in Ha, Hb.
  destruct (Js.gtb _ 0) eqn:G; [|reflexivity].
  apply gtb_difference in G. lia.
Qed.

(** X3: no two scores of a batch hold the same [catalysts] array. *)
Theorem batchScore_distinct_arrays (pairs : list DexPair) (w : World) :
  NoDup (map TokenScore.catalysts (fst (batchScore pairs w))).
Proof.
  pose proof (map_M_scoreToken_NoDup pairs w) as Hnd.
  unfold batchScore, bind, ret.
  destruct (map_M scoreToken pairs w) as [scored w1]; cbn [fst] in *.
  rewrite sort_Permutation. exact Hnd.
Qed.
(** ** More on the catalyst detector *)

Lemma ratio_above (a b k : Q) :
  (0 < b)%Q -> (k < a / b)%Q -> (k * b < a)%Q.
Proof.
  intros Hb H.
  assert (E : (a == a / b * b)%Q).
  { unfold Qdiv. rewrite <- Qmult_assoc, (Qmult_comm (/ b)), Qmult_inv_r.
    - rewrite Qmult_1_r. reflexivity.
    - intros Z. rewrite Z in Hb. exact (Qlt_irrefl _ Hb). }
  apply Qlt_le_trans with (a / b * b)%Q;
    [apply Qmult_lt_r; assumption|rewrite <- E; apply Qle_refl].
Qed.

Lemma pressures_exclusive (buys sells : Q) :
  (0 < buys)%Q -> (0 < sells)%Q ->
  (2 < buys / sells)%Q -> (3 < sells / buys)%Q -> False.
Proof.
  intros Hb Hs H2 H3.
  apply ratio_above in H2; [|exact Hs].
  apply ratio_above in H3; [|exact Hb].
  lra.
Qed.

Lemma detectCatalysts_census (pair : DexPair) (w : World) :
  let found := fst (detectCatalysts pair w) in
  sublist (map name_and_points found) catalyst_rules
  /\ ~ (In "Buy Pressure" (names found) /\ In "Sell Pressure" (names found))
  /\ (In "Multi-Platform Presence" (names found)
      <-> (4 <= countSocials pair)%nat)
  /\ (In "Price Dump" (names found)
      <-> (Windows.h24 (DexPair.priceChange pair) < -30)%Q)
  /\ -15 <= sum_by CatalystAdjustment.points found <= 13.
Proof.
  unfold detectCatalysts, bind, and_then, ret, div; cbv zeta.
  by_path;
    try match goal with
        | H2 : (2 < ?b / ?s)%Q, H3 : (3 < ?s / ?b)%Q,
          Hb : (0 < ?b)%Q, Hs : (0 < ?s)%Q |- _ =>
            exfalso; exact (pressures_exclusive b s Hb Hs H2 H3)
        end;
    cbn [fst names map CatalystAdjustment.name CatalystAdjustment.points
         name_and_points In];
    (split;
     [ unfold catalyst_rules;
       repeat first [apply sublist_nil | apply sublist_skip | apply sublist_cons]
     | split;
       [ intros (B & S);
         repeat (destruct B as [B|B]; try discriminate B); try contradiction;
         repeat (destruct S as [S|S]; try discriminate S); contradiction
       | split;
         [ split;
           [ intros H; repeat (destruct H as [H|H]; try discriminate H);
             try contradiction; try assumption; lia
           | intros H; first [ lia | repeat (first [left; reflexivity | right]) ] ]
         | split;
           [ split;
             [ intros H; repeat (destruct H as [H|H]; try discriminate H);
               try contradiction; try assumption; lra
             | intros H;
               first [ lra | repeat (first [left; reflexivity | right]) ] ]
           | vm_compute; split; discriminate ] ] ] ]).
Qed.

Lemma sublist_map {A B : Type} (f : A -> B) (l k : list A) :
  sublist l k -> sublist (map f l) (map f k).
Proof.
  induction 1; cbn; [apply sublist_nil|apply sublist_skip|apply sublist_cons];
    assumption.
Qed.

(** X4: the catalysts found are some of the five rules, in rule order and
    with the rule's points; no rule fires twice; Buy Pressure and Sell
    Pressure never fire together; the points add up to between -15 and 13. *)
Theorem catalysts_are_rule_unique (pair : DexPair) (w : World) :
  let found := fst (detectCatalysts pair w) in
  sublist (map name_and_points found) catalyst_rules
  /\ NoDup (names found)
  /\ ~ (In "Buy Pressure" (names found) /\ In "Sell Pressure" (names found))
  /\ -15 <= sum_by CatalystAdjustment.points found <= 13.
Proof.
  cbv zeta.
  destruct (detectCatalysts_census pair w) as (Hsub & Hex & _ & _ & Hsum).
  cbv zeta in *. repeat split; try assumption; try lia.
  assert (E : names (fst (detectCatalysts pair w))
              = map fst (map name_and_points (fst (detectCatalysts pair w)))).
  { unfold names. rewrite map_map. reflexivity. }
  rewrite E.
  eapply sublist_NoDup; [|apply sublist_map; exact Hsub].
  unfold catalyst_rules. cbn.
  repeat (apply NoDup_cons; split;
          [intros H; repeat (apply elem_of_cons in H; destruct H as [H|H];
                             [discriminate H|]);
           apply elem_of_nil in H; exact H|]).
  apply NoDup_nil. exact I.
Qed.

(** X5: Multi-Platform Presence fires exactly when the social factor is at
    its top tier, and Price Dump exactly when the 24h price change is below
    -30 percent. *)
Theorem unguarded_catalysts (pair : DexPair) (w : World) :
  let found := fst (detectCatalysts pair w) in
  (In "Multi-Platform Presence" (names found)
   <-> ScoreBreakdown.score (scoreSocial pair) = 15)
  /\ (In "Price Dump" (names found)
      <-> (Windows.h24 (DexPair.priceChange pair) < -30)%Q).
Proof.
  cbv zeta.
  destruct (detectCatalysts_census pair w) as (_ & _ & Hm & Hp & _).
  cbv zeta in *. split; [|exact Hp].
  rewrite Hm. destruct (scoreSocial_table pair) as (T1 & T2 & T3 & T4).
  cbv zeta in *. split; [exact T1|].
  intros E.
  destruct (Nat.le_gt_cases 4 (countSocials pair)) as [L|L]; [exact L|].
  exfalso.
  destruct (Nat.le_gt_cases 2 (countSocials pair)) as [L2|L2];
    [rewrite T2 in E by lia; discriminate E|].
  destruct (Nat.le_gt_cases 1 (countSocials pair)) as [L1|L1];
    [rewrite T3 in E by lia; discriminate E|].
  rewrite T4 in E by lia. discriminate E.
Qed.

Lemma factor_floors (pair : DexPair) (w : World) :
  5 <= ScoreBreakdown.score (scoreLiquidity pair)
  /\ 4 <= ScoreBreakdown.score (scoreMarketCap pair)
  /\ 4 <= ScoreBreakdown.score (scoreVolume pair)
  /\ 2 <= ScoreBreakdown.score (scoreSocial pair)
  /\ 2 <= ScoreBreakdown.score (fst (scoreAge pair w))
  /\ 2 <= ScoreBreakdown.score (scoreTeam pair).
Proof.
  rewrite scoreAge_run.
  unfold scoreLiquidity, scoreMarketCap, scoreVolume, scoreSocial, scoreTeam.
  cbv zeta. cbn [fst ScoreBreakdown.score].
  repeat split.
  all: by_tier; cbn [ScoreBreakdown.score andb orb]; lia.
Qed.

Lemma factors_sum_range (pair : DexPair) (w : World) :
  19 <= sum_by ScoreBreakdown.score (factors pair w) <= 100.
Proof.
  destruct (factor_floors pair w) as (F1 & F2 & F3 & F4 & F5 & F6).
  pose proof (scoreLiquidity_bounded pair) as B1.
  pose proof (scoreMarketCap_bounded pair) as B2.
  pose proof (scoreVolume_bounded pair) as B3.
  pose proof (scoreSocial_bounded pair) as B4.
  pose proof (scoreAge_bounded pair w) as B5.
  pose proof (scoreTeam_bounded pair) as B6.
  cbv zeta in *.
  assert (W : ScoreBreakdown.weight (scoreLiquidity pair) = 25
              /\ ScoreBreakdown.weight (scoreMarketCap pair) = 20
              /\ ScoreBreakdown.weight (scoreVolume pair) = 20
              /\ ScoreBreakdown.weight (scoreSocial pair) = 15
              /\ ScoreBreakdown.weight (fst (scoreAge pair w)) = 10
              /\ ScoreBreakdown.weight (scoreTeam pair) = 10).
  { pose proof (factors_weights pair w) as Hw. unfold factors in Hw.
    cbn [map] in Hw. injection Hw as -> -> -> -> -> ->. repeat split. }
  unfold sum_by, factors. cbn [fold_left]. lia.
Qed.

(** The total of a fresh score is never 0. *)
Lemma scoreToken_total_positive (pair : DexPair) (w : World) :
  0 < TokenScore.totalScore (fst (scoreToken pair w)) <= 100.
Proof.
  pose proof (factors_sum_range pair w) as Hsum.
  rewrite scoreToken_run; cbv zeta. cbn [fst TokenScore.totalScore].
  destruct (detectCatalysts_census pair (snd (scoreAge pair w)))
    as (_ & _ & _ & _ & Hc).
  cbv zeta in Hc. unfold Js.clamp100. lia.
Qed.

(** X6: the six factor scores add up to between 19 and 100, and the total
    of [scoreToken] lies between 4 and 100: the lower clamp never has to
    act. *)
Theorem scoreToken_total_floor (pair : DexPair) (w : World) :
  19 <= sum_by ScoreBreakdown.score (factors pair w) <= 100
  /\ 4 <= TokenScore.totalScore (fst (scoreToken pair w)) <= 100.
Proof.
  pose proof (factors_sum_range pair w) as Hsum.
  split; [exact Hsum|].
  rewrite scoreToken_run; cbv zeta. cbn [fst TokenScore.totalScore].
  destruct (detectCatalysts_census pair (snd (scoreAge pair w)))
    as (_ & _ & _ & _ & Hc).
  cbv zeta in Hc.
  assert (Hlow : 4 <= sum_by ScoreBreakdown.score (factors pair w)
                      + sum_by CatalystAdjustment.points
                          (fst (detectCatalysts pair (snd (scoreAge pair w)))))
    by lia.
  unfold Js.clamp100. lia.
Qed.

(** ** The store *)

(** X7: in a well-formed store [scoreToken] puts its catalysts in an array
    that did not exist before, leaves every existing array as it was, and
    keeps the store well-formed. *)
Theorem scoreToken_allocates_fresh (pair : DexPair) (w : World)
    (Hwf : wf_world w) :
  let s := fst (scoreToken pair w) in
  let w' := snd (scoreToken pair w) in
  heap w !! TokenScore.catalysts s = None
  /\ is_Some (heap w' !! TokenScore.catalysts s)
  /\ (forall l : loc, is_Some (heap w !! l) -> heap w' !! l = heap w !! l)
  /\ wf_world w'.
Proof.
  cbv zeta. destruct (scoreToken_world pair w) as (Hc & Hn & Hh).
  cbv zeta in *. rewrite Hc, Hh.
  assert (Hfresh : heap w !! next w = None).
  { destruct (heap w !! next w) eqn:E; [|reflexivity].
    assert (L : (next w < next w)%positive) by (apply Hwf; rewrite E; eauto).
    lia. }
  split; [exact Hfresh|]. split; [rewrite lookup_insert_eq; eauto|].
  split.
  - intros l Hl. apply lookup_insert_ne. intros E. subst l.
    rewrite Hfresh in Hl. destruct Hl as [x Hx]. discriminate Hx.
  - unfold wf_world. intros l Hl. rewrite Hn. rewrite Hh in Hl.
    destruct (decide (l = next w)) as [->|Hne]; [lia|].
    rewrite lookup_insert_ne in Hl by congruence.
    apply Hwf in Hl. lia.
Qed.

(** X8: whatever the wallet result, the score [applyWalletAdjustment]
    returns has its total in [0,100] and its action equal to [getAction] of
    that total; the input's array gains one entry per wallet flag, and no
    other array, nor the clock, is touched. *)
Theorem applyWalletAdjustment_keeps_score_invariants
    (tokenScore : TokenScore) (walletResult : WalletForensicsResult)
    (w : World) :
  let adjusted := fst (applyWalletAdjustment tokenScore walletResult w) in
  let w' := snd (applyWalletAdjustment tokenScore walletResult w) in
  0 <= TokenScore.totalScore adjusted <= 100
  /\ TokenScore.action adjusted = getAction (TokenScore.totalScore adjusted)
  /\ heap w' !! TokenScore.catalysts tokenScore
     = (fun before =>
          (before
           ++ map as_catalyst (WalletForensicsResult.flags walletResult))%list)
       <$> heap w !! TokenScore.catalysts tokenScore
  /\ (forall l : loc, l <> TokenScore.catalysts tokenScore ->
                      heap w' !! l = heap w !! l)
  /\ (next w', reads w', divisions w') = (next w, reads w, divisions w).
Proof.
  cbv zeta. rewrite applyWalletAdjustment_run; cbv zeta. cbn [fst snd].
  split; [|split; [|split; [|split]]].
  - destruct (has_mixer_reject _); cbn; [lia|apply clamp100_range].
  - destruct (has_mixer_reject _); reflexivity.
  - cbn [heap]. apply lookup_alter_eq.
  - intros l Hl. cbn [heap]. apply lookup_alter_ne. congruence.
  - reflexivity.
Qed.

(** ** The dump pattern *)

Lemma analyzeDumpPattern_run (transactions : list Tx.t) (w : World) :
  let recent := length (recentTxns transactions w) in
  let sells := length (recentSells transactions w) in
  let percent :=
    if (0 <? recent)%nat then (Js.of_nat sells / Js.of_nat recent * 100)%Q
    else 0%Q in
  analyzeDumpPattern transactions w
  = ({| DumpPattern.isDumping := (percent >? 50)%js && (3 <=? sells)%nat;
        DumpPattern.dumpPercent := percent |},
     mkWorld (heap w) (next w) (clock w) (S (reads w))
       ((if (0 <? recent)%nat then [(Js.of_nat sells, Js.of_nat recent)] else [])
        ++ (inject_Z (clock w (reads w)), 1000%Q) :: divisions w)%list).
Proof.
  cbv zeta. unfold analyzeDumpPattern, bind, ret, Date_now, div.
  cbn [heap next clock reads divisions].
  fold (recentTxns transactions w). fold (recentSells transactions w).
  destruct (0 <? length (recentTxns transactions w))%nat; reflexivity.
Qed.

Lemma filter_length_le {A : Type} (f : A -> bool) (xs : list A) :
  (length (List.filter f xs) <= length xs)%nat.
Proof.
  induction xs as [|x xs IH]; cbn; [lia|]. destruct (f x); cbn; lia.
Qed.

Lemma of_nat_lt (a b : nat) : (Js.of_nat a < Js.of_nat b)%Q <-> (a < b)%nat.
Proof. unfold Js.of_nat. rewrite <- Zlt_Qlt. lia. Qed.

Lemma of_nat_le (a b : nat) : (Js.of_nat a <= Js.of_nat b)%Q <-> (a <= b)%nat.
Proof. unfold Js.of_nat. rewrite <- Zle_Qle. lia. Qed.

(** [s / r * 100 > k] over the naturals, for [r > 0]. *)
Lemma percent_above (s r : nat) (k : Z) :
  (0 < r)%nat ->
  ((inject_Z k < Js.of_nat s / Js.of_nat r * 100)%Q
   <-> k * Z.of_nat r < 100 * Z.of_nat s).
Proof.
  intros Hr.
  assert (Hr' : (0 < Js.of_nat r)%Q) by (apply (of_nat_lt 0 r); exact Hr).
  assert (E : (Js.of_nat s / Js.of_nat r * 100
               == inject_Z (100 * Z.of_nat s) / Js.of_nat r)%Q).
  { rewrite inject_Z_mult. unfold Js.of_nat, Qdiv.
    change (inject_Z 100) with 100%Q. ring. }
  rewrite E. split; intros H.
  - apply ratio_above in H; [|exact Hr'].
    unfold Js.of_nat in H. rewrite <- inject_Z_mult in H.
    rewrite <- Zlt_Qlt in H. exact H.
  - apply Qlt_shift_div_l; [exact Hr'|].
    unfold Js.of_nat. rewrite <- inject_Z_mult, <- Zlt_Qlt. exact H.
Qed.

(** A dump is reported when the sells are at least 3 and more than half of
    the recent transactions; the 70 percent line is [10 * sells > 7 * recent]. *)
Lemma dump_thresholds (transactions : list Tx.t) (w : World) :
  let pattern := fst (analyzeDumpPattern transactions w) in
  let recent := length (recentTxns transactions w) in
  let sells := length (recentSells transactions w) in
  (DumpPattern.isDumping pattern = true
   <-> (3 <= sells)%nat /\ (recent < 2 * sells)%nat)
  /\ ((70 < DumpPattern.dumpPercent pattern)%Q
      <-> (7 * recent < 10 * sells)%nat)
  /\ (sells <= recent <= length transactions)%nat.
Proof.
  cbv zeta. rewrite analyzeDumpPattern_run; cbv zeta.
  cbn [fst DumpPattern.isDumping DumpPattern.dumpPercent].
  assert (Hsr : (length (recentSells transactions w)
                 <= length (recentTxns transactions w))%nat)
    by apply filter_length_le.
  assert (Hrt : (length (recentTxns transactions w) <= length transactions)%nat)
    by apply filter_length_le.
  set (r := length (recentTxns transactions w)) in *.
  set (s := length (recentSells transactions w)) in *.
  destruct (Nat.ltb_spec 0 r) as [Hr|Hr].
  - pose proof (percent_above s r 50 Hr) as P50.
    pose proof (percent_above s r 70 Hr) as P70.
    change (inject_Z 50) with 50%Q in P50.
    change (inject_Z 70) with 70%Q in P70.
    split; [|split; [|lia]].
    + rewrite andb_true_iff, gtb_true, P50, Nat.leb_le. lia.
    + rewrite P70. lia.
  - assert (r = 0%nat) as -> by lia. assert (s = 0%nat) as -> by lia.
    split; [cbn; split; [discriminate|lia]|].
    split; [split; [intros H; discriminate H|lia]|]. lia.
Qed.

(** X9: the dump percentage lies in [0,100]; a dump is reported exactly when
    at least 3 of the transactions of the last seven days are sells and the
    sells are more than half of them; the clock is read once and no division
    has a zero denominator. *)
Theorem dump_pattern_counts (transactions : list Tx.t) (w : World) :
  let pattern := fst (analyzeDumpPattern transactions w) in
  let w' := snd (analyzeDumpPattern transactions w) in
  let recent := length (recentTxns transactions w) in
  let sells := length (recentSells transactions w) in
  (0 <= DumpPattern.dumpPercent pattern <= 100)%Q
  /\ (DumpPattern.isDumping pattern = true
      <-> (3 <= sells)%nat /\ (recent < 2 * sells)%nat)
  /\ ((70 < DumpPattern.dumpPercent pattern)%Q
      <-> (7 * recent < 10 * sells)%nat)
  /\ (sells <= recent <= length transactions)%nat
  /\ reads w' = S (reads w)
  /\ exists ds : list (Q * Q),
       divisions w' = (ds ++ divisions w)%list
       /\ Forall (fun d => ~ (snd d == 0)%Q) ds.
Proof.
  cbv zeta.
  destruct (dump_thresholds transactions w) as (Hi & H70 & Hl).
  cbv zeta in Hi, H70, Hl.
  split; [|split; [exact Hi|split; [exact H70|split; [exact Hl|]]]];
    clear Hi H70; rewrite analyzeDumpPattern_run; cbv zeta;
    cbn [fst snd DumpPattern.dumpPercent reads divisions];
    set (r := length (recentTxns transactions w)) in *;
    set (s := length (recentSells transactions w)) in *;
    destruct (Nat.ltb_spec 0 r) as [Hr|Hr].
  - pose proof (percent_above s r (-1) Hr) as P0.
    pose proof (percent_above s r 100 Hr) as P100.
    change (inject_Z 100) with 100%Q in P100.
    change (inject_Z (-1)) with (-1)%Q in P0.
    split.
    + apply Qnot_lt_le. intros H.
      assert (Hz : (0 <= Js.of_nat s / Js.of_nat r * 100)%Q).
      { apply Qmult_le_0_compat; [|discriminate].
        apply Qle_shift_div_l; [apply (of_nat_lt 0 r); exact Hr|].
        rewrite Qmult_0_l. apply (of_nat_le 0 s). lia. }
      exact (Qlt_not_le _ _ H Hz).
    + apply Qnot_lt_le. intros H. apply P100 in H. lia.
  - split; discriminate.
  - split; [reflexivity|].
    eexists [_; _]. split; [reflexivity|].
    repeat constructor; cbn.
    + intros Z. apply (of_nat_lt 0 r) in Hr. rewrite Z in Hr.
      exact (Qlt_irrefl _ Hr).
    + discriminate.
  - split; [reflexivity|].
    eexists [_]. split; [reflexivity|]. repeat constructor. cbn. discriminate.
Qed.

(** ** More on the wallet flags *)

Lemma generateFlags_census
    (address fundedBy : string) (nativeBalance : Q) (tokenCount : nat)
    (transactions : list Tx.t) (w : World) :
  let flags :=
    fst (generateFlags address fundedBy nativeBalance tokenCount transactions w) in
  let fl := map WalletFlagDetail.flag flags in
  let pattern := fst (analyzeDumpPattern transactions w) in
  let adjustment := sum_by WalletFlagDetail.impact flags in
  sublist fl flag_order
  /\ Forall documented_impact flags
  /\ ~ (In DUMP_ALERT fl /\ In NET_POSITIVE fl)
  /\ (In MIXER_REJECT fl <-> (fundedBy ∈ KNOWN_MIXERS))
  /\ (In SERIAL_CREATOR fl
      <-> (fundedBy ∉ KNOWN_MIXERS) /\ (5 < countTokenCreates transactions)%nat)
  /\ (In DUMP_ALERT fl
      <-> (fundedBy ∉ KNOWN_MIXERS) /\ DumpPattern.isDumping pattern = true)
  /\ (classifyRisk flags = CRITICAL <-> (fundedBy ∈ KNOWN_MIXERS))
  /\ (classifyRisk flags = HIGH
      <-> (fundedBy ∉ KNOWN_MIXERS) /\ DumpPattern.isDumping pattern = true
          /\ (70 < DumpPattern.dumpPercent pattern)%Q)
  /\ (classifyRisk flags = LOW <-> In WALLET_VERIFIED fl)
  /\ match classifyRisk flags with
     | LOW => 3 <= adjustment <= 13
     | MEDIUM => -15 <= adjustment <= 5
     | HIGH => -20 <= adjustment <= -7
     | CRITICAL => adjustment = -100
     end.
Proof.
  cbv zeta. unfold generateFlags, bind, ret.
  destruct (decide (fundedBy ∈ KNOWN_MIXERS)) as [Hm|Hm].
  { rewrite (bool_decide_eq_true_2 _ Hm). cbn.
    unfold flag_order.
    split; [repeat first [apply sublist_nil | apply sublist_skip
                         | apply sublist_cons]|].
    split; [repeat constructor|].
    intuition (try discriminate; try congruence; auto). }
  rewrite (bool_decide_eq_false_2 _ Hm).
  destruct (analyzeDumpPattern transactions w) as [[isDumping dumpPercent] w1].
  cbn [fst DumpPattern.isDumping DumpPattern.dumpPercent].
  destruct (bool_decide (fundedBy ∈ KNOWN_INSTITUTIONAL)
            || bool_decide (address ∈ KNOWN_INSTITUTIONAL));
    destruct (Nat.ltb_spec 5 (countTokenCreates transactions)) as [Hc|Hc];
    (destruct isDumping;
     [destruct (dumpPercent >? 70)%js eqn:Hp;
      [apply gtb_true in Hp|apply gtb_false in Hp]|]);
    destruct (nativeBalance >? 1)%js; destruct (0 <? tokenCount)%nat;
    cbn; unfold flag_order;
    (split; [repeat first [apply sublist_nil | apply sublist_skip
                          | apply sublist_cons]|]);
    (split;
     [repeat (apply List.Forall_cons;
              [cbn; first [reflexivity | left; reflexivity
                          | right; reflexivity]|]);
      apply List.Forall_nil|]);
    intuition (try discriminate; try congruence; try lia; try lra; auto).
Qed.

Lemma countTokenCreates_le (transactions : list Tx.t) :
  (countTokenCreates transactions <= length transactions)%nat.
Proof. unfold countTokenCreates. apply filter_length_le. Qed.

(** X10: the flags come out in rule order without repetition, each with the
    impact the README documents, and never the UNKNOWN flag; DUMP_ALERT and
    NET_POSITIVE never appear together; SERIAL_CREATOR needs more than 5
    creations among at least 6 transactions and DUMP_ALERT at least 3
    transactions; the impacts add up to between -100 and 13. *)
Theorem wallet_flags_follow_rules
    (address fundedBy : string) (nativeBalance : Q) (tokenCount : nat)
    (transactions : list Tx.t) (w : World) :
  let flags :=
    fst (generateFlags address fundedBy nativeBalance tokenCount transactions w) in
  let fl := map WalletFlagDetail.flag flags in
  sublist fl flag_order
  /\ NoDup fl
  /\ ~ In UNKNOWN fl
  /\ Forall documented_impact flags
  /\ ~ (In DUMP_ALERT fl /\ In NET_POSITIVE fl)
  /\ (In SERIAL_CREATOR fl ->
      (5 < countTokenCreates transactions)%nat
      /\ (6 <= length transactions)%nat)
  /\ (In DUMP_ALERT fl -> (3 <= length transactions)%nat)
  /\ -100 <= sum_by WalletFlagDetail.impact flags <= 13.
Proof.
  cbv zeta.
  destruct (generateFlags_census address fundedBy nativeBalance tokenCount
              transactions w)
    as (Hsub & Himp & Hex & _ & Hs & Hd & _ & _ & _ & Hr).
  cbv zeta in *.
  split; [exact Hsub|]. split.
  { eapply sublist_NoDup; [|exact Hsub]. unfold flag_order.
    repeat (apply NoDup_cons; split;
            [intros H; repeat (apply elem_of_cons in H; destruct H as [H|H];
                               [discriminate H|]);
             apply elem_of_nil in H; exact H|]).
    apply NoDup_nil. exact I. }
  split.
  { intros H. apply list_elem_of_In in H.
    pose proof (elem_of_sublist _ _ _ H Hsub) as H'. unfold flag_order in H'.
    repeat (apply elem_of_cons in H'; destruct H' as [H'|H'];
            [discriminate H'|]).
    apply elem_of_nil in H'. exact H'. }
  split; [exact Himp|]. split; [exact Hex|]. split.
  { intros H. apply Hs in H. destruct H as (_ & H). split; [exact H|].
    pose proof (countTokenCreates_le transactions). lia. }
  split.
  { intros H. apply Hd in H. destruct H as (_ & H).
    destruct (dump_thresholds transactions w) as (Hi & _ & Hl).
    cbv zeta in *. apply Hi in H. lia. }
  destruct (classifyRisk _); lia.
Qed.

(** X11: what the risk level of a forensics result means.  CRITICAL exactly
    for mixer funding; HIGH exactly for a dump with more than 70 percent
    sells; LOW exactly when WALLET_VERIFIED was emitted.  A LOW result
    adjusts the score by +3 to +13, a MEDIUM one by -15 to +5, a HIGH one by
    -20 to -7, a CRITICAL one by -100. *)
Theorem risk_level_meaning
    (address fundedBy : string) (balances : Balances.t)
    (transactions : list Tx.t) (w : World) :
  exists (r : WalletForensicsResult) (w' : World),
    analyzeWallet address (Some balances) (Some transactions) fundedBy w
    = (Some r, w')
    /\ (WalletForensicsResult.riskLevel r = CRITICAL
        <-> (fundedBy ∈ KNOWN_MIXERS))
    /\ (WalletForensicsResult.riskLevel r = HIGH
        <-> (fundedBy ∉ KNOWN_MIXERS) /\ dumping transactions w = true
            /\ (7 * length (recentTxns transactions w)
                < 10 * length (recentSells transactions w))%nat)
    /\ (WalletForensicsResult.riskLevel r = LOW
        <-> In WALLET_VERIFIED (flags_of r))
    /\ match WalletForensicsResult.riskLevel r with
       | LOW => 3 <= WalletForensicsResult.scoreAdjustment r <= 13
       | MEDIUM => -15 <= WalletForensicsResult.scoreAdjustment r <= 5
       | HIGH => -20 <= WalletForensicsResult.scoreAdjustment r <= -7
       | CRITICAL => WalletForensicsResult.scoreAdjustment r = -100
       end.
Proof.
  do 2 eexists. split; [apply analyzeWallet_run|].
  cbv zeta. unfold flags_of.
  cbn [WalletForensicsResult.riskLevel WalletForensicsResult.scoreAdjustment
       WalletForensicsResult.flags].
  destruct (generateFlags_census address fundedBy
              (Balances.nativeBalance balances) (Balances.tokenCount balances)
              transactions w)
    as (_ & _ & _ & _ & _ & _ & Hc & Hh & Hl & Hr).
  cbv zeta in *.
  destruct (dump_thresholds transactions w) as (_ & H70 & _).
  cbv zeta in H70.
  split; [exact Hc|]. split; [|split; [exact Hl|exact Hr]].
  rewrite Hh. unfold dumping. rewrite H70. reflexivity.
Qed.

(** X12: a wallet that is not mixer-funded and has fewer than 3 sampled
    transactions is always LOW risk, ends with WALLET_VERIFIED and raises
    the score. *)
Theorem short_history_is_low_risk
    (address fundedBy : string) (balances : Balances.t)
    (transactions : list Tx.t) (w : World)
    (Hmixer : fundedBy ∉ KNOWN_MIXERS)
    (Hshort : (length transactions < 3)%nat) :
  exists (r : WalletForensicsResult) (w' : World),
    analyzeWallet address (Some balances) (Some transactions) fundedBy w
    = (Some r, w')
    /\ WalletForensicsResult.riskLevel r = LOW
    /\ last (flags_of r) = Some WALLET_VERIFIED
    /\ 3 <= WalletForensicsResult.scoreAdjustment r <= 13.
Proof.
  do 2 eexists. split; [apply analyzeWallet_run|].
  cbv zeta. unfold flags_of.
  cbn [WalletForensicsResult.riskLevel WalletForensicsResult.scoreAdjustment
       WalletForensicsResult.flags].
  assert (Hc : (countTokenCreates transactions <= 5)%nat)
    by (pose proof (countTokenCreates_le transactions); lia).
  assert (Hd : dumping transactions w = false).
  { unfold dumping.
    destruct (DumpPattern.isDumping (fst (analyzeDumpPattern transactions w)))
      eqn:E; [|reflexivity].
    destruct (dump_thresholds transactions w) as (Hi & _ & Hl).
    cbv zeta in *. apply Hi in E. lia. }
  rewrite (generateFlags_calm _ _ _ _ _ _ Hmixer Hc Hd).
  destruct (bool_decide (fundedBy ∈ KNOWN_INSTITUTIONAL)
            || bool_decide (address ∈ KNOWN_INSTITUTIONAL));
    destruct ((Balances.nativeBalance balances >? 1)%js
              && (0 <? Balances.tokenCount balances)%nat);
    cbn; repeat split; lia.
Qed.

Lemma risk_level_bounds_helper
    (address fundedBy : string) (balances : Balances.t)
    (transactions : list Tx.t) (w : World) :
  exists (r : WalletForensicsResult) (w' : World),
    analyzeWallet address (Some balances) (Some transactions) fundedBy w
    = (Some r, w')
    /\ (has_mixer_reject (WalletForensicsResult.flags r) = true
        <-> WalletForensicsResult.riskLevel r = CRITICAL)
    /\ match WalletForensicsResult.riskLevel r with
       | LOW => 3 <= WalletForensicsResult.scoreAdjustment r <= 13
       | MEDIUM => -15 <= WalletForensicsResult.scoreAdjustment r <= 5
       | HIGH => -20 <= WalletForensicsResult.scoreAdjustment r <= -7
       | CRITICAL => WalletForensicsResult.scoreAdjustment r = -100
       end.
Proof.
  do 2 eexists. split; [apply analyzeWallet_run|].
  cbv zeta.
  cbn [WalletForensicsResult.riskLevel WalletForensicsResult.scoreAdjustment
       WalletForensicsResult.flags].
  destruct (generateFlags_census address fundedBy
              (Balances.nativeBalance balances) (Balances.tokenCount balances)
              transactions w)
    as (_ & _ & _ & _ & _ & _ & _ & _ & _ & Hr).
  cbv zeta in *. split; [|exact Hr].
  unfold classifyRisk.
  destruct (has_mixer_reject _); [split; reflexivity|].
  split; [discriminate|].
  repeat match goal with |- context [if ?c then _ else _] => destruct c end;
    discriminate.
Qed.

(** X13: merging a forensics result into the score of a pair.  A LOW-risk
    result never lowers the total, a HIGH or CRITICAL one always lowers it
    (CRITICAL to 0), and no result raises it by more than 13. *)
Theorem wallet_adjustment_direction
    (pair : DexPair) (address fundedBy : string) (balances : Balances.t)
    (transactions : list Tx.t) (w0 w1 w2 : World) :
  let base := fst (scoreToken pair w0) in
  exists (r : WalletForensicsResult) (w' : World),
    analyzeWallet address (Some balances) (Some transactions) fundedBy w1
    = (Some r, w')
    /\ let adjusted := fst (applyWalletAdjustment base r w2) in
       (WalletForensicsResult.riskLevel r = LOW ->
        TokenScore.totalScore base <= TokenScore.totalScore adjusted)
       /\ (WalletForensicsResult.riskLevel r = HIGH ->
           TokenScore.totalScore adjusted < TokenScore.totalScore base)
       /\ (WalletForensicsResult.riskLevel r = CRITICAL ->
           TokenScore.totalScore adjusted = 0
           /\ TokenScore.totalScore adjusted < TokenScore.totalScore base)
       /\ TokenScore.totalScore adjusted <= TokenScore.totalScore base + 13.
Proof.
  cbv zeta.
  destruct (risk_level_bounds_helper address fundedBy balances transactions w1)
    as (r & w' & Hr & Hcrit & Hrange).
  exists r, w'. split; [exact Hr|].
  pose proof (scoreToken_total_positive pair w0) as Hbase.
  rewrite applyWalletAdjustment_run; cbv zeta. cbn [fst].
  destruct (has_mixer_reject (WalletForensicsResult.flags r)) eqn:Hmix;
    cbn [TokenScore.totalScore TokenScore.set_recommendation
         TokenScore.set_action TokenScore.set_totalScore].
  - destruct Hcrit as (Hcrit & _). rewrite (Hcrit eq_refl) in *.
    repeat split; intros; try discriminate; lia.
  - destruct Hcrit as (_ & Hcrit).
    destruct (WalletForensicsResult.riskLevel r) eqn:Hl;
      unfold Js.clamp100;
      repeat split; intros; try discriminate; try lia.
    all: specialize (Hcrit eq_refl); discriminate Hcrit.
Qed.

(** ** Age and presence *)

Lemma floor_nonneg (x : Q) : 0 <= Qfloor x <-> (0 <= x)%Q.
Proof.
  split; intros H.
  - apply Qle_trans with (inject_Z (Qfloor x)); [|apply Qfloor_le].
    change 0%Q with (inject_Z 0). rewrite <- Zle_Qle. exact H.
  - change 0 with (Qfloor 0). apply Qfloor_resp_le. exact H.
Qed.

(** X14: a creation instant of 0 counts as missing (age -1); otherwise the
    age is non-negative exactly when the pair was created no later than the
    clock reads, and a pair created in the future is scored like one of
    unknown age (2, "Unknown"). *)
Theorem age_of_odd_creation_instants
    (pair : DexPair) (w : World) (created : Q)
    (Hcreated : DexPair.pairCreatedAt pair = Some created) :
  let now := inject_Z (clock w (reads w)) in
  ((created == 0)%Q -> ageDays pair w = -1)
  /\ (~ (created == 0)%Q ->
      (0 <= ageDays pair w <-> (created <= now)%Q)
      /\ ((now < created)%Q ->
          ScoreBreakdown.score (fst (scoreAge pair w)) = 2
          /\ ScoreBreakdown.value (fst (scoreAge pair w)) = "Unknown")).
Proof.
  cbv zeta. rewrite ageDays_clock, Hcreated. split.
  - intros Z. apply Qeq_bool_iff in Z. rewrite Z. reflexivity.
  - intros NZ.
    destruct (Qeq_bool created 0) eqn:E; [apply Qeq_bool_iff in E; tauto|].
    assert (Hiff : 0 <= Qfloor ((inject_Z (clock w (reads w)) - created)
                                / inject_Z (1000 * 60 * 60 * 24))
                   <-> (created <= inject_Z (clock w (reads w)))%Q).
    { rewrite floor_nonneg. split; intros H.
      - assert (H' : (0 * inject_Z (1000 * 60 * 60 * 24)
                      <= inject_Z (clock w (reads w)) - created)%Q).
        { destruct (Qlt_le_dec
                      (inject_Z (clock w (reads w)) - created)
                      (0 * inject_Z (1000 * 60 * 60 * 24))) as [L|L];
            [|exact L].
          exfalso. apply Qlt_shift_div_r in L; [|reflexivity].
          exact (Qlt_not_le _ _ L H). }
        lra.
      - apply Qle_shift_div_l; [reflexivity|]. lra. }
    split; [exact Hiff|].
    intros Hfuture.
    rewrite scoreAge_run; cbv zeta.
    cbn [fst ScoreBreakdown.score ScoreBreakdown.value].
    rewrite ageDays_clock, Hcreated, E.
    set (days := Qfloor _) in *.
    assert (Hneg : days < 0).
    { destruct (Z.lt_ge_cases days 0) as [L|L]; [exact L|].
      apply Hiff in L. exfalso. exact (Qlt_not_le _ _ Hfuture L). }
    by_tier; try lia. split; reflexivity.
Qed.

(** X15: the platform count of the social factor is the number of websites
    plus the number of social links; the team factor is at its bottom tier
    exactly when the social factor is, and a top team score comes with a
    social score of at least 10. *)
Theorem social_and_team_agree (pair : DexPair) :
  countSocials pair = (websiteCount pair + socialCount pair)%nat
  /\ (ScoreBreakdown.score (scoreTeam pair) = 2
      <-> ScoreBreakdown.score (scoreSocial pair) = 2)
  /\ (ScoreBreakdown.score (scoreTeam pair) = 10 ->
      10 <= ScoreBreakdown.score (scoreSocial pair)).
Proof.
  assert (E : countSocials pair = (websiteCount pair + socialCount pair)%nat).
  { unfold countSocials, websiteCount, socialCount, opt_length, truthy_length.
    destruct (info_websites pair) as [[|? ws]|];
      destruct (info_socials pair) as [[|? ss]|]; cbn; lia. }
  split; [exact E|].
  unfold scoreSocial, scoreTeam; cbv zeta. rewrite E.
  fold (websiteCount pair). fold (socialCount pair).
  generalize (websiteCount pair) (socialCount pair). intros nw ns.
  by_tier; cbn [ScoreBreakdown.score andb orb]; repeat split; intros;
    try reflexivity; try discriminate; lia.
Qed.

(** ** Discovery *)

Lemma filter_sublist {A : Type} (f : A -> bool) (xs : list A) :
  sublist (List.filter f xs) xs.
Proof.
  induction xs as [|x xs IH]; cbn; [apply sublist_nil|].
  destruct (f x); [apply sublist_skip|apply sublist_cons]; exact IH.
Qed.

Lemma dedupe_fold (pairs : list DexPair) :
  forall (seen : gset string) (unique : list DexPair),
    (forall a : string, a ∈ seen <-> a ∈ map DexPair.pairAddress unique) ->
    NoDup (map DexPair.pairAddress unique) ->
    exists added : list DexPair,
      snd (fold_left
             (fun (state : gset string * list DexPair) pair =>
                let '(seen, unique) := state in
                if negb (bool_decide (DexPair.pairAddress pair ∈ seen))
                then ({[ DexPair.pairAddress pair ]} ∪ seen,
                      (unique ++ [pair])%list)
                else (seen, unique))
             pairs (seen, unique))
      = (unique ++ added)%list
      /\ sublist added pairs
      /\ NoDup (map DexPair.pairAddress (unique ++ added))
      /\ (forall p, p ∈ added -> DexPair.pairAddress p ∉ seen)
      /\ (forall p, p ∈ added -> first_with_address p pairs = Some p)
      /\ (forall p, p ∈ pairs ->
                    DexPair.pairAddress p ∈ seen
                    \/ DexPair.pairAddress p ∈ map DexPair.pairAddress added).
Proof.
  induction pairs as [|x rest IH]; intros seen unique Hseen Hnd.
  - exists []. cbn. rewrite app_nil_r.
    repeat split; [apply sublist_nil|exact Hnd| | |]; intros p Hp;
      apply elem_of_nil in Hp; destruct Hp.
  - cbn [fold_left].
    destruct (decide (DexPair.pairAddress x ∈ seen)) as [Hin|Hout].
    + rewrite (bool_decide_eq_true_2 _ Hin). cbn [negb].
      destruct (IH seen unique Hseen Hnd)
        as (added & E & Hs & Hn & Hf & Hh & Hc).
      exists added. split; [exact E|]. split; [apply sublist_cons; exact Hs|].
      split; [exact Hn|]. split; [exact Hf|]. split.
      * intros p Hp. unfold first_with_address. cbn [List.filter].
        destruct (String.eqb_spec (DexPair.pairAddress x)
                    (DexPair.pairAddress p)) as [Heq|Hne].
        -- exfalso. apply (Hf p Hp). rewrite <- Heq. exact Hin.
        -- apply Hh. exact Hp.
      * intros p Hp. apply elem_of_cons in Hp. destruct Hp as [->|Hp];
          [left; exact Hin|apply Hc; exact Hp].
    + rewrite (bool_decide_eq_false_2 _ Hout). cbn [negb].
      destruct (IH ({[ DexPair.pairAddress x ]} ∪ seen) (unique ++ [x])%list)
        as (added & E & Hs & Hn & Hf & Hh & Hc).
      { intros a. rewrite map_app. cbn [map].
        rewrite elem_of_union, elem_of_singleton, elem_of_app,
          list_elem_of_singleton, Hseen. tauto. }
      { rewrite map_app. cbn [map]. apply NoDup_app. split; [exact Hnd|].
        split; [|apply NoDup_singleton].
        intros a Ha Hx. apply list_elem_of_singleton in Hx. subst a.
        apply Hout. apply Hseen. exact Ha. }
      exists (x :: added). rewrite E, <- app_assoc. cbn [app].
      split; [reflexivity|]. split; [apply sublist_skip; exact Hs|].
      split; [rewrite <- app_assoc in Hn; exact Hn|]. split; [|split].
      * intros p Hp. apply elem_of_cons in Hp. destruct Hp as [->|Hp];
          [exact Hout|].
        intros Hs'. apply (Hf p Hp). apply elem_of_union. right. exact Hs'.
      * intros p Hp. unfold first_with_address. cbn [List.filter].
        apply elem_of_cons in Hp. destruct Hp as [->|Hp].
        -- rewrite String.eqb_refl. reflexivity.
        -- destruct (String.eqb_spec (DexPair.pairAddress x)
                       (DexPair.pairAddress p)) as [Heq|Hne].
           ++ exfalso. apply (Hf p Hp). apply elem_of_union. left.
              apply elem_of_singleton. symmetry. exact Heq.
           ++ apply Hh. exact Hp.
      * intros p Hp. cbn [map]. apply elem_of_cons in Hp.
        destruct Hp as [->|Hp]; [right; apply elem_of_cons; left; reflexivity|].
        destruct (Hc p Hp) as [Hu|Ha]; [|right; apply elem_of_cons; right;
                                         exact Ha].
        apply elem_of_union in Hu. destruct Hu as [Hu|Hu]; [|left; exact Hu].
        apply elem_of_singleton in Hu. right. apply elem_of_cons. left.
        exact Hu.
Qed.

Lemma dedupe_pairs_spec (allPairs : list DexPair) :
  let unique := snd (dedupe_pairs allPairs) in
  sublist unique allPairs
  /\ NoDup (map DexPair.pairAddress unique)
  /\ (forall p, p ∈ unique -> first_with_address p allPairs = Some p)
  /\ (forall p, p ∈ allPairs ->
                DexPair.pairAddress p ∈ map DexPair.pairAddress unique).
Proof.
  cbv zeta. unfold dedupe_pairs.
  destruct (dedupe_fold allPairs ∅ []) as (added & E & Hs & Hn & _ & Hh & Hc).
  - intros a. cbn. rewrite elem_of_nil. split; [|tauto].
    intros H. apply not_elem_of_empty in H. exact H.
  - constructor.
  - rewrite E. cbn [app] in *. repeat split; try assumption.
    intros p Hp. destruct (Hc p Hp) as [H|H]; [|exact H].
    apply not_elem_of_empty in H. destruct H.
Qed.

Lemma collect_first_pairs_spec
    (lookup : nat -> string -> string -> Response (option (list DexPair)))
    (requests : list (string * string)) :
  forall (i : nat) (pairs : list DexPair),
    exists added : list DexPair,
      collect_first_pairs lookup i requests pairs = (pairs ++ added)%list
      /\ (length added <= length requests)%nat
      /\ Forall (fun p => exists j chain address rest,
                            In (chain, address) requests
                            /\ lookup j chain address = Json (Some (p :: rest)))
                added.
Proof.
  induction requests as [|[chain address] rest IH]; intros i pairs.
  - exists []. cbn. rewrite app_nil_r. repeat split; [lia|constructor].
  - cbn [collect_first_pairs].
    assert (Hweak : forall added : list DexPair,
               Forall (fun p => exists j chain address rest0,
                                  In (chain, address) rest
                                  /\ lookup j chain address
                                     = Json (Some (p :: rest0))) added ->
               Forall (fun p => exists j chain0 address0 rest0,
                                  In (chain0, address0)
                                     ((chain, address) :: rest)
                                  /\ lookup j chain0 address0
                                     = Json (Some (p :: rest0))) added).
    { intros added H. eapply Forall_impl; [exact H|].
      intros p (j & c & a & r & Hin & Hl). exists j, c, a, r.
      split; [right; exact Hin|exact Hl]. }
    destruct (lookup i chain address) as [| |[[|first others]|]] eqn:El;
      unfold getTokenPairs, pairs_or_throw; cbn.
    1-3, 5: destruct (IH (S i) pairs) as (added & E & Hl & Hf);
      exists added; split; [exact E|]; split; [cbn; lia|];
      apply Hweak; exact Hf.
    destruct (IH (S i) (pairs ++ [first])%list) as (added & E & Hl & Hf).
    exists (first :: added). rewrite E, <- app_assoc. cbn [app].
    split; [reflexivity|]. split; [cbn; lia|].
    constructor; [|apply Hweak; exact Hf].
    exists i, chain, address, others. split; [left; reflexivity|exact El].
Qed.

Lemma unique_profiles_fold (profiles : list Profile.t) :
  forall (seen : gset string) (unique : list (string * string)),
    (length unique <= 10)%nat ->
    (forall k : string,
        k ∈ seen <-> k ∈ map (fun r => fst r ++ ":" ++ snd r) unique) ->
    NoDup (map (fun r => fst r ++ ":" ++ snd r) unique) ->
    let unique' :=
      snd (fold_left
             (fun (state : gset string * list (string * string)) p =>
                let '(seen, unique) := state in
                let key := Profile.chainId p ++ ":" ++ Profile.tokenAddress p in
                if negb (bool_decide (key ∈ seen)) && (length unique <? 10)%nat
                then ({[ key ]} ∪ seen,
                      (unique ++ [(Profile.chainId p, Profile.tokenAddress p)])%list)
                else (seen, unique))
             profiles (seen, unique)) in
    (length unique' <= 10)%nat
    /\ NoDup (map (fun r => fst r ++ ":" ++ snd r) unique').
Proof.
  induction profiles as [|p rest IH]; intros seen unique Hlen Hseen Hnd.
  - cbn. split; assumption.
  - cbn [fold_left].
    destruct (decide (Profile.chainId p ++ ":" ++ Profile.tokenAddress p ∈ seen))
      as [Hin|Hout].
    + rewrite (bool_decide_eq_true_2 _ Hin). cbn [negb andb].
      apply IH; assumption.
    + rewrite (bool_decide_eq_false_2 _ Hout). cbn [negb andb].
      destruct (Nat.ltb_spec (length unique) 10) as [Hlt|Hge];
        [|apply IH; assumption].
      apply IH.
      * rewrite length_app. cbn. lia.
      * intros k. rewrite map_app. cbn [map fst snd].
        rewrite elem_of_union, elem_of_singleton, elem_of_app,
          list_elem_of_singleton, Hseen. tauto.
      * rewrite map_app. cbn [map fst snd]. apply NoDup_app.
        split; [exact Hnd|]. split; [|apply NoDup_singleton].
        intros k Hk Hx. apply list_elem_of_singleton in Hx. subst k.
        apply Hout. apply Hseen. exact Hk.
Qed.

Lemma discovery_feeds_lengths
    (profiles : Response (list Profile.t)) (boosts : Response (list Boost.t))
    (lookupTrending lookupBoosted :
       nat -> string -> string -> Response (option (list DexPair))) :
  (length (default [] (getTrendingTokens profiles lookupTrending)) <= 10)%nat
  /\ (length (default [] (getBoostedTokens boosts lookupBoosted)) <= 10)%nat.
Proof.
  split.
  - destruct profiles as [| |body]; cbn; try lia.
    destruct (collect_first_pairs_spec lookupTrending
                (snd (unique_profiles body)) 0 []) as (added & -> & Hl & _).
    cbn [app].
    assert (length (snd (unique_profiles body)) <= 10)%nat; [|lia].
    unfold unique_profiles. apply (unique_profiles_fold body ∅ []).
    + cbn. lia.
    + intros k. cbn. rewrite elem_of_nil. split; [|tauto].
      intros H. apply not_elem_of_empty in H. exact H.
    + constructor.
  - destruct boosts as [| |body]; cbn; try lia.
    destruct (collect_first_pairs_spec lookupBoosted
                (map (fun b => (Boost.chainId b, Boost.tokenAddress b))
                     (firstn 10 body)) 0 []) as (added & -> & Hl & _).
    cbn [app]. rewrite length_map, length_firstn in Hl. lia.
Qed.

Lemma collect_first_pairs_answers
    (lookup : nat -> string -> string -> Response (option (list DexPair)))
    (requests : list (string * string)) :
  forall (i : nat) (pairs : list DexPair),
    exists added : list DexPair,
      collect_first_pairs lookup i requests pairs = (pairs ++ added)%list
      /\ forall p : DexPair,
           p ∈ added
           <-> exists j chain address rest,
                 requests !! j = Some (chain, address)
                 /\ lookup (i + j)%nat chain address = Json (Some (p :: rest)).
Proof.
  induction requests as [|[chain address] more IH]; intros i pairs.
  - exists []. cbn [collect_first_pairs]. rewrite app_nil_r.
    split; [reflexivity|]. intros p. split.
    + intros H. apply elem_of_nil in H. destruct H.
    + intros (j & c & a & r & H & _). destruct j; discriminate H.
  - cbn [collect_first_pairs].
    destruct (lookup i chain address) as [| |[[|first others]|]] eqn:El;
      unfold getTokenPairs, pairs_or_throw; cbn [from_option id].
    1-3, 5: destruct (IH (S i) pairs) as (added & E & Hadded);
      exists added; (split; [exact E|]); intros p; rewrite Hadded; split;
      [ intros (j & c & a & r & H1 & H2); exists (S j), c, a, r;
        split; [exact H1|rewrite Nat.add_succ_r; exact H2]
      | intros ([|j] & c & a & r & H1 & H2);
        [ injection H1 as <- <-; rewrite Nat.add_0_r, El in H2; discriminate H2
        | exists j, c, a, r; split;
          [exact H1|rewrite Nat.add_succ_r in H2; exact H2] ] ].
    destruct (IH (S i) (pairs ++ [first])%list) as (added & E & Hadded).
    exists (first :: added). rewrite E, <- app_assoc. cbn [app].
    split; [reflexivity|]. intros p. rewrite elem_of_cons, Hadded. split.
    + intros [->|(j & c & a & r & H1 & H2)].
      * exists 0%nat, chain, address, others.
        split; [reflexivity|rewrite Nat.add_0_r; exact El].
      * exists (S j), c, a, r.
        split; [exact H1|rewrite Nat.add_succ_r; exact H2].
    + intros ([|j] & c & a & r & H1 & H2).
      * injection H1 as <- <-. rewrite Nat.add_0_r, El in H2.
        injection H2 as -> _. left. reflexivity.
      * right. exists j, c, a, r.
        split; [exact H1|rewrite Nat.add_succ_r in H2; exact H2].
Qed.

Lemma unique_profiles_from (profiles : list Profile.t) :
  forall (seen : gset string) (unique : list (string * string)),
    let unique' :=
      snd (fold_left
             (fun (state : gset string * list (string * string)) p =>
                let '(seen, unique) := state in
                let key := Profile.chainId p ++ ":" ++ Profile.tokenAddress p in
                if negb (bool_decide (key ∈ seen)) && (length unique <? 10)%nat
                then ({[ key ]} ∪ seen,
                      (unique ++ [(Profile.chainId p, Profile.tokenAddress p)])%list)
                else (seen, unique))
             profiles (seen, unique)) in
    forall r : string * string,
      r ∈ unique' ->
      r ∈ unique
      \/ exists p, p ∈ profiles
                   /\ r = (Profile.chainId p, Profile.tokenAddress p).
Proof.
  induction profiles as [|p rest IH]; intros seen unique; cbv zeta.
  - cbn. intros r H. left. exact H.
  - cbn [fold_left]. intros r H.
    destruct (negb (bool_decide
                      (Profile.chainId p ++ ":" ++ Profile.tokenAddress p ∈ seen))
              && (length unique <? 10)%nat).
    + apply IH in H. destruct H as [H|(q & Hq & E)].
      * apply elem_of_app in H. destruct H as [H|H]; [left; exact H|].
        apply list_elem_of_singleton in H. right. exists p.
        split; [apply elem_of_cons; left; reflexivity|exact H].
      * right. exists q. split; [apply elem_of_cons; right; exact Hq|exact E].
    + apply IH in H. destruct H as [H|(q & Hq & E)]; [left; exact H|].
      right. exists q. split; [apply elem_of_cons; right; exact Hq|exact E].
Qed.

(** X16: the two discovery feeds.  Each returns at most 10 pairs, and a
    pair is returned exactly when it is the first pair of the answer to one
    of the feed's own lookups: one per distinct profile (at most 10, each
    taken from the profile list) for the trending feed, one per boost among
    the first 10 for the boosted feed.  The trending feed throws whenever
    its profile request fails; the boosted feed throws only when the
    request itself throws, and returns an empty list on a bad status. *)
Theorem discovery_feeds
    (profiles : Response (list Profile.t)) (boosts : Response (list Boost.t))
    (lookup : nat -> string -> string -> Response (option (list DexPair))) :
  (getTrendingTokens profiles lookup = None
   <-> profiles = Threw \/ profiles = NotOk)
  /\ (forall body, profiles = Json body ->
        (length (trending_requests body) <= 10)%nat
        /\ NoDup (map (fun r => fst r ++ ":" ++ snd r) (trending_requests body))
        /\ (forall r, r ∈ trending_requests body ->
              exists p, p ∈ body
                        /\ r = (Profile.chainId p, Profile.tokenAddress p))
        /\ exists pairs,
             getTrendingTokens profiles lookup = Some pairs
             /\ (length pairs <= 10)%nat
             /\ forall p, p ∈ pairs
                          <-> answered_by lookup (trending_requests body) p)
  /\ (getBoostedTokens boosts lookup = None <-> boosts = Threw)
  /\ (boosts = NotOk -> getBoostedTokens boosts lookup = Some [])
  /\ (forall body, boosts = Json body ->
        exists pairs,
          getBoostedTokens boosts lookup = Some pairs
          /\ (length pairs <= 10)%nat
          /\ forall p, p ∈ pairs
                       <-> answered_by lookup (boosted_requests body) p).
Proof.
  assert (Huniq : forall body : list Profile.t,
             (length (trending_requests body) <= 10)%nat
             /\ NoDup (map (fun r => fst r ++ ":" ++ snd r)
                           (trending_requests body))).
  { intros body. unfold trending_requests, unique_profiles.
    apply (unique_profiles_fold body ∅ []).
    - cbn. lia.
    - intros k. cbn. rewrite elem_of_nil. split; [|tauto].
      intros H. apply not_elem_of_empty in H. exact H.
    - constructor. }
  assert (Hfeed : forall requests : list (string * string),
             exists pairs,
               collect_first_pairs lookup 0 requests [] = pairs
               /\ (length pairs <= length requests)%nat
               /\ forall p, p ∈ pairs <-> answered_by lookup requests p).
  { intros requests.
    destruct (collect_first_pairs_answers lookup requests 0 [])
      as (added & E & Hadded).
    destruct (collect_first_pairs_spec lookup requests 0 [])
      as (added' & E' & Hlen & _).
    assert (added' = added) as -> by (rewrite E in E'; exact (eq_sym E')).
    exists added. split; [exact E|]. split; [exact Hlen|].
    intros p. rewrite Hadded. reflexivity. }
  split; [|split; [|split; [|split]]].
  - destruct profiles; cbn; split; intros H; try discriminate H; auto.
    destruct H as [H|H]; discriminate H.
  - intros body ->. destruct (Huniq body) as (Hlen & Hnd).
    split; [exact Hlen|]. split; [exact Hnd|]. split.
    { intros r Hr. unfold trending_requests, unique_profiles in Hr.
      apply (unique_profiles_from body ∅ []) in Hr.
      destruct Hr as [Hr|Hr]; [apply elem_of_nil in Hr; destruct Hr|exact Hr]. }
    destruct (Hfeed (trending_requests body)) as (pairs & E & Hl & Hp).
    exists pairs. split; [cbn; f_equal; exact E|].
    split; [lia|exact Hp].
  - destruct boosts; cbn; split; intros H; try discriminate H; reflexivity.
  - intros ->. reflexivity.
  - intros body ->.
    destruct (Hfeed (boosted_requests body)) as (pairs & E & Hl & Hp).
    exists pairs. split; [cbn; f_equal; exact E|].
    split; [|exact Hp].
    unfold boosted_requests in Hl. rewrite length_map, length_firstn in Hl. lia.
Qed.

Lemma gathered_length
    (profiles : Response (list Profile.t)) (boosts : Response (list Boost.t))
    (lookupTrending lookupBoosted :
       nat -> string -> string -> Response (option (list DexPair))) :
  (length (gathered profiles boosts lookupTrending lookupBoosted) <= 20)%nat.
Proof.
  unfold gathered. rewrite length_app.
  destruct (discovery_feeds_lengths profiles boosts lookupTrending lookupBoosted)
    as (Ht & Hb).
  lia.
Qed.

Lemma meets_minimums_true
    (minLiq minVol minMcap : Q) (chains : option (list string)) (p : DexPair) :
  meets_minimums minLiq minVol minMcap chains p = true
  <-> (minLiq <= liquidityUsd p)%Q
      /\ (minVol <= volume24h p)%Q
      /\ (minMcap <= effectiveMarketCap p)%Q
      /\ (forall allowed, chains = Some allowed -> In (DexPair.chainId p) allowed).
Proof.
  unfold meets_minimums, liquidityUsd, volume24h, effectiveMarketCap.
  cbv zeta. rewrite !andb_true_iff, !geb_true.
  assert (Hc : match chains with
               | Some allowed => JsArray.includes allowed (DexPair.chainId p)
               | None => true
               end = true
               <-> forall allowed, chains = Some allowed ->
                                   In (DexPair.chainId p) allowed).
  { destruct chains as [allowed|].
    - unfold JsArray.includes. rewrite existsb_exists. split.
      + intros (x & Hx & E) allowed' [= <-].
        apply String.eqb_eq in E. subst x. exact Hx.
      + intros H. exists (DexPair.chainId p).
        split; [apply H; reflexivity|apply String.eqb_refl].
    - split; [intros _ allowed H; discriminate H|reflexivity]. }
  rewrite Hc. tauto.
Qed.

(** X17: what a scan returns.  The pairs are taken, in order, from what the
    two feeds gathered; no two of them share a pair address; there are at
    most 20; each meets the three minimums (100000, 50000 and 500000 unless
    the options say otherwise) and is on one of the requested chains; and
    each is the first gathered pair with its address. *)
Theorem scanHighPotential_result
    (options : option ScanOptions.t)
    (profiles : Response (list Profile.t)) (boosts : Response (list Boost.t))
    (lookupTrending lookupBoosted :
       nat -> string -> string -> Response (option (list DexPair))) :
  let result :=
    scanHighPotential options profiles boosts lookupTrending lookupBoosted in
  let all := gathered profiles boosts lookupTrending lookupBoosted in
  let '(minLiq, minVol, minMcap) := scan_minimums options in
  sublist result all
  /\ NoDup (map DexPair.pairAddress result)
  /\ (length result <= 20)%nat
  /\ Forall (fun p =>
               (minLiq <= liquidityUsd p)%Q
               /\ (minVol <= volume24h p)%Q
               /\ (minMcap <= effectiveMarketCap p)%Q
               /\ (forall allowed,
                      options ≫= ScanOptions.chains = Some allowed ->
                      In (DexPair.chainId p) allowed))
            result
  /\ (forall p, p ∈ result -> first_with_address p all = Some p).
Proof.
  cbv zeta. unfold scan_minimums, scanHighPotential; cbv zeta.
  fold (gathered profiles boosts lookupTrending lookupBoosted).
  set (all := gathered profiles boosts lookupTrending lookupBoosted).
  destruct (dedupe_pairs_spec all) as (Hsub & Hnd & Hfirst & _).
  cbv zeta in *.
  set (keep := meets_minimums _ _ _ _).
  pose proof (filter_sublist keep (snd (dedupe_pairs all))) as Hf.
  assert (Hall : sublist (List.filter keep (snd (dedupe_pairs all))) all)
    by (etransitivity; eassumption).
  split; [exact Hall|]. split.
  { eapply sublist_NoDup; [exact Hnd|]. apply sublist_map. exact Hf. }
  split.
  { pose proof (sublist_length _ _ Hall) as Hl.
    pose proof (gathered_length profiles boosts lookupTrending lookupBoosted).
    fold all in H. lia. }
  split.
  - apply Forall_forall. intros p Hp. apply list_elem_of_In in Hp.
    apply filter_In in Hp. destruct Hp as (_ & Hk).
    apply meets_minimums_true in Hk. exact Hk.
  - intros p Hp. apply Hfirst. exact (elem_of_sublist _ _ _ Hp Hf).
Qed.

(** X18: a scan over an empty chain list returns nothing, and so does a scan
    whose two feeds both fail; otherwise a gathered pair that meets the
    minimums is returned whenever it is the first gathered pair with its
    address (a later duplicate is never considered). *)
Theorem scanHighPotential_edges
    (options : option ScanOptions.t)
    (profiles : Response (list Profile.t)) (boosts : Response (list Boost.t))
    (lookupTrending lookupBoosted :
       nat -> string -> string -> Response (option (list DexPair))) :
  let result :=
    scanHighPotential options profiles boosts lookupTrending lookupBoosted in
  let all := gathered profiles boosts lookupTrending lookupBoosted in
  let '(minLiq, minVol, minMcap) := scan_minimums options in
  (options ≫= ScanOptions.chains = Some [] -> result = [])
  /\ ((forall body, profiles <> Json body) ->
      (forall body, boosts <> Json body) -> result = [])
  /\ (forall p, p ∈ all ->
        first_with_address p all = Some p ->
        (minLiq <= liquidityUsd p)%Q ->
        (minVol <= volume24h p)%Q ->
        (minMcap <= effectiveMarketCap p)%Q ->
        (forall allowed, options ≫= ScanOptions.chains = Some allowed ->
                         In (DexPair.chainId p) allowed) ->
        p ∈ result).
Proof.
  cbv zeta. unfold scan_minimums, scanHighPotential; cbv zeta.
  fold (gathered profiles boosts lookupTrending lookupBoosted).
  set (all := gathered profiles boosts lookupTrending lookupBoosted).
  split; [|split].
  - intros Hc. rewrite Hc.
    induction (snd (dedupe_pairs all)) as [|p rest IH]; [reflexivity|].
    cbn [List.filter]. unfold meets_minimums at 1. cbn [JsArray.includes existsb].
    rewrite !andb_false_r. exact IH.
  - intros Hp Hb. subst all. unfold gathered.
    destruct profiles as [| |body]; [| |destruct (Hp body); reflexivity];
      (destruct boosts as [| |body']; [| |destruct (Hb body'); reflexivity]);
      reflexivity.
  - intros p Hp Hfirst H1 H2 H3 H4.
    destruct (dedupe_pairs_spec all) as (_ & _ & Hf & Hcover).
    cbv zeta in *.
    apply list_elem_of_In. apply filter_In. split.
    + apply list_elem_of_In.
      pose proof (Hcover p Hp) as Hq.
      apply list_elem_of_fmap in Hq. destruct Hq as (q & Heq & Hq).
      assert (E : first_with_address q all = first_with_address p all).
      { unfold first_with_address. rewrite Heq. reflexivity. }
      rewrite (Hf q Hq), Hfirst in E. injection E as ->. exact Hq.
    + apply meets_minimums_true. repeat split; assumption.
Qed.

(** ** The remote lookups of the wallet analysis *)

Lemma string_or_other (x : option string) (fallback s : string) :
  string_or x fallback = s -> s <> fallback -> x = Some s.
Proof.
  unfold string_or. destruct x as [y|]; [|congruence].
  destruct (JsString.truthy y); congruence.
Qed.

Lemma sort_head_least {A : Type} (key : A -> Q) (xs : list A) (x : A)
    (rest : list A) :
  JsArray.sort (fun a b => (key a - key b)%Q) xs = x :: rest ->
  In x xs /\ forall y, In y xs -> (key x <= key y)%Q.
Proof.
  intros E.
  pose proof (sort_Permutation (fun a b => (key a - key b)%Q) xs) as Hp.
  assert (Hs : StronglySorted (fun a b => (key a <= key b)%Q)
                 (JsArray.sort (fun a b => (key a - key b)%Q) xs)).
  { apply sort_StronglySorted.
    - intros a b c. apply Qle_trans.
    - intros a b H. apply gtb_false in H. lra.
    - intros a b H. apply gtb_true in H. lra. }
  rewrite E in Hp, Hs. split.
  - apply list_elem_of_In. rewrite <- Hp. apply elem_of_cons. left. reflexivity.
  - intros y Hy. apply list_elem_of_In in Hy. rewrite <- Hp in Hy.
    apply elem_of_cons in Hy. destruct Hy as [->|Hy]; [apply Qle_refl|].
    apply StronglySorted_inv in Hs. destruct Hs as (_ & Hall).
    rewrite Forall_forall in Hall. apply Hall. exact Hy.
Qed.

(** X19: where a funding source comes from.  A sender other than UNKNOWN is
    the [fromUserAccount] of the first transfer addressed to the wallet
    (whatever its amount) in a transaction that pays the wallet a positive
    amount and whose instant is the least among such transactions.  A
    failed request, or a history without such a transaction, gives
    UNKNOWN. *)
Theorem funding_source_provenance
    (address : string) (resp : Response (option (list RawTx.t))) :
  let sender := findFundingSource address resp in
  (sender <> "UNKNOWN" ->
   exists txns tx transfers t,
     resp = Json (Some txns)
     /\ In tx txns
     /\ incoming_to address tx = true
     /\ (forall other, In other txns -> incoming_to address other = true ->
                       (sort_instant tx <= sort_instant other)%Q)
     /\ RawTx.nativeTransfers tx = Some transfers
     /\ List.find (fun t => String.eqb (NativeTransfer.toUserAccount t) address)
                  transfers = Some t
     /\ NativeTransfer.fromUserAccount t = Some sender)
  /\ (resp = Threw \/ resp = NotOk \/ resp = Json None -> sender = "UNKNOWN")
  /\ (forall txns, resp = Json (Some txns) ->
        Forall (fun tx => incoming_to address tx = false) txns ->
        sender = "UNKNOWN").
Proof.
  cbv zeta. split; [|split].
  - intros Hs.
    destruct resp as [| |[txns|]]; try (exfalso; apply Hs; reflexivity).
    unfold findFundingSource in *.
    change (default [] (Some txns)) with txns in *.
    change (fun a b : RawTx.t =>
              (number_or (RawTx.timestamp a) 0 - number_or (RawTx.timestamp b) 0)%Q)
      with (fun a b : RawTx.t => (sort_instant a - sort_instant b)%Q) in *.
    destruct (JsArray.sort _ (List.filter (incoming_to address) txns))
      as [|tx rest] eqn:E; [congruence|].
    apply (sort_head_least sort_instant) in E. destruct E as (Hin & Hleast).
    apply filter_In in Hin. destruct Hin as (Hin & Hinc).
    destruct (RawTx.nativeTransfers tx) as [transfers|] eqn:Et;
      [|cbn in Hs; congruence].
    destruct (List.find _ transfers) as [t|] eqn:Ef; [|cbn in Hs; congruence].
    exists txns, tx, transfers, t.
    split; [reflexivity|]. split; [exact Hin|]. split; [exact Hinc|].
    split; [|split; [exact Et|split; [exact Ef|]]].
    + intros other Ho Hi. apply Hleast. apply filter_In. split; assumption.
    + apply (string_or_other _ "UNKNOWN"); [reflexivity|exact Hs].
  - intros [->|[->| ->]]; reflexivity.
  - intros txns -> Hnone. unfold findFundingSource.
    change (default [] (Some txns)) with txns.
    assert (E : List.filter (incoming_to address) txns = []).
    { induction Hnone as [|tx txns Htx _ IH]; [reflexivity|].
      cbn. rewrite Htx. exact IH. }
    rewrite E. reflexivity.
Qed.

(** X20: failure isolation in the wallet analysis.  When the balance and the
    transaction requests succeed there is a result whatever happened to the
    funding request, which only degrades [fundedBy] to UNKNOWN; the result
    counts every transaction of the response, and reports the balance in
    SOL (lamports / 10^9).  When either of the two fails there is none. *)
Theorem wallet_lookups_fail_apart
    (address : string) (balances : Response BalancesJson.t)
    (transactions funding : Response (option (list RawTx.t))) (w : World) :
  (forall data txns,
      balances = Json data -> transactions = Json txns ->
      exists (r : WalletForensicsResult) (w' : World),
        analyzeWallet_http address balances transactions funding w
        = (Some r, w')
        /\ WalletForensicsResult.fundedBy r = findFundingSource address funding
        /\ (funding = Threw \/ funding = NotOk ->
            WalletForensicsResult.fundedBy r = "UNKNOWN")
        /\ WalletForensicsResult.recentTransactions r = length (default [] txns)
        /\ WalletForensicsResult.tokenCount r
           = default 0%nat (length <$> BalancesJson.tokens data)
        /\ (WalletForensicsResult.nativeBalance r * 1000000000
            == default 0 (BalancesJson.nativeBalance data))%Q)
  /\ ((forall data, balances <> Json data)
      \/ (forall txns, transactions <> Json txns) ->
      fst (analyzeWallet_http address balances transactions funding w) = None).
Proof.
  split.
  - intros data txns -> ->.
    unfold analyzeWallet_http, getBalances, getTransactions, bind, ret, div.
    cbn [fst snd]. do 2 eexists. split; [apply analyzeWallet_run|].
    cbv zeta.
    cbn [WalletForensicsResult.fundedBy WalletForensicsResult.recentTransactions
         WalletForensicsResult.tokenCount WalletForensicsResult.nativeBalance
         Balances.nativeBalance Balances.tokenCount].
    split; [reflexivity|]. split; [intros [->| ->]; reflexivity|].
    split; [apply length_map|]. split; [reflexivity|].
    field.
  - intros [Hb|Ht].
    + destruct balances as [| |data]; [| |destruct (Hb data); reflexivity];
        reflexivity.
    + unfold analyzeWallet_http, bind.
      destruct (getBalances balances w) as [[b|] w1];
        (destruct transactions as [| |txns];
         [| |destruct (Ht txns); reflexivity]); reflexivity.
Qed.

(** ** The pair an action scores *)

(** X21: the pair an action scores is one of the pairs found, none has more
    liquidity, and among those with the same liquidity it is the first; it
    is missing only when no pair was found. *)
Theorem bestPair_has_most_liquidity (pairs : list DexPair) :
  (bestPair pairs = None <-> pairs = [])
  /\ forall p, bestPair pairs = Some p ->
       In p pairs
       /\ (forall q, In q pairs -> (liquidityUsd q <= liquidityUsd p)%Q)
       /\ head (List.filter
                  (fun q => Qeq_bool (liquidityUsd q) (liquidityUsd p)) pairs)
          = Some p.
Proof.
  unfold bestPair.
  change (fun a b : DexPair =>
            (default 0%Q (Liquidity.usd <$> DexPair.liquidity b)
             - default 0%Q (Liquidity.usd <$> DexPair.liquidity a))%Q)
    with (fun a b : DexPair => (liquidityUsd b - liquidityUsd a)%Q).
  set (compare := fun a b : DexPair => (liquidityUsd b - liquidityUsd a)%Q).
  pose proof (sort_Permutation compare pairs) as Hp.
  split.
  - split; intros H.
    + destruct (JsArray.sort compare pairs) as [|x rest]; [|discriminate H].
      apply Permutation_nil in Hp. exact Hp.
    + subst pairs. reflexivity.
  - intros p H.
    destruct (JsArray.sort compare pairs) as [|x rest] eqn:E; [discriminate H|].
    cbn in H. injection H as ->.
    assert (Hs : StronglySorted (fun a b => (liquidityUsd b <= liquidityUsd a)%Q)
                   (JsArray.sort compare pairs)).
    { apply sort_StronglySorted.
      - intros a b c H1 H2. exact (Qle_trans _ _ _ H2 H1).
      - intros a b H. apply gtb_false in H. unfold compare in H. lra.
      - intros a b H. apply gtb_true in H. unfold compare in H. lra. }
    rewrite E in Hs. split; [|split].
    + apply list_elem_of_In. rewrite <- Hp. apply elem_of_cons. left.
      reflexivity.
    + intros q Hq. apply list_elem_of_In in Hq. rewrite <- Hp in Hq.
      apply elem_of_cons in Hq. destruct Hq as [->|Hq]; [apply Qle_refl|].
      apply StronglySorted_inv in Hs. destruct Hs as (_ & Hall).
      rewrite Forall_forall in Hall. apply Hall. exact Hq.
    + rewrite <- (sort_filter compare).
      * rewrite E. cbn [List.filter].
        assert (Qeq_bool (liquidityUsd p) (liquidityUsd p) = true) as ->
          by (apply Qeq_bool_iff; reflexivity).
        reflexivity.
      * intros a b Ha Hb. apply Qeq_bool_iff in Ha, Hb.
        apply gtb_false. unfold compare. lra.
Qed.

(** ** Finding a contract address in a message *)

Lemma take_drop (n : nat) (s : string) :
  JsString.take n s ++ JsString.drop n s = s.
Proof.
  revert s. induction n as [|n IH]; intros [|c t]; try reflexivity.
  cbn [JsString.take JsString.drop].
  change (String c (JsString.take n t ++ JsString.drop n t) = String c t).
  f_equal. apply IH.
Qed.

Lemma length_take (n : nat) (s : string) :
  String.length (JsString.take n s) = Nat.min n (String.length s).
Proof.
  revert s. induction n as [|n IH]; intros [|c t]; cbn; try reflexivity.
  rewrite IH. reflexivity.
Qed.

Lemma run_le_length (class : ascii -> bool) (s : string) :
  (JsString.run class s <= String.length s)%nat.
Proof.
  induction s as [|c t IH]; cbn; [lia|]. destruct (class c); lia.
Qed.

Lemma run_take (class : ascii -> bool) (n : nat) (s : string) :
  JsString.run class (JsString.take n s) = Nat.min n (JsString.run class s).
Proof.
  revert s. induction n as [|n IH]; intros [|c t]; cbn; try reflexivity.
  destruct (class c); [rewrite IH|]; reflexivity.
Qed.

Lemma prefix_cons (a c : ascii) (s t : string) :
  String.prefix (String a s) (String c t)
  = if ascii_dec a c then String.prefix s t else false.
Proof. reflexivity. Qed.

Lemma prefix_0x (text : string) :
  String.prefix "0x" text = true ->
  exists rest, text = String "0" (String "x" rest).
Proof.
  destruct text as [|c1 [|c2 rest]]; [discriminate| |].
  - rewrite prefix_cons. destruct (ascii_dec "0" c1); discriminate.
  - rewrite prefix_cons. destruct (ascii_dec "0" c1) as [<-|]; [|discriminate].
    rewrite prefix_cons. destruct (ascii_dec "x" c2) as [<-|]; [|discriminate].
    intros _. exists rest. reflexivity.
Qed.

Lemma match_EVM_ADDR_eq (text : string) :
  match_EVM_ADDR text
  = if String.prefix "0x" text
       && (40 <=? JsString.run JsString.isHex (JsString.drop 2 text))%nat
    then Some (JsString.take 42 text)
    else match text with
         | EmptyString => None
         | String _ rest => match_EVM_ADDR rest
         end.
Proof. destruct text; reflexivity. Qed.

Lemma match_SOLANA_ADDR_eq (text : string) :
  match_SOLANA_ADDR text
  = if (32 <=? JsString.run JsString.isBase58 text)%nat
    then Some (JsString.take
                 (Nat.min 44 (JsString.run JsString.isBase58 text)) text)
    else match text with
         | EmptyString => None
         | String _ rest => match_SOLANA_ADDR rest
         end.
Proof. destruct text; reflexivity. Qed.

Lemma match_EVM_ADDR_shape (text a : string) :
  match_EVM_ADDR text = Some a ->
  (exists before after, text = before ++ a ++ after)
  /\ String.length a = 42%nat
  /\ JsString.take 2 a = "0x"
  /\ JsString.run JsString.isHex (JsString.drop 2 a) = 40%nat.
Proof.
  revert a. induction text as [|c rest IH]; intros a;
    rewrite match_EVM_ADDR_eq.
  - discriminate.
  - destruct (String.prefix "0x" (String c rest)
              && (40 <=? JsString.run JsString.isHex
                           (JsString.drop 2 (String c rest)))%nat) eqn:E.
    + intros H.
      assert (Ha : a = JsString.take 42 (String c rest)) by congruence.
      clear H. subst a.
      apply andb_true_iff in E. destruct E as (Hp & Hr).
      apply Nat.leb_le in Hr.
      destruct (prefix_0x _ Hp) as (tail & Ht). rewrite Ht in *.
      change (JsString.drop 2 (String "0" (String "x" tail))) with tail in Hr.
      pose proof (run_le_length JsString.isHex tail) as Hl.
      split; [|split; [|split]].
      * exists "", (JsString.drop 42 (String "0" (String "x" tail))).
        change ("" ++ ?x) with x. symmetry. apply take_drop.
      * rewrite length_take.
        change (String.length (String "0" (String "x" tail)))
          with (S (S (String.length tail))). lia.
      * reflexivity.
      * change (JsString.drop 2
                  (JsString.take 42 (String "0" (String "x" tail))))
          with (JsString.take 40 tail).
        rewrite run_take. lia.
    + intros H. destruct (IH a H) as ((before & after & ->) & Hrest).
      split; [|exact Hrest]. exists (String c before), after. reflexivity.
Qed.

Lemma match_SOLANA_ADDR_shape (text a : string) :
  match_SOLANA_ADDR text = Some a ->
  (exists before after, text = before ++ a ++ after)
  /\ (32 <= String.length a <= 44)%nat
  /\ JsString.run JsString.isBase58 a = String.length a.
Proof.
  revert a. induction text as [|c rest IH]; intros a;
    rewrite match_SOLANA_ADDR_eq.
  - discriminate.
  - destruct (32 <=? JsString.run JsString.isBase58 (String c rest))%nat eqn:E.
    + intros H.
      assert (Ha : a = JsString.take
                         (Nat.min 44
                            (JsString.run JsString.isBase58 (String c rest)))
                         (String c rest)) by congruence.
      clear H. subst a. apply Nat.leb_le in E.
      pose proof (run_le_length JsString.isBase58 (String c rest)) as Hl.
      split; [|split].
      * exists "", (JsString.drop
                      (Nat.min 44 (JsString.run JsString.isBase58 (String c rest)))
                      (String c rest)).
        change ("" ++ ?x) with x. symmetry. apply take_drop.
      * rewrite length_take. lia.
      * rewrite run_take, length_take. lia.
    + intros H. destruct (IH a H) as ((before & after & ->) & Hrest).
      split; [|exact Hrest]. exists (String c before), after. reflexivity.
Qed.

Lemma run_app (class : ascii -> bool) (s t : string) :
  (JsString.run class s <= JsString.run class (s ++ t))%nat.
Proof.
  induction s as [|c s IH]; [cbn; lia|].
  change (String c s ++ t) with (String c (s ++ t)).
  cbn [JsString.run]. destruct (class c); lia.
Qed.

Lemma run_drop_run (class : ascii -> bool) (s : string) :
  JsString.run class (JsString.drop (JsString.run class s) s) = 0%nat.
Proof.
  induction s as [|c t IH]; [reflexivity|].
  cbn [JsString.run]. destruct (class c) eqn:E.
  - cbn [JsString.drop]. exact IH.
  - cbn [JsString.drop JsString.run]. rewrite E. reflexivity.
Qed.

Lemma take_0x (p : string) :
  JsString.take 2 p = "0x" -> exists tail, p = String "0" (String "x" tail).
Proof.
  destruct p as [|c1 [|c2 tail]]; cbn [JsString.take]; intros H;
    try discriminate H.
  injection H as H1 H2. subst c1 c2. exists tail. reflexivity.
Qed.

(** A piece of the shape at the start of a text is seen by the test the
    matcher makes there. *)
Lemma EVM_shaped_head (piece after : string) :
  EVM_shaped piece ->
  String.prefix "0x" (piece ++ after)
  && (40 <=? JsString.run JsString.isHex (JsString.drop 2 (piece ++ after)))%nat
  = true.
Proof.
  intros (_ & H0x & Hrun). destruct (take_0x piece H0x) as (tail & ->).
  change (JsString.drop 2 (String "0" (String "x" tail))) with tail in Hrun.
  change (String "0" (String "x" tail) ++ after)
    with (String "0" (String "x" (tail ++ after))).
  change (JsString.drop 2 (String "0" (String "x" (tail ++ after))))
    with (tail ++ after).
  rewrite !prefix_cons.
  destruct (ascii_dec "0" "0") as [_|N]; [|congruence].
  destruct (ascii_dec "x" "x") as [_|N]; [|congruence].
  pose proof (run_app JsString.isHex tail after) as Hle.
  apply andb_true_iff. split; [|apply Nat.leb_le; lia].
  destruct (tail ++ after); reflexivity.
Qed.

Lemma SOLANA_shaped_head (piece after : string) :
  SOLANA_shaped piece ->
  (32 <=? JsString.run JsString.isBase58 (piece ++ after))%nat = true.
Proof.
  intros ((Hlo & _) & Hrun).
  pose proof (run_app JsString.isBase58 piece after) as Hle.
  apply Nat.leb_le. lia.
Qed.

Lemma match_EVM_ADDR_complete (text piece : string) :
  piece_of piece text -> EVM_shaped piece -> match_EVM_ADDR text <> None.
Proof.
  intros (before & after & ->) Hs. induction before as [|c before IH].
  - change ("" ++ ?x) with x.
    rewrite match_EVM_ADDR_eq, (EVM_shaped_head _ _ Hs). discriminate.
  - change (String c before ++ ?x) with (String c (before ++ x)).
    rewrite match_EVM_ADDR_eq.
    destruct (String.prefix "0x" _ && _); [discriminate|exact IH].
Qed.

Lemma match_SOLANA_ADDR_complete (text piece : string) :
  piece_of piece text -> SOLANA_shaped piece -> match_SOLANA_ADDR text <> None.
Proof.
  intros (before & after & ->) Hs. induction before as [|c before IH].
  - change ("" ++ ?x) with x.
    rewrite match_SOLANA_ADDR_eq, (SOLANA_shaped_head _ _ Hs). discriminate.
  - change (String c before ++ ?x) with (String c (before ++ x)).
    rewrite match_SOLANA_ADDR_eq.
    destruct (32 <=? _)%nat; [discriminate|exact IH].
Qed.

Lemma match_EVM_ADDR_leftmost (text a : string) :
  match_EVM_ADDR text = Some a ->
  exists before after,
    text = before ++ a ++ after /\ leftmost EVM_shaped before text.
Proof.
  revert a. induction text as [|c rest IH]; intros a;
    rewrite match_EVM_ADDR_eq.
  - discriminate.
  - destruct (String.prefix "0x" (String c rest)
              && (40 <=? JsString.run JsString.isHex
                           (JsString.drop 2 (String c rest)))%nat) eqn:E.
    + intros H.
      assert (Ha : a = JsString.take 42 (String c rest)) by congruence.
      clear H. subst a.
      exists "", (JsString.drop 42 (String c rest)). split.
      * change ("" ++ ?x) with x. symmetry. apply take_drop.
      * intros before' piece after' _ _. cbn. lia.
    + intros H. destruct (IH a H) as (before & after & Et & Hleft).
      exists (String c before), after. split.
      * rewrite Et at 1. reflexivity.
      * intros [|c' before'] piece after' Ht Hs.
        -- change ("" ++ ?x) with x in Ht. rewrite Ht in E.
           rewrite (EVM_shaped_head _ _ Hs) in E. discriminate E.
        -- change (String c' before' ++ ?x) with (String c' (before' ++ x)) in Ht.
           injection Ht as _ Ht. pose proof (Hleft _ _ _ Ht Hs) as Hle.
           cbn [String.length]. lia.
Qed.

Lemma match_SOLANA_ADDR_leftmost (text a : string) :
  match_SOLANA_ADDR text = Some a ->
  exists before after,
    text = before ++ a ++ after
    /\ leftmost SOLANA_shaped before text
    /\ (String.length a = 44%nat \/ JsString.run JsString.isBase58 after = 0%nat).
Proof.
  revert a. induction text as [|c rest IH]; intros a;
    rewrite match_SOLANA_ADDR_eq.
  - discriminate.
  - destruct (32 <=? JsString.run JsString.isBase58 (String c rest))%nat eqn:E.
    + intros H.
      assert (Ha : a = JsString.take
                         (Nat.min 44
                            (JsString.run JsString.isBase58 (String c rest)))
                         (String c rest)) by congruence.
      clear H. subst a.
      pose proof (run_le_length JsString.isBase58 (String c rest)) as Hl.
      exists "", (JsString.drop
                    (Nat.min 44 (JsString.run JsString.isBase58 (String c rest)))
                    (String c rest)).
      split; [|split].
      * change ("" ++ ?x) with x. symmetry. apply take_drop.
      * intros before' piece after' _ _. cbn. lia.
      * rewrite length_take.
        destruct (Nat.le_gt_cases 44
                    (JsString.run JsString.isBase58 (String c rest)))
          as [Hlong|Hshort]; [left; lia|right].
        rewrite Nat.min_r by lia. apply run_drop_run.
    + intros H. destruct (IH a H) as (before & after & Et & Hleft & Hend).
      exists (String c before), after. split; [|split; [|exact Hend]].
      * rewrite Et at 1. reflexivity.
      * intros [|c' before'] piece after' Ht Hs.
        -- change ("" ++ ?x) with x in Ht. rewrite Ht in E.
           rewrite (SOLANA_shaped_head _ _ Hs) in E. discriminate E.
        -- change (String c' before' ++ ?x) with (String c' (before' ++ x)) in Ht.
           injection Ht as _ Ht. pose proof (Hleft _ _ _ Ht Hs) as Hle.
           cbn [String.length]. lia.
Qed.

(** X22: the address taken from a message.  It is a piece of the message:
    either the leftmost piece made of "0x" and 40 hexadecimal digits, on
    ethereum, base, bsc or arbitrum; or, only when no piece of the message
    has that shape, the leftmost run of 32 to 44 base58 characters, taken
    as long as the bound allows, on solana.  No address is found exactly
    when no piece of the message has either shape. *)
Theorem extractAddress_shape (text : string) :
  (forall address chain : string,
      extractAddress text = Some (address, chain) ->
      exists before after : string,
        text = before ++ address ++ after
        /\ ((String.length address = 42%nat
             /\ JsString.take 2 address = "0x"
             /\ JsString.run JsString.isHex (JsString.drop 2 address) = 40%nat
             /\ In chain ["ethereum"; "base"; "bsc"; "arbitrum"]
             /\ leftmost EVM_shaped before text)
            \/ (chain = "solana"
                /\ (forall piece, piece_of piece text -> ~ EVM_shaped piece)
                /\ (32 <= String.length address <= 44)%nat
                /\ JsString.run JsString.isBase58 address = String.length address
                /\ leftmost SOLANA_shaped before text
                /\ (String.length address = 44%nat
                    \/ JsString.run JsString.isBase58 after = 0%nat))))
  /\ (extractAddress text = None
      <-> forall piece, piece_of piece text ->
                        ~ EVM_shaped piece /\ ~ SOLANA_shaped piece).
Proof.
  unfold extractAddress. split.
  - intros address chain.
    destruct (match_EVM_ADDR text) as [evm|] eqn:Ee.
    + intros [= <- <-].
      destruct (match_EVM_ADDR_shape text evm Ee) as (_ & Hl & Hp & Hr).
      destruct (match_EVM_ADDR_leftmost text evm Ee)
        as (before & after & Et & Hleft).
      exists before, after. split; [exact Et|]. left.
      repeat (split; [assumption|]). split; [|exact Hleft].
      destruct (Js.includes _ "base"); [right; left; reflexivity|].
      destruct (Js.includes _ "bsc" || Js.includes _ "bnb");
        [right; right; left; reflexivity|].
      destruct (Js.includes _ "arb"); [right; right; right; left; reflexivity|].
      left; reflexivity.
    + destruct (match_SOLANA_ADDR text) as [sol|] eqn:Es; [|discriminate].
      intros [= <- <-].
      destruct (match_SOLANA_ADDR_shape text sol Es) as (_ & Hl & Hr).
      destruct (match_SOLANA_ADDR_leftmost text sol Es)
        as (before & after & Et & Hleft & Hend).
      exists before, after. split; [exact Et|]. right.
      split; [reflexivity|]. split.
      { intros piece Hp Hs.
        exact (match_EVM_ADDR_complete text piece Hp Hs Ee). }
      repeat (split; [assumption || lia|]). exact Hend.
  - destruct (match_EVM_ADDR text) as [evm|] eqn:Ee.
    + split; [discriminate|]. intros H. exfalso.
      destruct (match_EVM_ADDR_shape text evm Ee) as (Hp & Hs).
      exact (proj1 (H evm Hp) Hs).
    + destruct (match_SOLANA_ADDR text) as [sol|] eqn:Es.
      * split; [discriminate|]. intros H. exfalso.
        destruct (match_SOLANA_ADDR_shape text sol Es) as (Hp & Hs).
        exact (proj2 (H sol Hp) Hs).
      * split; [|reflexivity]. intros _ piece Hp. split; intros Hs.
        -- exact (match_EVM_ADDR_complete text piece Hp Hs Ee).
        -- exact (match_SOLANA_ADDR_complete text piece Hp Hs Es).
Qed.

(** X23: the SCORE_TOKEN action accepts a message exactly when its handler
    will find an address in it. *)
Theorem scoreToken_validate_finds_address (text : option string) :
  scoreToken_validate text = true
  <-> exists address chain,
        extractAddress (string_or text "") = Some (address, chain).
Proof.
  unfold scoreToken_validate, extractAddress; cbv zeta.
  destruct (match_EVM_ADDR (string_or text "")) as [evm|];
    destruct (match_SOLANA_ADDR (string_or text "")) as [sol|]; cbn;
    split; intros H; try reflexivity; try discriminate H; eauto.
  destruct H as (a & c & H). discriminate H.
Qed.
End Engine.

(** ** The engine on the sample inputs *)

Ltac by_evaluation := vm_compute; repeat split; try reflexivity; try discriminate.

(** Scenario A: 25+4+4+2+10+2 = 47, SKIP. *)
Example scenario_A :
  let s := fst (scoreToken Sample.locale Sample.pairA
                  (Sample.world (Sample.created + 200 * Sample.day))) in
  map ScoreBreakdown.score (TokenScore.breakdown s) = [25; 4; 4; 2; 10; 2]
  /\ TokenScore.totalScore s = 47 /\ TokenScore.action s = SKIP.
Proof. by_evaluation. Qed.

(** Scenario B: the factors add up to 100 and the two catalysts are clamped
    away, HOT. *)
Example scenario_B :
  let run := scoreToken Sample.locale Sample.pairB
               (Sample.world (Sample.created + 200 * Sample.day)) in
  let s := fst run in
  map ScoreBreakdown.score (TokenScore.breakdown s) = [25; 20; 20; 15; 10; 10]
  /\ map (fun c => (CatalystAdjustment.name c, CatalystAdjustment.points c))
         (deref (snd run) (TokenScore.catalysts s))
     = [("Buy Pressure", 3); ("Multi-Platform Presence", 5)]
  /\ TokenScore.totalScore s = 100 /\ TokenScore.action s = HOT.
Proof. by_evaluation. Qed.

Lemma factor_scores_within_weight_witness :
  ScoreBreakdown.score
    (scoreLiquidity Sample.locale (Sample.pairLiquidity 500000)) = 25
  /\ ScoreBreakdown.score
       (scoreLiquidity Sample.locale (Sample.pairLiquidity (49999999 # 100))) = 20.
Proof.
  split.
  - destruct (factor_scores_within_weight Sample.locale
                (Sample.pairLiquidity 500000) (Sample.world Sample.created))
      as (_ & _ & (H & _) & _).
    apply H. vm_compute. reflexivity.
  - destruct (factor_scores_within_weight Sample.locale
                (Sample.pairLiquidity (49999999 # 100))
                (Sample.world Sample.created))
      as (_ & _ & (_ & H & _) & _).
    apply H. vm_compute. reflexivity.
Defined.

(** C7, as stated, fails: a pair aged exactly 30 days is scored 5, not 8,
    and a pair aged exactly 7 days is scored 3, not 5; the 30-day and 7-day
    bounds are strict. *)
Lemma age_tier_bounds_are_strict :
  let w30 := Sample.world (Sample.created + 30 * Sample.day) in
  let w7 := Sample.world (Sample.created + 7 * Sample.day) in
  ageDays Sample.pairA w30 = 30
  /\ ScoreBreakdown.score (fst (scoreAge Sample.pairA w30)) = 5
  /\ ScoreBreakdown.score (fst (scoreAge Sample.pairA w30)) <> 8
  /\ ageDays Sample.pairA w7 = 7
  /\ ScoreBreakdown.score (fst (scoreAge Sample.pairA w7)) = 3
  /\ ScoreBreakdown.score (fst (scoreAge Sample.pairA w7)) <> 5.
Proof. by_evaluation. Qed.

Lemma tier_bounds_inclusive_except_age_witness :
  let w30 := Sample.world (Sample.created + 30 * Sample.day) in
  ageDays Sample.pairA w30 = 30
  /\ ScoreBreakdown.score (fst (scoreAge Sample.pairA w30)) = 5
  /\ (liquidityUsd (Sample.pairLiquidity 200000) == 200000)%Q
  /\ ScoreBreakdown.score
       (scoreLiquidity Sample.locale (Sample.pairLiquidity 200000)) = 20.
Proof.
  assert (H30 : ageDays Sample.pairA
                  (Sample.world (Sample.created + 30 * Sample.day)) = 30)
    by (vm_compute; reflexivity).
  assert (H200 : (liquidityUsd (Sample.pairLiquidity 200000) == 200000)%Q)
    by (vm_compute; reflexivity).
  cbv zeta. split; [exact H30|]. split.
  - destruct (tier_bounds_inclusive_except_age Sample.locale Sample.pairA
                (Sample.world (Sample.created + 30 * Sample.day)))
      as (_ & _ & _ & _ & _ & (_ & _ & _ & H & _)).
    exact (H H30).
  - split; [exact H200|].
    destruct (tier_bounds_inclusive_except_age Sample.locale
                (Sample.pairLiquidity 200000) (Sample.world Sample.created))
      as ((_ & H & _) & _).
    exact (H H200).
Defined.

Lemma factor_scores_monotone_witness :
  (liquidityUsd (Sample.pairLiquidity 150000)
   <= liquidityUsd (Sample.pairLiquidity 250000))%Q
  /\ ScoreBreakdown.score
       (scoreLiquidity Sample.locale (Sample.pairLiquidity 150000))
     <= ScoreBreakdown.score
          (scoreLiquidity Sample.locale (Sample.pairLiquidity 250000))
  /\ ageDays Sample.pairA (Sample.world (Sample.created + 7 * Sample.day))
     <= ageDays Sample.pairA (Sample.world (Sample.created + 8 * Sample.day))
  /\ ScoreBreakdown.score
       (fst (scoreAge Sample.pairA
               (Sample.world (Sample.created + 7 * Sample.day))))
     <= ScoreBreakdown.score
          (fst (scoreAge Sample.pairA
                  (Sample.world (Sample.created + 8 * Sample.day)))).
Proof.
  assert (Hl : (liquidityUsd (Sample.pairLiquidity 150000)
                <= liquidityUsd (Sample.pairLiquidity 250000))%Q)
    by (vm_compute; discriminate).
  assert (Ha : ageDays Sample.pairA
                 (Sample.world (Sample.created + 7 * Sample.day))
               <= ageDays Sample.pairA
                    (Sample.world (Sample.created + 8 * Sample.day)))
    by (vm_compute; discriminate).
  split; [exact Hl|]. split.
  - destruct (factor_scores_monotone Sample.locale
                (Sample.pairLiquidity 150000) (Sample.pairLiquidity 250000)
                (Sample.world Sample.created) (Sample.world Sample.created))
      as (H & _).
    exact (H Hl).
  - split; [exact Ha|].
    destruct (factor_scores_monotone Sample.locale Sample.pairA Sample.pairA
                (Sample.world (Sample.created + 7 * Sample.day))
                (Sample.world (Sample.created + 8 * Sample.day)))
      as (_ & _ & _ & _ & H).
    exact (H Ha).
Defined.

(** C9, as stated, fails: the same snapshot scored a day apart has its age
    factor move from 3 to 5 and its total from 40 to 42, so fields other
    than [scoredAt] differ. *)
Lemma scoreToken_depends_on_the_clock :
  let run1 := scoreToken Sample.locale Sample.pairA
                (Sample.world (Sample.created + 7 * Sample.day)) in
  let run2 := scoreToken Sample.locale Sample.pairA
                (Sample.world (Sample.created + 8 * Sample.day)) in
  map ScoreBreakdown.score (TokenScore.breakdown (fst run1))
  = [25; 4; 4; 2; 3; 2]
  /\ map ScoreBreakdown.score (TokenScore.breakdown (fst run2))
     = [25; 4; 4; 2; 5; 2]
  /\ TokenScore.totalScore (fst run1) = 40
  /\ TokenScore.totalScore (fst run2) = 42
  /\ untimed (snd run1) (fst run1) <> untimed (snd run2) (fst run2).
Proof.
  cbv zeta. repeat split; try (vm_compute; reflexivity).
  intros H.
  assert (E : TokenScore.totalScore
                (fst (scoreToken Sample.locale Sample.pairA
                        (Sample.world (Sample.created + 7 * Sample.day))))
              = TokenScore.totalScore
                  (fst (scoreToken Sample.locale Sample.pairA
                          (Sample.world (Sample.created + 8 * Sample.day))))).
  { unfold untimed in H. congruence. }
  vm_compute in E. discriminate E.
Qed.

Lemma scoreToken_depends_on_snapshot_and_age_witness :
  let w1 := Sample.world (Sample.created + 8 * Sample.day) in
  let w2 := Sample.world (Sample.created + 9 * Sample.day - 1) in
  ageDays Sample.pairA w1 = ageDays Sample.pairA w2
  /\ untimed (snd (scoreToken Sample.locale Sample.pairA w1))
             (fst (scoreToken Sample.locale Sample.pairA w1))
     = untimed (snd (scoreToken Sample.locale Sample.pairA w2))
               (fst (scoreToken Sample.locale Sample.pairA w2)).
Proof.
  assert (H : ageDays Sample.pairA
                (Sample.world (Sample.created + 8 * Sample.day))
              = ageDays Sample.pairA
                  (Sample.world (Sample.created + 9 * Sample.day - 1)))
    by (vm_compute; reflexivity).
  split; [exact H|].
  exact (scoreToken_depends_on_snapshot_and_age Sample.locale Sample.pairA
           _ _ H).
Defined.

Ltac by_membership :=
  first [ apply (bool_decide_unpack _); vm_compute; exact I
        | apply (proj1 (bool_decide_eq_false _)); vm_compute; reflexivity ].

Lemma catalyst_ratio_guards_witness :
  let found :=
    fst (detectCatalysts Sample.pairNoDenominator (Sample.world Sample.created)) in
  (Windows.h24 (DexPair.volume Sample.pairNoDenominator) == 0)%Q
  /\ ~ In "Volume Momentum" (names found)
  /\ (BuySell.sells (Txns.h24 (DexPair.txns Sample.pairNoDenominator)) == 0)%Q
  /\ ~ In "Buy Pressure" (names found).
Proof.
  destruct (catalyst_ratio_guards Sample.pairNoDenominator
              (Sample.world Sample.created)) as (V & B & _).
  assert (Hv : (Windows.h24 (DexPair.volume Sample.pairNoDenominator) == 0)%Q)
    by reflexivity.
  assert (Hs : (BuySell.sells (Txns.h24 (DexPair.txns Sample.pairNoDenominator))
                == 0)%Q) by reflexivity.
  cbv zeta. split; [exact Hv|]. split; [exact (V Hv)|].
  split; [exact Hs|exact (B Hs)].
Defined.

Lemma mixer_funding_auto_rejects_witness :
  (Sample.mixerAddress ∈ Sample.mixers)
  /\ fst (generateFlags Sample.mixers Sample.institutions Sample.deployer
            Sample.mixerAddress 5 2 Sample.creations
            (Sample.world Sample.created))
     = [ {| WalletFlagDetail.flag := MIXER_REJECT;
            WalletFlagDetail.impact := -100;
            WalletFlagDetail.reason := "Funded by known mixer: Mixer111..." |} ].
Proof.
  assert (H : Sample.mixerAddress ∈ Sample.mixers) by by_membership.
  split; [exact H|].
  destruct (mixer_funding_auto_rejects Sample.mixers Sample.institutions
              Sample.deployer Sample.mixerAddress Sample.balances
              Sample.creations (Sample.world Sample.created) H) as (G & _).
  change (Balances.nativeBalance Sample.balances) with 5%Q in G.
  change (Balances.tokenCount Sample.balances) with 2%nat in G.
  rewrite G. reflexivity.
Defined.

(** Scenario C end to end: a mixer-funded deployer merged into the score of
    scenario B (100, HOT) gives 0, SKIP. *)
Example scenario_C :
  let w := Sample.world (Sample.created + 200 * Sample.day) in
  let '(score, w1) := scoreToken Sample.locale Sample.pairB w in
  match analyzeWallet Sample.mixers Sample.institutions Sample.deployer
          (Some Sample.balances) (Some Sample.creations) Sample.mixerAddress w1
  with
  | (Some r, w2) =>
      let adjusted := fst (applyWalletAdjustment score r w2) in
      TokenScore.totalScore score = 100
      /\ map (fun f => (WalletFlagDetail.flag f, WalletFlagDetail.impact f))
             (WalletForensicsResult.flags r) = [(MIXER_REJECT, -100)]
      /\ WalletForensicsResult.riskLevel r = CRITICAL
      /\ WalletForensicsResult.scoreAdjustment r = -100
      /\ TokenScore.totalScore adjusted = 0
      /\ TokenScore.action adjusted = SKIP
  | (None, _) => False
  end.
Proof. by_evaluation. Qed.



Lemma wallet_flags_never_empty_witness :
  let w := Sample.world Sample.created in
  (Sample.funder ∉ Sample.mixers)
  /\ (Sample.funder ∉ Sample.institutions)
  /\ (Sample.deployer ∉ Sample.institutions)
  /\ (countTokenCreates [] <= 5)%nat
  /\ dumping [] w = false
  /\ Balances.tokenCount Sample.emptyWallet = 0%nat
  /\ exists (r : WalletForensicsResult) (w' : World),
       analyzeWallet Sample.mixers Sample.institutions Sample.deployer
         (Some Sample.emptyWallet) (Some []) Sample.funder w
       = (Some r, w')
       /\ WalletForensicsResult.flags r = [wallet_verified].
Proof.
  assert (H1 : Sample.funder ∉ Sample.mixers) by by_membership.
  assert (H2 : Sample.funder ∉ Sample.institutions) by by_membership.
  assert (H3 : Sample.deployer ∉ Sample.institutions) by by_membership.
  assert (H4 : (countTokenCreates [] <= 5)%nat) by (vm_compute; lia).
  assert (H5 : dumping [] (Sample.world Sample.created) = false)
    by (vm_compute; reflexivity).
  assert (H6 : Balances.tokenCount Sample.emptyWallet = 0%nat) by reflexivity.
  cbv zeta. repeat (split; [assumption|]).
  destruct (wallet_flags_never_empty Sample.mixers Sample.institutions
              Sample.deployer Sample.funder Sample.emptyWallet []
              (Sample.world Sample.created))
    as (r & w' & Hr & _ & _ & _ & _ & _ & _ & Hquiet & _).
  exists r, w'. split; [exact Hr|].
  apply Hquiet; try assumption. right. exact H6.
Defined.

(** C6: [applyWalletAdjustment] on the score of scenario B and the forensics
    result of scenario D.  The returned object holds the same [catalysts]
    array as its input, and after the call that array, read through the
    input score, has grown by the two wallet entries: the input's catalysts
    list is not what it was before the call.  Its scalar fields are
    untouched (the total stays 100 while the adjusted total is 97). *)
Theorem applyWalletAdjustment_mutates_input :
  let w := Sample.world (Sample.created + 200 * Sample.day) in
  let '(score, w1) := scoreToken Sample.locale Sample.pairB w in
  match analyzeWallet Sample.mixers Sample.institutions Sample.deployer
          (Some Sample.balances) (Some Sample.creations) Sample.funder w1
  with
  | (Some walletResult, w2) =>
      let '(adjusted, w3) := applyWalletAdjustment score walletResult w2 in
      TokenScore.catalysts adjusted = TokenScore.catalysts score
      /\ names (deref w2 (TokenScore.catalysts score))
         = ["Buy Pressure"; "Multi-Platform Presence"]
      /\ names (deref w3 (TokenScore.catalysts score))
         = ["Buy Pressure"; "Multi-Platform Presence";
            "Wallet: SERIAL_CREATOR"; "Wallet: NET_POSITIVE"]
      /\ untimed w3 score <> untimed w2 score
      /\ TokenScore.totalScore score = 100
      /\ TokenScore.totalScore adjusted = 97
  | (None, _) => False
  end.
Proof. 
  vm_compute. repeat split; try reflexivity. intros H. discriminate H.
Qed.

(** ** More of the engine on the sample inputs *)

(** A batch of the two scenario pairs comes back with B (100) before A (47). *)
Example batch_of_two :
  map (fun s => TokenScore.totalScore s)
      (fst (batchScore Sample.locale [Sample.pairA; Sample.pairB]
              (Sample.world (Sample.created + 200 * Sample.day))))
  = [100; 47].
Proof. vm_compute. reflexivity. Qed.

Lemma scoreToken_allocates_fresh_witness :
  let w := Sample.world (Sample.created + 200 * Sample.day) in
  let first := scoreToken Sample.locale Sample.pairB w in
  let second := scoreToken Sample.locale Sample.pairA (snd first) in
  wf_world w
  /\ wf_world (snd first)
  /\ heap w !! TokenScore.catalysts (fst first) = None
  /\ is_Some (heap (snd first) !! TokenScore.catalysts (fst first))
  /\ heap (snd first) !! TokenScore.catalysts (fst second) = None
  /\ heap (snd second) !! TokenScore.catalysts (fst first)
     = heap (snd first) !! TokenScore.catalysts (fst first)
  /\ wf_world (snd second).
Proof.
  assert (H : wf_world (Sample.world (Sample.created + 200 * Sample.day))).
  { intros l [x Hx]. cbn in Hx. rewrite lookup_empty in Hx. discriminate Hx. }
  cbv zeta. split; [exact H|].
  destruct (scoreToken_allocates_fresh Sample.locale Sample.pairB _ H)
    as (Hnew & Hsome & _ & Hwf).
  destruct (scoreToken_allocates_fresh Sample.locale Sample.pairA _ Hwf)
    as (Hnew2 & _ & Hkeep & Hwf2).
  split; [exact Hwf|]. split; [exact Hnew|]. split; [exact Hsome|].
  split; [exact Hnew2|]. split; [|exact Hwf2].
  apply Hkeep. exact Hsome.
Defined.

Lemma short_history_is_low_risk_witness :
  (Sample.funder ∉ Sample.mixers)
  /\ (length (firstn 2 Sample.creations) < 3)%nat
  /\ exists (r : WalletForensicsResult) (w' : World),
       analyzeWallet Sample.mixers Sample.institutions Sample.deployer
         (Some Sample.balances) (Some (firstn 2 Sample.creations))
         Sample.funder (Sample.world Sample.created)
       = (Some r, w')
       /\ WalletForensicsResult.riskLevel r = LOW.
Proof.
  assert (H1 : Sample.funder ∉ Sample.mixers) by by_membership.
  assert (H2 : (length (firstn 2 Sample.creations) < 3)%nat)
    by (vm_compute; lia).
  split; [exact H1|]. split; [exact H2|].
  destruct (short_history_is_low_risk Sample.mixers Sample.institutions
              Sample.deployer Sample.funder Sample.balances
              (firstn 2 Sample.creations) (Sample.world Sample.created) H1 H2)
    as (r & w' & Hr & Hl & _).
  exists r, w'. split; assumption.
Defined.

Lemma age_of_odd_creation_instants_witness :
  let w := Sample.world (Sample.created - Sample.day) in
  DexPair.pairCreatedAt Sample.pairA = Some (inject_Z Sample.created)
  /\ ~ (inject_Z Sample.created == 0)%Q
  /\ (inject_Z (clock w (reads w)) < inject_Z Sample.created)%Q
  /\ ScoreBreakdown.score (fst (scoreAge Sample.pairA w)) = 2.
Proof.
  assert (H1 : DexPair.pairCreatedAt Sample.pairA
               = Some (inject_Z Sample.created)) by reflexivity.
  assert (H2 : ~ (inject_Z Sample.created == 0)%Q) by (vm_compute; discriminate).
  assert (H3 : (inject_Z (clock (Sample.world (Sample.created - Sample.day))
                            (reads (Sample.world (Sample.created - Sample.day))))
                < inject_Z Sample.created)%Q) by (vm_compute; reflexivity).
  cbv zeta. split; [exact H1|]. split; [exact H2|]. split; [exact H3|].
  destruct (age_of_odd_creation_instants Sample.locale Sample.pairA
              (Sample.world (Sample.created - Sample.day)) _ H1) as (_ & H).
  destruct (H H2) as (_ & Hf). destruct (Hf H3) as (Hs & _). exact Hs.
Defined.

Lemma extractAddress_shape_witness :
  extractAddress Sample.evmMessage
  = Some ("0x1234567890abcdef1234567890abcdef12345678", "base")
  /\ extractAddress Sample.solanaMessage
     = Some ("7xKXtg2CW87d97TXJSDpbD5jBkheTqA83TZRuJosgAsU", "solana")
  /\ (exists before after,
        Sample.evmMessage
        = before ++ "0x1234567890abcdef1234567890abcdef12345678" ++ after
        /\ leftmost EVM_shaped before Sample.evmMessage)
  /\ (forall piece, piece_of piece Sample.solanaMessage -> ~ EVM_shaped piece).
Proof.
  assert (H1 : extractAddress Sample.evmMessage
               = Some ("0x1234567890abcdef1234567890abcdef12345678", "base"))
    by (vm_compute; reflexivity).
  assert (H2 : extractAddress Sample.solanaMessage
               = Some ("7xKXtg2CW87d97TXJSDpbD5jBkheTqA83TZRuJosgAsU",
                       "solana"))
    by (vm_compute; reflexivity).
  split; [exact H1|]. split; [exact H2|]. split.
  - destruct (proj1 (extractAddress_shape Sample.evmMessage) _ _ H1)
      as (before & after & Et & [(_ & _ & _ & _ & Hleft)|(Hc & _)]).
    + exists before, after. split; assumption.
    + discriminate Hc.
  - destruct (proj1 (extractAddress_shape Sample.solanaMessage) _ _ H2)
      as (before & after & Et & [(_ & _ & _ & Hin & _)|(_ & Hno & _)]).
    + exfalso. cbn in Hin.
      destruct Hin as [Hin|[Hin|[Hin|[Hin|[]]]]]; discriminate Hin.
    + exact Hno.
Defined.

Lemma funding_source_provenance_witness :
  findFundingSource Sample.deployer (Json (Some Sample.history)) = Sample.duster
  /\ Sample.duster <> "UNKNOWN"
  /\ exists tx transfers t,
       In tx Sample.history
       /\ incoming_to Sample.deployer tx = true
       /\ RawTx.nativeTransfers tx = Some transfers
       /\ In t transfers
       /\ NativeTransfer.fromUserAccount t = Some Sample.duster.
Proof.
  assert (E : findFundingSource Sample.deployer (Json (Some Sample.history))
              = Sample.duster) by (vm_compute; reflexivity).
  assert (N : findFundingSource Sample.deployer (Json (Some Sample.history))
              <> "UNKNOWN") by (rewrite E; discriminate).
  split; [exact E|]. split; [discriminate|].
  destruct (funding_source_provenance Sample.deployer
              (Json (Some Sample.history))) as (H & _).
  destruct (H N) as (txns & tx & transfers & t & Hj & Hin & Hinc & _ & Ht
                     & Hf & Hs).
  injection Hj as <-. rewrite E in Hs.
  exists tx, transfers, t. repeat split; try assumption.
  apply find_some in Hf. destruct Hf as (Hf & _). exact Hf.
Defined.

Lemma scanHighPotential_edges_witness :
  Sample.noChains ≫= ScanOptions.chains = Some []
  /\ scanHighPotential Sample.noChains Sample.profiles NotOk
       Sample.lookups Sample.lookups = []
  /\ scanHighPotential None Sample.profiles NotOk Sample.lookups Sample.lookups
     = [Sample.pairB].
Proof.
  assert (H : Sample.noChains ≫= ScanOptions.chains = Some []) by reflexivity.
  split; [exact H|]. split; [|vm_compute; reflexivity].
  generalize (scanHighPotential_edges Sample.locale Sample.noChains Sample.profiles NotOk
                Sample.lookups Sample.lookups).
  cbv zeta. unfold scan_minimums. intros (Hempty & _). exact (Hempty H).
Defined.

Lemma bestPair_has_most_liquidity_witness :
  bestPair Sample.markets = Some (Sample.pairLiquidity 300000)
  /\ In (Sample.pairLiquidity 300000) Sample.markets.
Proof.
  assert (H : bestPair Sample.markets = Some (Sample.pairLiquidity 300000))
    by (vm_compute; reflexivity).
  split; [exact H|].
  destruct (bestPair_has_most_liquidity Sample.markets) as (_ & Hb).
  destruct (Hb _ H) as (Hin & _). exact Hin.
Defined.
